(** * Opportunity Scout: extraction-and-ranking pipeline

    A shallow embedding of the algorithmic core of the repository:

    - [backend_b/services/embedding_service.py]  ([chunk_text],
      [generate_embedding]),
    - [backend_b/services/ranking_service.py]    ([_parse_date], [_is_expired],
      [_days_until_deadline], [rank_opportunities_with_ai], [rank_opportunities]),
    - [backend/services/ai_processor.py]         ([_parse_opportunities],
      [_validate_and_fix_opportunities], [process_search_results]),
    - [backend/models/opportunity.py]            (the pydantic models),
    - [backend/services/serper_search.py]        ([_build_queries]),
    - [backend/score.py]                         ([run]).

    Python values that come out of [json.loads] are modelled by the inductive
    type [json]; Python exceptions by the [result] type; library functions the
    repository calls but does not define ([json.loads], [datetime.strptime],
    the chat completion endpoint, pydantic's field validators, [uuid.uuid4])
    are parameters of the sections that use them, and a reference instance of
    each is given so that the functions can be evaluated on concrete inputs. *)

From Stdlib Require Import List String Ascii ZArith QArith Bool Lia.
From Stdlib Require Import Permutation Sorted.
Import ListNotations.

Local Open Scope string_scope.
Local Open Scope Z_scope.

(* ------------------------------------------------------------------------- *)
(** ** Python exceptions and the result type *)

Inductive exn : Type :=
| TypeError
| KeyError
| AttributeError
| ValueError
| ValidationError.

Inductive result (A : Type) : Type :=
| Ok (a : A)
| Raise (e : exn).

Arguments Ok {A} a.
Arguments Raise {A} e.

Definition bind {A B : Type} (m : result A) (k : A -> result B) : result B :=
  match m with
  | Ok a => k a
  | Raise e => Raise e
  end.

Notation "x <- m ;; k" := (bind m (fun x => k))
  (at level 61, m at next level, right associativity).

Fixpoint mapM {A B : Type} (f : A -> result B) (l : list A) : result (list B) :=
  match l with
  | [] => Ok []
  | a :: l' => b <- f a ;; bs <- mapM f l' ;; Ok (b :: bs)
  end.

(* ------------------------------------------------------------------------- *)
(** ** Python strings

    [str] is modelled by [string]; indices and lengths are Python integers,
    hence [Z].  [find] and [rfind] return [-1] when the pattern is absent. *)

Module PyStr.

Definition len (s : string) : Z := Z.of_nat (String.length s).

(** Normalisation of one slice bound, as [PySlice_AdjustIndices] does it for
    a step of 1: a negative bound counts from the end, and everything is
    clamped to [0 .. len]. *)
Definition adjust (n i : Z) : Z :=
  if i <? 0 then Z.max 0 (i + n) else Z.min i n.

(** [s[i:j]] *)
Definition slice (s : string) (i j : Z) : string :=
  let n := len s in
  let a := adjust n i in
  let b := adjust n j in
  if a <? b then substring (Z.to_nat a) (Z.to_nat (b - a)) s else "".

(** [s.find(sep)], scanning from position [i] of the original string. *)
Fixpoint find_from (sep s : string) (i : Z) : Z :=
  if prefix sep s then i
  else match s with
       | EmptyString => -1
       | String _ s' => find_from sep s' (i + 1)
       end.

Definition find (s sep : string) : Z := find_from sep s 0.

(** [s.rfind(sep)]: the highest index at which [sep] occurs. *)
Fixpoint rfind_from (sep s : string) (i : Z) : Z :=
  match s with
  | EmptyString => if prefix sep s then i else -1
  | String _ s' =>
      let r := rfind_from sep s' (i + 1) in
      if 0 <=? r then r else if prefix sep s then i else -1
  end.

Definition rfind (s sep : string) : Z := rfind_from sep s 0.

(** Characters removed by [str.strip()] with no argument, within the 8-bit
    range of [ascii]: TAB, LF, VT, FF, CR, FS, GS, RS, US, SPACE, NEL, NBSP. *)
Definition is_space (c : ascii) : bool :=
  let n := nat_of_ascii c in
  ((9 <=? n) && (n <=? 13))%nat || ((28 <=? n) && (n <=? 32))%nat
  || (n =? 133)%nat || (n =? 160)%nat.

Fixpoint lstrip (s : string) : string :=
  match s with
  | EmptyString => EmptyString
  | String c s' => if is_space c then lstrip s' else s
  end.

Fixpoint rstrip (s : string) : string :=
  match s with
  | EmptyString => EmptyString
  | String c s' =>
      match rstrip s' with
      | EmptyString => if is_space c then EmptyString else String c EmptyString
      | r => String c r
      end
  end.

Definition strip (s : string) : string := rstrip (lstrip s).

(** Truth value of a string: [bool(s)]. *)
Definition truthy (s : string) : bool :=
  match s with EmptyString => false | _ => true end.

(** [sep.join(parts)] *)
Fixpoint join (sep : string) (parts : list string) : string :=
  match parts with
  | [] => ""
  | [p] => p
  | p :: rest => p ++ sep ++ join sep rest
  end.

Definition LF : string := String (ascii_of_nat 10) EmptyString.

End PyStr.

(* ------------------------------------------------------------------------- *)
(** ** [EmbeddingService.chunk_text]  (embedding_service.py, lines 97-141) *)

Module Chunking.

(** The sentence separators, in the order the source tries them:
    ['. ', '.\n', '! ', '? ', '\n\n']. *)
Definition sentence_seps : list string :=
  [". "; "." ++ PyStr.LF; "! "; "? "; PyStr.LF ++ PyStr.LF].

(** The [for sep in ...: ... break / else: ...] statement.  [window] is
    [text[start:end]]; the result is the new [end]. *)
Fixpoint sentence_cut (seps : list string) (window : string)
         (chunk_size start : Z) : option Z :=
  match seps with
  | [] => None
  | sep :: seps' =>
      let last_sep := PyStr.rfind window sep in
      if negb (last_sep =? -1) && (chunk_size / 2 <? last_sep)
      then Some (start + last_sep + PyStr.len sep)
      else sentence_cut seps' window chunk_size start
  end.

Definition word_cut (window : string) (chunk_size start end_ : Z) : Z :=
  let last_space := PyStr.rfind window " " in
  if negb (last_space =? -1) && (chunk_size / 2 <? last_space)
  then start + last_space + 1
  else end_.

(** The value of [end] when the chunk is cut. *)
Definition cut_end (text : string) (chunk_size start : Z) : Z :=
  let end_ := start + chunk_size in
  if end_ <? PyStr.len text then
    let window := PyStr.slice text start end_ in
    match sentence_cut sentence_seps window chunk_size start with
    | Some e => e
    | None => word_cut window chunk_size start end_
    end
  else end_.

(** The value of [start] at the head of the next iteration. *)
Definition next_start (text : string) (chunk_size overlap start : Z) : Z :=
  let s := cut_end text chunk_size start - overlap in
  if s <? 0 then 0 else s.

(** One iteration of the [while] body on the pair [(start, chunks)]. *)
Definition chunk_step (text : string) (chunk_size overlap : Z)
           (st : Z * list string) : Z * list string :=
  let '(start, chunks) := st in
  let chunk := PyStr.strip (PyStr.slice text start (cut_end text chunk_size start)) in
  (next_start text chunk_size overlap start,
   if PyStr.truthy chunk then (chunks ++ [chunk])%list else chunks).

(** The [while start < len(text)] loop, with [fuel] bounding the number of
    iterations; [None] means the loop is still running when the fuel is
    spent. *)
Fixpoint chunk_loop (fuel : nat) (text : string) (chunk_size overlap : Z)
         (st : Z * list string) : option (list string) :=
  if fst st <? PyStr.len text then
    match fuel with
    | O => None
    | S fuel' => chunk_loop fuel' text chunk_size overlap
                            (chunk_step text chunk_size overlap st)
    end
  else Some (snd st).

Definition chunk_text_fuel (fuel : nat) (text : string)
           (chunk_size overlap : Z) : option (list string) :=
  if negb (PyStr.truthy text) || (PyStr.len text <=? chunk_size)
  then Some (if PyStr.truthy text then [text] else [])
  else chunk_loop fuel text chunk_size overlap (0, []).

(** The successive values of [start] at the loop head, for at most [fuel]
    iterations. *)
Fixpoint window_starts (fuel : nat) (text : string) (chunk_size overlap : Z)
         (start : Z) : list Z :=
  if start <? PyStr.len text then
    match fuel with
    | O => []
    | S fuel' => start :: window_starts fuel' text chunk_size overlap
                                        (next_start text chunk_size overlap start)
    end
  else [].

End Chunking.

(* ------------------------------------------------------------------------- *)
(** ** Python values

    The values [json.loads] produces.  A finite number is a rational:
    every finite [int] or [float] is one, and comparison and equality of
    finite numbers agree with those of the rationals.  [JNaN] is the float
    NaN, which [json.loads] returns for the literal [NaN], every time the
    same object ([json.decoder.NaN]): it is truthy and hashable, it has no
    numeric value, and [<] between it and a number answers [False] either
    way round.  The floats [Infinity] and [-Infinity], which order with the
    finite numbers as these do among themselves, have no counterpart.  A
    [dict] keeps its insertion order and has string keys. *)

#[warnings="-register-all"]
Inductive json : Type :=
| JNull
| JBool (b : bool)
| JNum (q : Q)
| JNaN
| JStr (s : string)
| JList (l : list json)
| JDict (d : list (string * json)).

Module PyDict.

Definition t : Type := list (string * json).

(** [d[k]] as an option: [None] when the key is missing. *)
Fixpoint lookup (d : t) (k : string) : option json :=
  match d with
  | [] => None
  | (k', v) :: d' => if String.eqb k k' then Some v else lookup d' k
  end.

(** [d.get(k, default)] *)
Definition get (d : t) (k : string) (default : json) : json :=
  match lookup d k with
  | Some v => v
  | None => default
  end.

(** [d[k] = v]: an existing key keeps its position. *)
Fixpoint set (d : t) (k : string) (v : json) : t :=
  match d with
  | [] => [(k, v)]
  | (k', v') :: d' =>
      if String.eqb k k' then (k, v) :: d' else (k', v') :: set d' k v
  end.

End PyDict.

Module Py.

Definition Qlt_bool (x y : Q) : bool := negb (Qle_bool y x).

(** [bool(v)] *)
Definition truthy (v : json) : bool :=
  match v with
  | JNull => false
  | JBool b => b
  | JNum q => negb (Qeq_bool q 0)
  | JNaN => true
  | JStr s => PyStr.truthy s
  | JList l => match l with [] => false | _ => true end
  | JDict d => match d with [] => false | _ => true end
  end.

(** [v.get(k, default)]: only a [dict] has the method. *)
Definition get (v : json) (k : string) (default : json) : result json :=
  match v with
  | JDict d => Ok (PyDict.get d k default)
  | _ => Raise AttributeError
  end.

(** [v[k]] for a string [k]. *)
Definition subscript (v : json) (k : string) : result json :=
  match v with
  | JDict d => match PyDict.lookup d k with
               | Some x => Ok x
               | None => Raise KeyError
               end
  | _ => Raise TypeError
  end.

(** [iter(v)]: a list yields its items, a dict its keys, a string its
    characters; nothing else is iterable. *)
Fixpoint chars (s : string) : list json :=
  match s with
  | EmptyString => []
  | String c s' => JStr (String c EmptyString) :: chars s'
  end.

Definition iter (v : json) : result (list json) :=
  match v with
  | JList l => Ok l
  | JDict d => Ok (map (fun kv => JStr (fst kv)) d)
  | JStr s => Ok (chars s)
  | _ => Raise TypeError
  end.

(** [hash(v)] is defined for everything but lists and dicts. *)
Definition hashable (v : json) : bool :=
  match v with
  | JList _ | JDict _ => false
  | _ => true
  end.

(** The numeric value of an [int], of a finite [float] or of a [bool];
    NaN has none. *)
Definition number (v : json) : option Q :=
  match v with
  | JNum q => Some q
  | JBool b => Some (if b then 1%Q else 0%Q)
  | _ => None
  end.

(** [isinstance(v, (int, float))], which holds of a [bool] and of NaN. *)
Definition is_number (v : json) : bool :=
  match v with
  | JNum _ | JBool _ | JNaN => true
  | _ => false
  end.

(** Equality as a [dict] tests it on keys and a [list] on items: [a is b
    or a == b].  The two differ on NaN only, which is not [==] to itself
    but is the one object [json.loads] returns for every [NaN]. *)
Fixpoint eq (a b : json) : bool :=
  match a, b with
  | JNull, JNull => true
  | JNaN, JNaN => true
  | JBool x, JBool y => Bool.eqb x y
  | JBool x, JNum q => Qeq_bool (if x then 1 else 0) q
  | JNum q, JBool y => Qeq_bool q (if y then 1 else 0)
  | JNum p, JNum q => Qeq_bool p q
  | JStr s, JStr t => String.eqb s t
  | JList l, JList m =>
      (fix go (l m : list json) : bool :=
         match l, m with
         | [], [] => true
         | x :: l', y :: m' => eq x y && go l' m'
         | _, _ => false
         end) l m
  | JDict d, JDict e =>
      Nat.eqb (List.length d) (List.length e)
      && (fix go (d : list (string * json)) : bool :=
            match d with
            | [] => true
            | (k, v) :: d' =>
                match PyDict.lookup e k with
                | Some w => eq v w
                | None => false
                end && go d'
            end) d
  | _, _ => false
  end.

(** [a < b]; ordering is defined between numbers, between strings and
    between lists, and raises [TypeError] otherwise.  Between two numbers
    of which one is NaN the answer is [False], whichever way round. *)
Fixpoint lt (a b : json) : result bool :=
  match a, b with
  | JStr s, JStr t => Ok (String.ltb s t)
  | JList l, JList m =>
      (fix go (l m : list json) : result bool :=
         match l, m with
         | [], [] => Ok false
         | [], _ :: _ => Ok true
         | _ :: _, [] => Ok false
         | x :: l', y :: m' => if eq x y then go l' m' else lt x y
         end) l m
  | _, _ =>
      match number a, number b with
      | Some p, Some q => Ok (Qlt_bool p q)
      | _, _ => if is_number a && is_number b then Ok false
                else Raise TypeError
      end
  end.

(** [sep.join(items)]: every item must be a [str]. *)
Fixpoint as_strings (items : list json) : result (list string) :=
  match items with
  | [] => Ok []
  | JStr s :: rest => ss <- as_strings rest ;; Ok (s :: ss)
  | _ :: _ => Raise TypeError
  end.

Definition join (sep : string) (items : list json) : result string :=
  ss <- as_strings items ;; Ok (PyStr.join sep ss).

End Py.

(* ------------------------------------------------------------------------- *)
(** ** [RankingService]  (ranking_service.py) *)

(** A naive [datetime] is identified with its position on the time line, in
    microseconds since 0001-01-01T00:00:00: comparison of naive datetimes is
    comparison of these integers, and subtraction yields a [timedelta] whose
    [days] attribute is the floor of the difference over one day. *)
Definition datetime : Type := Z.

Definition microseconds_per_day : Z := 86400 * 1000000.

Definition timedelta_days (later earlier : datetime) : Z :=
  (later - earlier) / microseconds_per_day.

(** What [client.chat.completions.create(...)] followed by
    [response.choices[0].message.content] can do inside the [try] block:
    raise, or deliver the message content, which the API types as an optional
    string. *)
Inductive chat_outcome : Type :=
| ChatError
| ChatContent (content : option string).

(** One entry of [ranked_opportunities].  The source builds a [dict] with
    exactly these keys; the values are whatever the lookups deliver. *)
Record RankedOpportunity : Type := mkRanked {
  opportunity_id : json;
  event_name : json;
  event_type : json;
  description : json;
  start_date : json;
  end_date : json;
  application_deadline : json;
  location : json;
  is_virtual : json;
  is_paid : json;
  compensation_amount : json;
  application_url : json;
  source_url : json;
  match_score : json;
  relevance_score : json;
  preference_score : json;
  match_reasons : json;
  matching_keywords : json;
  is_expired : bool;
  days_until_deadline : option Z
}.

(** The dictionary [rank_opportunities] returns. *)
Record RankingResult : Type := mkRanking {
  ranked_opportunities : list RankedOpportunity;
  total_opportunities : Z;
  valid_opportunities : Z;
  expired_opportunities : Z
}.

Module Ranking.

(** [ai_ranking_lookup]: a dict keyed by whatever hashable value the scorer
    put under ["opportunity_id"]. *)
Definition lookup_table : Type := list (json * json).

Fixpoint table_set (t : lookup_table) (k r : json) : lookup_table :=
  match t with
  | [] => [(k, r)]
  | (k', r') :: t' =>
      if Py.eq k k' then (k', r) :: t' else (k', r') :: table_set t' k r
  end.

Fixpoint table_find (t : lookup_table) (k : json) : option json :=
  match t with
  | [] => None
  | (k', r) :: t' => if Py.eq k k' then Some r else table_find t' k
  end.

(** [{r["opportunity_id"]: r for r in ai_rankings}], one item at a time. *)
Fixpoint build_table (items : list json) (acc : lookup_table)
  : result lookup_table :=
  match items with
  | [] => Ok acc
  | r :: rest =>
      k <- Py.subscript r "opportunity_id" ;;
      if Py.hashable k then build_table rest (table_set acc k r)
      else Raise TypeError
  end.

Definition build_lookup (ai_rankings : json) : result lookup_table :=
  items <- Py.iter ai_rankings ;;
  build_table items [].

(** [ai_ranking_lookup.get(opp_id, {})] *)
Definition table_get (t : lookup_table) (k : json) : result json :=
  if Py.hashable k then
    Ok (match table_find t k with Some r => r | None => JDict [] end)
  else Raise TypeError.

(** [ranked_results.sort(key=lambda x: x["match_score"], reverse=True)].
    [list.sort] is stable, also with [reverse=True]: it orders by decreasing
    key and leaves items with equal keys in their original order, using only
    [<] on the keys.  The model inserts each item, from the last to the
    first, in front of the sorted rest, moving it right past every item with
    a strictly greater key.  Where [<] orders the keys, as it does numbers,
    this is the list every stable sort returns.  With NaN among the keys
    [<] is no order: [list.sort] then neither raises nor sorts, and the list
    it leaves depends on the comparisons it happened to make.  The model
    makes its own there, which lead to CPython's list for up to three
    items and not always for more. *)
Fixpoint insert_desc (x : RankedOpportunity) (l : list RankedOpportunity)
  : result (list RankedOpportunity) :=
  match l with
  | [] => Ok [x]
  | y :: l' =>
      b <- Py.lt (match_score x) (match_score y) ;;
      if b then (r <- insert_desc x l' ;; Ok (y :: r)) else Ok (x :: l)
  end.

Fixpoint sort_desc (l : list RankedOpportunity) : result (list RankedOpportunity) :=
  match l with
  | [] => Ok []
  | x :: l' => r <- sort_desc l' ;; insert_desc x r
  end.

Section Service.

(** [datetime.strptime(date_string, format)]; [None] stands for
    [ValueError]. *)
Variable strptime : string -> string -> option datetime.

(** [json.loads(text)]; [None] stands for [json.JSONDecodeError]. *)
Variable json_loads : string -> option json.

(** [str(v)], as an f-string interpolates a value. *)
Variable py_str : json -> string.

(** [current_date.strftime("%Y-%m-%d")] *)
Variable strftime_ymd : datetime -> string.

(** The chat completion call.  The two prompts are fixed templates around
    three strings: the current date, the profile summary and the text of the
    opportunities; the outcome is given as a function of these. *)
Variable chat_completion : string -> string -> string -> chat_outcome.

Definition formats : list string :=
  ["%Y-%m-%d"; "%Y-%m-%dT%H:%M:%S"; "%Y-%m-%dT%H:%M:%SZ"; "%Y-%m-%d %H:%M:%S";
   "%d/%m/%Y"; "%m/%d/%Y"; "%B %d, %Y"; "%b %d, %Y"].

(** The [for fmt in formats: try ... except ValueError: continue] loop. *)
Fixpoint first_format (fmts : list string) (date_str : string) : option datetime :=
  match fmts with
  | [] => None
  | fmt :: fmts' =>
      match strptime date_str fmt with
      | Some d => Some d
      | None => first_format fmts' date_str
      end
  end.

(** [_parse_date], lines 43-65.  [strptime] raises [TypeError] when its
    first argument is not a string. *)
Definition _parse_date (date_str : json) : result (option datetime) :=
  if negb (Py.truthy date_str) then Ok None
  else match date_str with
       | JStr s => Ok (first_format formats s)
       | _ => Raise TypeError
       end.

(** [_is_expired], lines 67-85. *)
Definition _is_expired (opportunity : json) (current_date : datetime) : result bool :=
  dates <- Py.get opportunity "dates" (JDict []) ;;
  deadline_str <- Py.get dates "application_deadline" JNull ;;
  if negb (Py.truthy deadline_str) then
    start_str <- Py.get dates "start_date" JNull ;;
    if Py.truthy start_str then
      start_date <- _parse_date start_str ;;
      match start_date with
      | Some d => if d <? current_date then Ok true else Ok false
      | None => Ok false
      end
    else Ok false
  else
    deadline <- _parse_date deadline_str ;;
    match deadline with
    | Some d => Ok (d <? current_date)
    | None => Ok false
    end.

(** [_days_until_deadline], lines 87-100. *)
Definition _days_until_deadline (opportunity : json) (current_date : datetime)
  : result (option Z) :=
  dates <- Py.get opportunity "dates" (JDict []) ;;
  deadline_str <- Py.get dates "application_deadline" JNull ;;
  if negb (Py.truthy deadline_str) then Ok None
  else
    deadline <- _parse_date deadline_str ;;
    match deadline with
    | Some d => Ok (Some (timedelta_days d current_date))
    | None => Ok None
    end.

(** [loc_parts], built the same way at lines 121-126 and 308-313. *)
Definition loc_parts (location : json) : result (list json) :=
  city <- Py.get location "city" JNull ;;
  country <- Py.get location "country" JNull ;;
  Ok ((if Py.truthy city then [city] else [])
        ++ (if Py.truthy country then [country] else []))%list.

(** An f-string [f"<label>{v}"]. *)
Definition field (label : string) (v : json) : string := label ++ py_str v.

(** [_prepare_opportunity_text], lines 102-145, as the list [parts]. *)
Definition _prepare_opportunity_parts (opportunity : json) : result (list string) :=
  id <- Py.get opportunity "id" (JStr "unknown") ;;
  name <- Py.get opportunity "event_name" (JStr "Unknown Event") ;;
  type <- Py.get opportunity "event_type" (JStr "unknown") ;;
  descr <- Py.get opportunity "description" JNull ;;
  dates <- Py.get opportunity "dates" (JDict []) ;;
  start <- Py.get dates "start_date" JNull ;;
  end_ <- Py.get dates "end_date" JNull ;;
  deadline <- Py.get dates "application_deadline" JNull ;;
  location <- Py.get opportunity "location" (JDict []) ;;
  lparts <- loc_parts location ;;
  loc_line <- match lparts with
              | [] => Ok []
              | _ => s <- Py.join ", " lparts ;; Ok [("Location: " ++ s)%string]
              end ;;
  virtual <- Py.get location "is_virtual" JNull ;;
  compensation <- Py.get opportunity "compensation" (JDict []) ;;
  paid <- Py.get compensation "is_paid" JNull ;;
  amount <- Py.get compensation "amount" JNull ;;
  keywords <- Py.get opportunity "keywords_matched" JNull ;;
  kw_line <- (if Py.truthy keywords
              then items <- Py.iter keywords ;;
                   s <- Py.join ", " items ;; Ok [("Keywords: " ++ s)%string]
              else Ok []) ;;
  Ok ([field "ID: " id; field "Event: " name; field "Type: " type]
        ++ (if Py.truthy descr then [field "Description: " descr] else [])
        ++ (if Py.truthy start then [field "Start Date: " start] else [])
        ++ (if Py.truthy end_ then [field "End Date: " end_] else [])
        ++ (if Py.truthy deadline
            then [field "Application Deadline: " deadline] else [])
        ++ loc_line
        ++ (if Py.truthy virtual then ["Format: Virtual"] else [])
        ++ [if Py.truthy paid
            then if Py.truthy amount then field "Compensation: $" amount
                 else "Compensation: Paid"
            else "Compensation: Unpaid/Unknown"]
        ++ kw_line)%list.

Definition _prepare_opportunity_text (opportunity : json) : result string :=
  parts <- _prepare_opportunity_parts opportunity ;;
  Ok (PyStr.join PyStr.LF parts).

(** The [try] block of [rank_opportunities_with_ai], lines 217-245: every
    exception raised inside it, including a [JSONDecodeError] from the
    second [json.loads] and the [TypeError] of [json.loads(None)], ends in
    [return []]. *)
Definition parse_rankings (outcome : chat_outcome) : json :=
  match outcome with
  | ChatError => JList []
  | ChatContent None => JList []
  | ChatContent (Some result_text) =>
      match json_loads result_text with
      | Some rankings => rankings
      | None =>
          let start_idx := PyStr.find result_text "[" in
          let end_idx := PyStr.rfind result_text "]" + 1 in
          if negb (start_idx =? -1) && (start_idx <? end_idx) then
            match json_loads (PyStr.slice result_text start_idx end_idx) with
            | Some rankings => rankings
            | None => JList []
            end
          else JList []
      end
  end.

(** [rank_opportunities_with_ai], lines 147-245.  The texts of the
    opportunities are prepared outside the [try] block. *)
Definition opportunities_separator : string :=
  PyStr.LF ++ PyStr.LF ++ "---" ++ PyStr.LF ++ PyStr.LF.

Definition rank_opportunities_with_ai (profile_summary : string)
           (opportunities : list json) (current_date : datetime) : result json :=
  opp_texts <- mapM _prepare_opportunity_text opportunities ;;
  let opportunities_text := PyStr.join opportunities_separator opp_texts in
  let current_date_str := strftime_ymd current_date in
  Ok (parse_rankings
        (chat_completion current_date_str profile_summary opportunities_text)).

(** The first loop of [rank_opportunities], lines 271-278: the pair
    [(valid_opportunities, expired_count)]. *)
Fixpoint partition_expired (opportunities : list json) (current_date : datetime)
  : result (list json * Z) :=
  match opportunities with
  | [] => Ok ([], 0)
  | opp :: rest =>
      expired <- _is_expired opp current_date ;;
      r <- partition_expired rest current_date ;;
      let '(valid, expired_count) := r in
      if expired then Ok (valid, expired_count + 1)
      else Ok (opp :: valid, expired_count)
  end.

(** The body of the second loop, lines 303-342. *)
Definition ranked_entry (ai_ranking_lookup : lookup_table)
           (current_date : datetime) (opp : json) : result RankedOpportunity :=
  opp_id <- Py.get opp "id" (JStr "") ;;
  ai_ranking <- table_get ai_ranking_lookup opp_id ;;
  location <- Py.get opp "location" (JDict []) ;;
  lparts <- loc_parts location ;;
  location_str <- match lparts with
                  | [] => Ok JNull
                  | _ => s <- Py.join ", " lparts ;; Ok (JStr s)
                  end ;;
  compensation <- Py.get opp "compensation" (JDict []) ;;
  v_event_name <- Py.get opp "event_name" (JStr "Unknown Event") ;;
  v_event_type <- Py.get opp "event_type" JNull ;;
  v_description <- Py.get opp "description" JNull ;;
  dates <- Py.get opp "dates" (JDict []) ;;
  v_start_date <- Py.get dates "start_date" JNull ;;
  v_end_date <- Py.get dates "end_date" JNull ;;
  v_deadline <- Py.get dates "application_deadline" JNull ;;
  v_is_virtual <- Py.get location "is_virtual" (JBool false) ;;
  v_is_paid <- Py.get compensation "is_paid" (JBool false) ;;
  v_amount <- Py.get compensation "amount" JNull ;;
  application <- Py.get opp "application" (JDict []) ;;
  v_url <- Py.get application "url" JNull ;;
  v_source_url <- Py.get opp "source_url" JNull ;;
  v_match <- Py.get ai_ranking "match_score" (JNum (1 # 2)) ;;
  v_relevance <- Py.get ai_ranking "relevance_score" (JNum (1 # 2)) ;;
  v_preference <- Py.get ai_ranking "preference_score" (JNum (1 # 2)) ;;
  v_reasons <- Py.get ai_ranking "match_reasons" (JList []) ;;
  v_keywords <- Py.get ai_ranking "matching_keywords" (JList []) ;;
  days <- _days_until_deadline opp current_date ;;
  Ok {| opportunity_id := opp_id;
        event_name := v_event_name;
        event_type := v_event_type;
        description := v_description;
        start_date := v_start_date;
        end_date := v_end_date;
        application_deadline := v_deadline;
        location := location_str;
        is_virtual := v_is_virtual;
        is_paid := v_is_paid;
        compensation_amount := v_amount;
        application_url := v_url;
        source_url := v_source_url;
        match_score := v_match;
        relevance_score := v_relevance;
        preference_score := v_preference;
        match_reasons := v_reasons;
        matching_keywords := v_keywords;
        is_expired := false;
        days_until_deadline := days |}.

(** [rank_opportunities], lines 247-352.  [current_date] is the value of
    [datetime.utcnow()] at the call. *)
Definition rank_opportunities (current_date : datetime) (profile_summary : string)
           (opportunities : list json) : result RankingResult :=
  r <- partition_expired opportunities current_date ;;
  let '(valid, expired_count) := r in
  match valid with
  | [] => Ok {| ranked_opportunities := [];
                total_opportunities := Z.of_nat (List.length opportunities);
                valid_opportunities := 0;
                expired_opportunities := expired_count |}
  | _ =>
      ai_rankings <- rank_opportunities_with_ai profile_summary valid current_date ;;
      ai_ranking_lookup <- build_lookup ai_rankings ;;
      ranked_results <- mapM (ranked_entry ai_ranking_lookup current_date) valid ;;
      sorted <- sort_desc ranked_results ;;
      Ok {| ranked_opportunities := sorted;
            total_opportunities := Z.of_nat (List.length opportunities);
            valid_opportunities := Z.of_nat (List.length valid);
            expired_opportunities := expired_count |}
  end.

End Service.

End Ranking.

(* ------------------------------------------------------------------------- *)
(** ** Reference instances of the library functions

    The sections above and below take [json.loads], [datetime.strptime] and
    [str] as parameters.  The functions of this module follow the library
    documentation closely enough to evaluate the pipeline on concrete
    texts. *)

Module Reference.

Definition dquote : ascii := ascii_of_nat 34.
Definition backslash : ascii := ascii_of_nat 92.

Definition code (c : ascii) : Z := Z.of_nat (nat_of_ascii c).

Definition is_digit (c : ascii) : bool := (48 <=? code c) && (code c <=? 57).

Definition digit_value (c : ascii) : Z := code c - 48.

(** *** [json.loads]

    The grammar of RFC 8259 as the [json] module reads it: whitespace is
    space, TAB, LF and CR; duplicate keys keep the last value; the literal
    [NaN] is accepted.  Two restrictions come with the value type: the
    literals [Infinity] and [-Infinity], and [\u] escapes above U+00FF,
    are rejected. *)

Definition is_json_ws (c : ascii) : bool :=
  (code c =? 32) || (code c =? 9) || (code c =? 10) || (code c =? 13).

Fixpoint skip_ws (s : string) : string :=
  match s with
  | String c s' => if is_json_ws c then skip_ws s' else s
  | EmptyString => s
  end.

(** The longest run of digits at the head of [s]: its value, its length and
    the rest. *)
Fixpoint digits (s : string) (acc : Z) (n : nat) : Z * nat * string :=
  match s with
  | String c s' =>
      if is_digit c then digits s' (10 * acc + digit_value c) (S n) else (acc, n, s)
  | EmptyString => (acc, n, s)
  end.

(** The integer part: a single 0, or a non-zero digit and more digits. *)
Definition int_part (s : string) : option (Z * string) :=
  match s with
  | String c s' =>
      if code c =? 48 then Some (0, s')
      else if is_digit c then
             let '(v, _, r) := digits s 0 O in Some (v, r)
           else None
  | EmptyString => None
  end.

(** The optional fraction, a dot and digits: its digits as a number and
    how many they are. *)
Definition frac_part (s : string) : Z * nat * string :=
  match s with
  | String c s' =>
      if code c =? 46 then
        match digits s' 0 O with
        | (_, O, _) => (0, O, s)
        | (v, n, r) => (v, n, r)
        end
      else (0, O, s)
  | EmptyString => (0, O, s)
  end.

(** The optional exponent: e or E, an optional sign, digits. *)
Definition exp_part (s : string) : Z * string :=
  match s with
  | String c s' =>
      if (code c =? 101) || (code c =? 69) then
        let '(neg, s'') :=
          match s' with
          | String d r => if code d =? 45 then (true, r)
                          else if code d =? 43 then (false, r) else (false, s')
          | EmptyString => (false, s')
          end in
        match digits s'' 0 O with
        | (_, O, _) => (0, s)
        | (v, _, r) => (if neg then - v else v, r)
        end
      else (0, s)
  | EmptyString => (0, s)
  end.

Definition scale (q : Q) (e : Z) : Q :=
  match e with
  | Z0 => q
  | Zpos p => (q * inject_Z (Z.pow 10 (Zpos p)))%Q
  | Zneg p => (q / inject_Z (Z.pow 10 (Zpos p)))%Q
  end.

Definition number (s : string) : option (json * string) :=
  let '(neg, s1) :=
    match s with
    | String c r => if code c =? 45 then (true, r) else (false, s)
    | EmptyString => (false, s)
    end in
  match int_part s1 with
  | None => None
  | Some (i, s2) =>
      let '(f, n, s3) := frac_part s2 in
      let '(e, s4) := exp_part s3 in
      let den := Pos.pow 10 (Pos.of_nat n) in
      let mag := match n with
                 | O => inject_Z i
                 | _ => Qmake (i * Zpos den + f) den
                 end in
      Some (JNum (Qred (scale (if neg then (- mag)%Q else mag) e)), s4)
  end.

Definition hex_value (c : ascii) : option Z :=
  let n := code c in
  if is_digit c then Some (n - 48)
  else if (97 <=? n) && (n <=? 102) then Some (n - 87)
  else if (65 <=? n) && (n <=? 70) then Some (n - 55)
  else None.

Definition unicode_escape (a b c d : ascii) : option ascii :=
  match hex_value a, hex_value b, hex_value c, hex_value d with
  | Some x, Some y, Some z, Some w =>
      let n := ((x * 16 + y) * 16 + z) * 16 + w in
      if n <? 256 then Some (ascii_of_nat (Z.to_nat n)) else None
  | _, _, _, _ => None
  end.

Definition escape (c : ascii) : option ascii :=
  let n := code c in
  if (n =? 34) || (n =? 92) || (n =? 47) then Some c
  else if n =? 98 then Some (ascii_of_nat 8)
  else if n =? 102 then Some (ascii_of_nat 12)
  else if n =? 110 then Some (ascii_of_nat 10)
  else if n =? 114 then Some (ascii_of_nat 13)
  else if n =? 116 then Some (ascii_of_nat 9)
  else None.

Definition cons_char (a : option ascii) (r : option (string * string))
  : option (string * string) :=
  match a, r with
  | Some c, Some (t, rest) => Some (String c t, rest)
  | _, _ => None
  end.

(** The body of a string literal, after the opening quote: the decoded
    string and what follows the closing quote. *)
Fixpoint string_body (s : string) : option (string * string) :=
  match s with
  | EmptyString => None
  | String c s' =>
      if Ascii.eqb c dquote then Some (EmptyString, s')
      else if Ascii.eqb c backslash then
             match s' with
             | String e s'' =>
                 if code e =? 117 then
                   match s'' with
                   | String h1 (String h2 (String h3 (String h4 r))) =>
                       cons_char (unicode_escape h1 h2 h3 h4) (string_body r)
                   | _ => None
                   end
                 else cons_char (escape e) (string_body s'')
             | EmptyString => None
             end
      else if code c <? 32 then None
      else cons_char (Some c) (string_body s')
  end.

(** A literal name at the head of [s]. *)
Definition literal (name : string) (v : json) (s : string) : option (json * string) :=
  if prefix name s
  then Some (v, substring (String.length name) (String.length s - String.length name) s)
  else None.

Definition head_is (n : Z) (s : string) : bool :=
  match s with
  | String c _ => code c =? n
  | EmptyString => false
  end.

Definition tail (s : string) : string :=
  match s with
  | String _ s' => s'
  | EmptyString => s
  end.

(** One JSON value at the head of [s] (no leading whitespace), and the rest
    of the text.  [elements] and [members] read what follows the opening
    bracket or brace and a first check for the empty collection. *)
Fixpoint value (fuel : nat) (s : string) : option (json * string) :=
  match fuel with
  | O => None
  | S fuel' =>
      if head_is 91 s then
        let r := skip_ws (tail s) in
        if head_is 93 r then Some (JList [], tail r) else elements fuel' r []
      else if head_is 123 s then
        let r := skip_ws (tail s) in
        if head_is 125 r then Some (JDict [], tail r) else members fuel' r []
      else if head_is 34 s then
        match string_body (tail s) with
        | Some (t, r) => Some (JStr t, r)
        | None => None
        end
      else if head_is 110 s then literal "null" JNull s
      else if head_is 116 s then literal "true" (JBool true) s
      else if head_is 102 s then literal "false" (JBool false) s
      else if head_is 78 s then literal "NaN" JNaN s
      else number s
  end
with elements (fuel : nat) (s : string) (acc : list json) : option (json * string) :=
  match fuel with
  | O => None
  | S fuel' =>
      match value fuel' s with
      | Some (v, r) =>
          let r := skip_ws r in
          if head_is 44 r then elements fuel' (skip_ws (tail r)) (acc ++ [v])%list
          else if head_is 93 r then Some (JList (acc ++ [v])%list, tail r)
          else None
      | None => None
      end
  end
with members (fuel : nat) (s : string) (acc : PyDict.t) : option (json * string) :=
  match fuel with
  | O => None
  | S fuel' =>
      if head_is 34 s then
        match string_body (tail s) with
        | Some (k, r) =>
            let r := skip_ws r in
            if head_is 58 r then
              match value fuel' (skip_ws (tail r)) with
              | Some (v, r) =>
                  let r := skip_ws r in
                  if head_is 44 r
                  then members fuel' (skip_ws (tail r)) (PyDict.set acc k v)
                  else if head_is 125 r then Some (JDict (PyDict.set acc k v), tail r)
                  else None
              | None => None
              end
            else None
        | None => None
        end
      else None
  end.

Definition json_loads (s : string) : option json :=
  match value (2 * String.length s + 2) (skip_ws s) with
  | Some (v, r) => match skip_ws r with
                   | EmptyString => Some v
                   | _ => None
                   end
  | None => None
  end.

(** Texts are written with an apostrophe where JSON has a double quote. *)
Fixpoint dq (s : string) : string :=
  match s with
  | EmptyString => EmptyString
  | String c s' => String (if code c =? 39 then dquote else c) (dq s')
  end.

(** *** [datetime.strptime]

    [_strptime] turns the format into a regular expression, matched without
    regard to case, and requires the match to cover the whole text: a
    directive becomes an alternation tried in order, a run of whitespace in
    the format becomes one or more whitespace characters, any other character
    stands for itself.  The directives are those of [formats]: Y, m, d, H, M,
    S, B and b, with the month names of the C locale. *)

Record fields : Type := mkFields {
  f_year : Z; f_month : Z; f_day : Z; f_hour : Z; f_minute : Z; f_second : Z
}.

Definition fields0 : fields := mkFields 1900 1 1 0 0 0.

Definition lower (c : ascii) : ascii :=
  let n := code c in
  if (65 <=? n) && (n <=? 90) then ascii_of_nat (Z.to_nat (n + 32)) else c.

Fixpoint lower_string (s : string) : string :=
  match s with
  | EmptyString => EmptyString
  | String c s' => String (lower c) (lower_string s')
  end.

(** Two digits [a b] at the head of the text, accepted by [ok a b]. *)
Definition two_digits (ok : Z -> Z -> bool) (s : string) : list (Z * string) :=
  match s with
  | String a (String b r) =>
      if is_digit a && is_digit b && ok (digit_value a) (digit_value b)
      then [(10 * digit_value a + digit_value b, r)] else []
  | _ => []
  end.

Definition one_digit (ok : Z -> bool) (s : string) : list (Z * string) :=
  match s with
  | String a r => if is_digit a && ok (digit_value a) then [(digit_value a, r)] else []
  | EmptyString => []
  end.

Definition month_alts (s : string) : list (Z * string) :=
  (two_digits (fun a b => (a =? 1) && (b <=? 2)) s
   ++ two_digits (fun a b => (a =? 0) && (1 <=? b)) s
   ++ one_digit (fun a => 1 <=? a) s)%list.

Definition day_alts (s : string) : list (Z * string) :=
  (two_digits (fun a b => (a =? 3) && (b <=? 1)) s
   ++ two_digits (fun a b => (1 <=? a) && (a <=? 2)) s
   ++ two_digits (fun a b => (a =? 0) && (1 <=? b)) s
   ++ one_digit (fun a => 1 <=? a) s
   ++ match s with
      | String c r => if code c =? 32 then one_digit (fun a => 1 <=? a) r else []
      | EmptyString => []
      end)%list.

Definition hour_alts (s : string) : list (Z * string) :=
  (two_digits (fun a b => (a =? 2) && (b <=? 3)) s
   ++ two_digits (fun a b => a <=? 1) s
   ++ one_digit (fun _ => true) s)%list.

Definition minute_alts (s : string) : list (Z * string) :=
  (two_digits (fun a b => a <=? 5) s ++ one_digit (fun _ => true) s)%list.

Definition second_alts (s : string) : list (Z * string) :=
  (two_digits (fun a b => (a =? 6) && (b <=? 1)) s
   ++ two_digits (fun a b => a <=? 5) s
   ++ one_digit (fun _ => true) s)%list.

Definition year_alts (s : string) : list (Z * string) :=
  match s with
  | String a (String b (String c (String d r))) =>
      if is_digit a && is_digit b && is_digit c && is_digit d
      then [(((digit_value a * 10 + digit_value b) * 10 + digit_value c) * 10
             + digit_value d, r)]
      else []
  | _ => []
  end.

(** The month names in the order of the alternation: longest first. *)
Definition full_names : list (string * Z) :=
  [("september", 9); ("february", 2); ("november", 11); ("december", 12);
   ("january", 1); ("october", 10); ("august", 8); ("march", 3); ("april", 4);
   ("june", 6); ("july", 7); ("may", 5)].

Definition short_names : list (string * Z) :=
  [("jan", 1); ("feb", 2); ("mar", 3); ("apr", 4); ("may", 5); ("jun", 6);
   ("jul", 7); ("aug", 8); ("sep", 9); ("oct", 10); ("nov", 11); ("dec", 12)].

Definition drop (n : nat) (s : string) : string :=
  substring n (String.length s - n) s.

Definition name_alts (names : list (string * Z)) (s : string) : list (Z * string) :=
  flat_map (fun nm => if prefix (fst nm) (lower_string s)
                      then [(snd nm, drop (String.length (fst nm)) s)] else [])
           names.

(** The texts left after one, two, ... whitespace characters, the longest
    run first. *)
Fixpoint space_alts (s : string) : list string :=
  match s with
  | String c r => if PyStr.is_space c then (space_alts r ++ [r])%list else []
  | EmptyString => []
  end.

Fixpoint first_some {A B : Type} (f : A -> option B) (l : list A) : option B :=
  match l with
  | [] => None
  | a :: l' => match f a with
               | Some b => Some b
               | None => first_some f l'
               end
  end.

Definition set_field (d : ascii) (v : Z) (st : fields) : fields :=
  let n := code d in
  if n =? 89 then mkFields v (f_month st) (f_day st) (f_hour st) (f_minute st) (f_second st)
  else if (n =? 109) || (n =? 66) || (n =? 98)
       then mkFields (f_year st) v (f_day st) (f_hour st) (f_minute st) (f_second st)
  else if n =? 100 then mkFields (f_year st) (f_month st) v (f_hour st) (f_minute st) (f_second st)
  else if n =? 72 then mkFields (f_year st) (f_month st) (f_day st) v (f_minute st) (f_second st)
  else if n =? 77 then mkFields (f_year st) (f_month st) (f_day st) (f_hour st) v (f_second st)
  else mkFields (f_year st) (f_month st) (f_day st) (f_hour st) (f_minute st) v.

Definition directive_alts (d : ascii) (s : string) : option (list (Z * string)) :=
  let n := code d in
  if n =? 89 then Some (year_alts s)
  else if n =? 109 then Some (month_alts s)
  else if n =? 100 then Some (day_alts s)
  else if n =? 72 then Some (hour_alts s)
  else if n =? 77 then Some (minute_alts s)
  else if n =? 83 then Some (second_alts s)
  else if n =? 66 then Some (name_alts full_names s)
  else if n =? 98 then Some (name_alts short_names s)
  else None.

(** The format as the matcher sees it: directives, runs of whitespace, and
    literal characters. *)
Inductive token : Type :=
| TDirective (d : ascii)
| TSpace
| TChar (c : ascii).

Fixpoint tokens (fmt : string) : list token :=
  match fmt with
  | EmptyString => []
  | String c fmt' =>
      if code c =? 37 then
        match fmt' with
        | String d fmt'' => TDirective d :: tokens fmt''
        | EmptyString => [TChar c]
        end
      else if PyStr.is_space c then
        match tokens fmt' with
        | TSpace :: ts => TSpace :: ts
        | ts => TSpace :: ts
        end
      else TChar c :: tokens fmt'
  end.

(** The first match of the format, in the order a backtracking matcher
    explores the alternatives, and the text it leaves. *)
Fixpoint match_tokens (ts : list token) (s : string) (st : fields)
  : option (fields * string) :=
  match ts with
  | [] => Some (st, s)
  | TDirective d :: ts' =>
      match directive_alts d s with
      | Some alts =>
          first_some (fun a => match_tokens ts' (snd a) (set_field d (fst a) st)) alts
      | None => None
      end
  | TSpace :: ts' => first_some (fun r => match_tokens ts' r st) (space_alts s)
  | TChar c :: ts' =>
      match s with
      | String x r => if Ascii.eqb (lower x) (lower c) then match_tokens ts' r st
                      else None
      | EmptyString => None
      end
  end.

Definition match_format (fmt s : string) (st : fields) : option (fields * string) :=
  match_tokens (tokens fmt) s st.

Definition is_leap (y : Z) : bool :=
  (y mod 4 =? 0) && (negb (y mod 100 =? 0) || (y mod 400 =? 0)).

Definition days_in_month (y m : Z) : Z :=
  if m =? 2 then (if is_leap y then 29 else 28)
  else if (m =? 4) || (m =? 6) || (m =? 9) || (m =? 11) then 30 else 31.

Definition days_before_year (y : Z) : Z :=
  let p := y - 1 in p * 365 + p / 4 - p / 100 + p / 400.

Fixpoint days_before_month (y : Z) (m : nat) : Z :=
  match m with
  | O => 0
  | S m' => match m' with
            | O => 0
            | _ => days_before_month y m' + days_in_month y (Z.of_nat m')
            end
  end.

(** [date.toordinal()]: 0001-01-01 is day 1. *)
Definition ordinal (y m d : Z) : Z :=
  days_before_year y + days_before_month y (Z.to_nat m) + d.

(** [datetime(y, m, d, H, M, S)] *)
Definition mkdate (y m d H M S : Z) : datetime :=
  ((((ordinal y m d - 1) * 24 + H) * 60 + M) * 60 + S) * 1000000.

Definition to_datetime (f : fields) : option datetime :=
  if (1 <=? f_year f) && (f_day f <=? days_in_month (f_year f) (f_month f))
     && (f_second f <=? 59)
  then Some (mkdate (f_year f) (f_month f) (f_day f)
                    (f_hour f) (f_minute f) (f_second f))
  else None.

Definition strptime (date_string format : string) : option datetime :=
  match match_format format date_string fields0 with
  | Some (f, EmptyString) => to_datetime f
  | _ => None
  end.

(** *** [str]

    The rendering of strings, [None], booleans and whole numbers; the text
    of the prompt is all that depends on it. *)

Fixpoint decimal (fuel : nat) (n : Z) (acc : string) : string :=
  match fuel with
  | O => acc
  | S fuel' =>
      let acc' := String (ascii_of_nat (Z.to_nat (48 + n mod 10))) acc in
      if n <? 10 then acc' else decimal fuel' (n / 10) acc'
  end.

Definition whole (n : Z) : string :=
  let digits := decimal (Z.to_nat (Z.log2 (Z.abs n)) + 1) (Z.abs n) "" in
  if n <? 0 then ("-" ++ digits)%string else digits.

Definition py_str (v : json) : string :=
  match v with
  | JNull => "None"
  | JBool true => "True"
  | JBool false => "False"
  | JStr s => s
  | JNum q => if Zpos (Qden (Qred q)) =? 1 then whole (Qnum (Qred q)) else ""
  | JNaN => "nan"
  | _ => ""
  end.

Definition pad2 (n : Z) : string :=
  if n <? 10 then ("0" ++ decimal 2 n "")%string else decimal 2 n "".

(** The month and day of the [n]-th day (from 0) of year [y], looking from
    month [m] on. *)
Fixpoint month_day (fuel : nat) (y m n : Z) : Z * Z :=
  match fuel with
  | O => (m, n + 1)
  | S fuel' =>
      if n <? days_in_month y m then (m, n + 1)
      else month_day fuel' y (m + 1) (n - days_in_month y m)
  end.

(** [date.fromordinal], after [_ord2ymd] of the [datetime] module. *)
Definition from_ordinal (o : Z) : Z * Z * Z :=
  let n := o - 1 in
  let n400 := n / 146097 in
  let n := n mod 146097 in
  let n100 := n / 36524 in
  let n := n mod 36524 in
  let n4 := n / 1461 in
  let n := n mod 1461 in
  let n1 := n / 365 in
  let n := n mod 365 in
  let year := n400 * 400 + 1 + n100 * 100 + n4 * 4 + n1 in
  if (n1 =? 4) || (n100 =? 4) then (year - 1, 12, 31)
  else let '(m, d) := month_day 11 year 1 n in (year, m, d).

(** [d.strftime("%Y-%m-%d")] *)
Definition strftime_ymd (d : datetime) : string :=
  let '(y, m, dd) := from_ordinal (d / microseconds_per_day + 1) in
  (decimal 4 y "" ++ "-" ++ pad2 m ++ "-" ++ pad2 dd)%string.

(** *** [uuid.uuid4().hex]

    Thirty-two hexadecimal digits; the [n]-th identifier is [n] written
    out in decimal and padded with zeros. *)
Fixpoint zeros (n : nat) : string :=
  match n with
  | O => EmptyString
  | S n' => String "0" (zeros n')
  end.

Definition uuid4_hex (n : nat) : string :=
  let digits := whole (Z.of_nat n) in
  (zeros (32 - String.length digits) ++ digits)%string.

End Reference.

(* ------------------------------------------------------------------------- *)
(** ** The pydantic models  (backend/models/opportunity.py) *)

(** pydantic's validators for the primitive field types.  What they coerce
    depends on the pydantic version and mode, so they are an interface;
    [None] stands for a validation error on that field.  [validate_float]
    is asked about every value but NaN, which a float field reads through
    [validate_unbounded]. *)
Class Pydantic : Type := {
  validate_str : json -> option string;
  validate_bool : json -> option bool;
  validate_float : json -> option Q;
  validate_str_list : json -> option (list string)
}.

(** What every version guarantees: a value of the field's own type is
    accepted unchanged, and a non-empty input is not coerced to an empty
    string or list. *)
Class PydanticLaws (P : Pydantic) : Prop := {
  validate_str_id : forall s, validate_str (JStr s) = Some s;
  validate_bool_id : forall b, validate_bool (JBool b) = Some b;
  validate_float_id : forall q, validate_float (JNum q) = Some q;
  validate_str_list_id : forall l, validate_str_list (JList (map JStr l)) = Some l;
  validate_str_truthy : forall v s,
      validate_str v = Some s -> Py.truthy v = true -> s <> EmptyString;
  validate_str_list_truthy : forall v l,
      validate_str_list v = Some l -> Py.truthy v = true -> l <> []
}.

(** The value of a [float] field: a finite number or NaN. *)
Inductive pyfloat : Type :=
| Finite (q : Q)
| NaN.

Inductive OpportunityType : Type :=
| CONFERENCE | SEMINAR | WEBINAR | PODCAST | PANEL | WORKSHOP | KEYNOTE | OTHER.

Inductive CompensationType : Type :=
| PAID | HONORARIUM | TRAVEL_ONLY | UNPAID | NEGOTIABLE | UNKNOWN.

Record DateInfo : Type := mkDateInfo {
  di_start_date : option string;
  di_end_date : option string;
  di_application_deadline : option string
}.

Record Location : Type := mkLocation {
  loc_venue : option string;
  loc_city : option string;
  loc_state : option string;
  loc_country : option string;
  loc_is_virtual : option bool;
  loc_has_virtual_option : option bool
}.

Record Compensation : Type := mkCompensation {
  comp_is_paid : option bool;
  comp_compensation_type : option CompensationType;
  comp_amount : option pyfloat;
  comp_currency : option string;
  comp_includes_travel : option bool;
  comp_includes_accommodation : option bool;
  comp_details : option string
}.

Record ApplicationInfo : Type := mkApplicationInfo {
  app_url : option string;
  app_contact_email : option string;
  app_requirements : option (list string)
}.

Record Opportunity : Type := mkOpportunity {
  opp_id : string;
  opp_event_name : string;
  opp_event_type : option OpportunityType;
  opp_description : option string;
  opp_dates : option DateInfo;
  opp_location : option Location;
  opp_compensation : option Compensation;
  opp_application : option ApplicationInfo;
  opp_target_audience : option (list string);
  opp_expected_audience_size : option string;
  opp_keywords_matched : option (list string);
  opp_source_url : option string;
  opp_confidence_score : option Q
}.

Module Models.

Definition OpportunityType_value (t : OpportunityType) : string :=
  match t with
  | CONFERENCE => "conference" | SEMINAR => "seminar" | WEBINAR => "webinar"
  | PODCAST => "podcast" | PANEL => "panel" | WORKSHOP => "workshop"
  | KEYNOTE => "keynote" | OTHER => "other"
  end.

Definition CompensationType_value (t : CompensationType) : string :=
  match t with
  | PAID => "paid" | HONORARIUM => "honorarium" | TRAVEL_ONLY => "travel_only"
  | UNPAID => "unpaid" | NEGOTIABLE => "negotiable" | UNKNOWN => "unknown"
  end.

(** Validation against a [str]-valued [Enum]: the input must equal the
    value of a member. *)
Definition validate_enum {T : Type} (members : list T) (value : T -> string)
           (v : json) : option T :=
  match v with
  | JStr s => find (fun m => String.eqb s (value m)) members
  | _ => None
  end.

Definition validate_OpportunityType : json -> option OpportunityType :=
  validate_enum [CONFERENCE; SEMINAR; WEBINAR; PODCAST; PANEL; WORKSHOP; KEYNOTE; OTHER]
                OpportunityType_value.

Definition validate_CompensationType : json -> option CompensationType :=
  validate_enum [PAID; HONORARIUM; TRAVEL_ONLY; UNPAID; NEGOTIABLE; UNKNOWN]
                CompensationType_value.

(** A field declared [Optional[T] = default]: a missing key takes the
    default, [None] is kept, anything else must validate as [T]. *)
Definition optional {T : Type} (validate : json -> option T) (data : PyDict.t)
           (key : string) (default : option T) : result (option T) :=
  match PyDict.lookup data key with
  | None => Ok default
  | Some JNull => Ok None
  | Some v => match validate v with
              | Some x => Ok (Some x)
              | None => Raise ValidationError
              end
  end.

(** A field declared [T] with no default. *)
Definition required {T : Type} (validate : json -> option T) (data : PyDict.t)
           (key : string) : result T :=
  match PyDict.lookup data key with
  | Some v => match validate v with
              | Some x => Ok x
              | None => Raise ValidationError
              end
  | None => Raise ValidationError
  end.

(** A field declared [Optional[M]] for a model [M], with
    [default_factory=M]: a dict is passed to [M.__init__]. *)
Definition optional_model {M : Type} (init : PyDict.t -> result M)
           (data : PyDict.t) (key : string) : result (option M) :=
  match PyDict.lookup data key with
  | None => m <- init [] ;; Ok (Some m)
  | Some JNull => Ok None
  | Some (JDict d) => m <- init d ;; Ok (Some m)
  | Some _ => Raise ValidationError
  end.

(** [if data.get(key) is None: data[key] = value] *)
Definition set_if_none (data : PyDict.t) (key : string) (value : json) : PyDict.t :=
  match PyDict.get data key JNull with
  | JNull => PyDict.set data key value
  | _ => data
  end.

(** The value [set_if_none] leaves under its key, given what was looked
    up there. *)
Definition or_default (o : option json) (default : json) : json :=
  match o with
  | Some JNull | None => default
  | Some v => v
  end.

Section Init.

Context {P : Pydantic}.

(** A [float] field: NaN is a float and is kept, as every float is (no
    version rejects it unless configured to); any other value is
    [validate_float]'s. *)
Definition validate_unbounded (v : json) : option pyfloat :=
  match v with
  | JNaN => Some NaN
  | _ => option_map Finite (validate_float v)
  end.

(** A [float] field with the constraint [ge=lo, le=hi]: the validated
    float is then compared with the bounds, within which NaN is not. *)
Definition validate_bounded (lo hi : Q) (v : json) : option Q :=
  match validate_unbounded v with
  | Some (Finite q) => if Qle_bool lo q && Qle_bool q hi then Some q else None
  | _ => None
  end.

Definition DateInfo_init (data : PyDict.t) : result DateInfo :=
  start <- optional validate_str data "start_date" None ;;
  end_ <- optional validate_str data "end_date" None ;;
  deadline <- optional validate_str data "application_deadline" None ;;
  Ok (mkDateInfo start end_ deadline).

(** [Location.__init__], lines 51-57, and the field declarations. *)
Definition Location_init (data : PyDict.t) : result Location :=
  let data := set_if_none data "is_virtual" (JBool false) in
  let data := set_if_none data "has_virtual_option" (JBool false) in
  venue <- optional validate_str data "venue" None ;;
  city <- optional validate_str data "city" None ;;
  state <- optional validate_str data "state" None ;;
  country <- optional validate_str data "country" None ;;
  is_virtual <- optional validate_bool data "is_virtual" (Some false) ;;
  has_virtual_option <- optional validate_bool data "has_virtual_option" (Some false) ;;
  Ok (mkLocation venue city state country is_virtual has_virtual_option).

(** [Compensation.__init__], lines 70-80.  The enum member the source
    stores is written as its string value, to which it is equal. *)
Definition Compensation_init (data : PyDict.t) : result Compensation :=
  let data := set_if_none data "is_paid" (JBool false) in
  let data := set_if_none data "includes_travel" (JBool false) in
  let data := set_if_none data "includes_accommodation" (JBool false) in
  let data := set_if_none data "compensation_type" (JStr (CompensationType_value UNKNOWN)) in
  is_paid <- optional validate_bool data "is_paid" (Some false) ;;
  compensation_type <- optional validate_CompensationType data "compensation_type"
                                (Some UNKNOWN) ;;
  amount <- optional validate_unbounded data "amount" None ;;
  currency <- optional validate_str data "currency" (Some "USD") ;;
  includes_travel <- optional validate_bool data "includes_travel" (Some false) ;;
  includes_accommodation <- optional validate_bool data "includes_accommodation"
                                     (Some false) ;;
  details <- optional validate_str data "details" None ;;
  Ok (mkCompensation is_paid compensation_type amount currency includes_travel
                     includes_accommodation details).

(** [ApplicationInfo.__init__], lines 89-92. *)
Definition ApplicationInfo_init (data : PyDict.t) : result ApplicationInfo :=
  let data := set_if_none data "requirements" (JList []) in
  url <- optional validate_str data "url" None ;;
  contact_email <- optional validate_str data "contact_email" None ;;
  requirements <- optional validate_str_list data "requirements" (Some []) ;;
  Ok (mkApplicationInfo url contact_email requirements).

(** [Opportunity.__init__], lines 114-132. *)
Definition Opportunity_init (data : PyDict.t) : result Opportunity :=
  let data := set_if_none data "dates" (JDict []) in
  let data := set_if_none data "location" (JDict []) in
  let data := set_if_none data "compensation" (JDict []) in
  let data := set_if_none data "application" (JDict []) in
  let data := set_if_none data "target_audience" (JList []) in
  let data := set_if_none data "keywords_matched" (JList []) in
  let data := set_if_none data "event_type" (JStr (OpportunityType_value OTHER)) in
  let data := set_if_none data "confidence_score" (JNum (1 # 2)) in
  id <- required validate_str data "id" ;;
  event_name <- required validate_str data "event_name" ;;
  event_type <- optional validate_OpportunityType data "event_type" (Some OTHER) ;;
  description <- optional validate_str data "description" None ;;
  dates <- optional_model DateInfo_init data "dates" ;;
  location <- optional_model Location_init data "location" ;;
  compensation <- optional_model Compensation_init data "compensation" ;;
  application <- optional_model ApplicationInfo_init data "application" ;;
  target_audience <- optional validate_str_list data "target_audience" (Some []) ;;
  expected_audience_size <- optional validate_str data "expected_audience_size" None ;;
  keywords_matched <- optional validate_str_list data "keywords_matched" (Some []) ;;
  source_url <- optional validate_str data "source_url" None ;;
  confidence_score <- optional (validate_bounded 0 1) data "confidence_score"
                               (Some (1 # 2)) ;;
  Ok (mkOpportunity id event_name event_type description dates location compensation
                    application target_audience expected_audience_size
                    keywords_matched source_url confidence_score).

End Init.

(** [model_dump()]: the record of a model as a dict, field by field in
    declaration order. *)
Definition dump_opt {T : Type} (f : T -> json) (o : option T) : json :=
  match o with
  | Some x => f x
  | None => JNull
  end.

Definition dump_strs (l : list string) : json := JList (map JStr l).

Definition dump_float (x : pyfloat) : json :=
  match x with
  | Finite q => JNum q
  | NaN => JNaN
  end.

Definition DateInfo_record (d : DateInfo) : PyDict.t :=
  [("start_date", dump_opt JStr (di_start_date d));
   ("end_date", dump_opt JStr (di_end_date d));
   ("application_deadline", dump_opt JStr (di_application_deadline d))].

Definition DateInfo_dump (d : DateInfo) : json := JDict (DateInfo_record d).

Definition Location_record (l : Location) : PyDict.t :=
  [("venue", dump_opt JStr (loc_venue l));
   ("city", dump_opt JStr (loc_city l));
   ("state", dump_opt JStr (loc_state l));
   ("country", dump_opt JStr (loc_country l));
   ("is_virtual", dump_opt JBool (loc_is_virtual l));
   ("has_virtual_option", dump_opt JBool (loc_has_virtual_option l))].

Definition Location_dump (l : Location) : json := JDict (Location_record l).

Definition Compensation_record (c : Compensation) : PyDict.t :=
  [("is_paid", dump_opt JBool (comp_is_paid c));
   ("compensation_type",
    dump_opt (fun t => JStr (CompensationType_value t)) (comp_compensation_type c));
   ("amount", dump_opt dump_float (comp_amount c));
   ("currency", dump_opt JStr (comp_currency c));
   ("includes_travel", dump_opt JBool (comp_includes_travel c));
   ("includes_accommodation", dump_opt JBool (comp_includes_accommodation c));
   ("details", dump_opt JStr (comp_details c))].

Definition Compensation_dump (c : Compensation) : json := JDict (Compensation_record c).

Definition ApplicationInfo_record (a : ApplicationInfo) : PyDict.t :=
  [("url", dump_opt JStr (app_url a));
   ("contact_email", dump_opt JStr (app_contact_email a));
   ("requirements", dump_opt dump_strs (app_requirements a))].

Definition ApplicationInfo_dump (a : ApplicationInfo) : json :=
  JDict (ApplicationInfo_record a).

Definition Opportunity_record (o : Opportunity) : PyDict.t :=
  [("id", JStr (opp_id o));
   ("event_name", JStr (opp_event_name o));
   ("event_type",
    dump_opt (fun t => JStr (OpportunityType_value t)) (opp_event_type o));
   ("description", dump_opt JStr (opp_description o));
   ("dates", dump_opt DateInfo_dump (opp_dates o));
   ("location", dump_opt Location_dump (opp_location o));
   ("compensation", dump_opt Compensation_dump (opp_compensation o));
   ("application", dump_opt ApplicationInfo_dump (opp_application o));
   ("target_audience", dump_opt dump_strs (opp_target_audience o));
   ("expected_audience_size", dump_opt JStr (opp_expected_audience_size o));
   ("keywords_matched", dump_opt dump_strs (opp_keywords_matched o));
   ("source_url", dump_opt JStr (opp_source_url o));
   ("confidence_score", dump_opt JNum (opp_confidence_score o))].

Definition Opportunity_dump (o : Opportunity) : json := JDict (Opportunity_record o).

(** The zero-value structures: what each model is when built from no data. *)
Definition DateInfo_default : DateInfo := mkDateInfo None None None.

Definition Location_default : Location :=
  mkLocation None None None None (Some false) (Some false).

Definition Compensation_default : Compensation :=
  mkCompensation (Some false) (Some UNKNOWN) None (Some "USD") (Some false)
                 (Some false) None.

Definition ApplicationInfo_default : ApplicationInfo :=
  mkApplicationInfo None None (Some []).

(** Validators that accept exactly the JSON value of the field's type,
    for a float field a finite number. *)
Definition strict_str (v : json) : option string :=
  match v with JStr s => Some s | _ => None end.

Definition strict_bool (v : json) : option bool :=
  match v with JBool b => Some b | _ => None end.

Definition strict_float (v : json) : option Q :=
  match v with JNum q => Some q | _ => None end.

Fixpoint strict_strs (l : list json) : option (list string) :=
  match l with
  | [] => Some []
  | JStr s :: l' => match strict_strs l' with
                    | Some ss => Some (s :: ss)
                    | None => None
                    end
  | _ :: _ => None
  end.

Definition strict_str_list (v : json) : option (list string) :=
  match v with JList l => strict_strs l | _ => None end.

Definition strict : Pydantic :=
  {| validate_str := strict_str;
     validate_bool := strict_bool;
     validate_float := strict_float;
     validate_str_list := strict_str_list |}.

End Models.

(* ------------------------------------------------------------------------- *)
(** ** [AIProcessor]  (backend/services/ai_processor.py) *)

Module AIProcessor.

Section Parser.

(** [json.loads(text)]; [None] stands for [json.JSONDecodeError]. *)
Variable json_loads : string -> option json.

(** The bracketed or braced substring the fallback strategies try:
    [raw_response[start_idx:end_idx]] when [start_idx != -1 and
    end_idx > start_idx]. *)
Definition between (raw_response opening closing : string) : option string :=
  let start_idx := PyStr.find raw_response opening in
  let end_idx := PyStr.rfind raw_response closing + 1 in
  if negb (start_idx =? -1) && (start_idx <? end_idx)
  then Some (PyStr.slice raw_response start_idx end_idx)
  else None.

Definition try_loads (text : option string) : option json :=
  match text with
  | Some t => json_loads t
  | None => None
  end.

(** [_parse_opportunities], lines 101-150.  The function returns whatever
    value the successful strategy delivers. *)
Definition _parse_opportunities (raw_response : string) : json :=
  match json_loads raw_response with
  | Some opportunities =>
      match opportunities with
      | JList _ => opportunities
      | JDict d =>
          match PyDict.lookup d "opportunities" with
          | Some v => v
          | None => JList [opportunities]
          end
      | _ => JList [opportunities]
      end
  | None =>
      match try_loads (between raw_response "[" "]") with
      | Some v => v
      | None =>
          match try_loads (between raw_response "{" "}") with
          | Some (JDict d) =>
              match PyDict.lookup d "opportunities" with
              | Some v => v
              | None => JList [JDict d]
              end
          | _ => JList []
          end
      end
  end.

End Parser.

Section Validation.

Context {P : Pydantic}.

(** The hexadecimal form of the [n]-th identifier [uuid.uuid4()] hands out. *)
Variable uuid4_hex : nat -> string.

(** [f"opp_{uuid.uuid4().hex[:8]}"] *)
Definition fresh_id (n : nat) : string :=
  let token := PyStr.slice (uuid4_hex n) 0 8 in ("opp_" ++ token)%string.

(** [if not raw.get("id"): raw["id"] = f"opp_{uuid.uuid4().hex[:8]}"], with
    the number of identifiers drawn so far. *)
Definition ensure_id (n : nat) (raw : PyDict.t) : PyDict.t * nat :=
  if negb (Py.truthy (PyDict.get raw "id" JNull))
  then (PyDict.set raw "id" (JStr (fresh_id n)), S n)
  else (raw, n).

(** [if not raw.get("keywords_matched"): raw["keywords_matched"] = keywords] *)
Definition ensure_keywords (keywords : list string) (raw : PyDict.t) : PyDict.t :=
  if negb (Py.truthy (PyDict.get raw "keywords_matched" JNull))
  then PyDict.set raw "keywords_matched" (JList (map JStr keywords))
  else raw.

(** The body of the loop of [_validate_and_fix_opportunities], lines
    170-189, on one element: the number of identifiers drawn so far is
    threaded through, and [None] is a skipped record ([continue], or an
    exception caught by [except Exception], among them the
    [AttributeError] of [raw.get] on a value that is no dict). *)
Definition fix_one (keywords : list string) (n : nat) (raw : json)
  : nat * option Opportunity :=
  match raw with
  | JDict d =>
      let '(d, n) := ensure_id n d in
      if negb (Py.truthy (PyDict.get d "event_name" JNull)) then (n, None)
      else
        match Models.Opportunity_init (ensure_keywords keywords d) with
        | Ok opportunity => (n, Some opportunity)
        | Raise _ => (n, None)
        end
  | _ => (n, None)
  end.

(** One turn of the loop on the pair of the identifiers drawn so far and
    the list [validated]. *)
Definition validate_step (keywords : list string)
           (st : nat * list Opportunity) (raw : json) : nat * list Opportunity :=
  let r := fix_one keywords (fst st) raw in
  (fst r, match snd r with
          | Some opportunity => (snd st ++ [opportunity])%list
          | None => snd st
          end).

(** [_validate_and_fix_opportunities], lines 152-191. *)
Definition _validate_and_fix_opportunities (raw_opportunities : list json)
           (keywords : list string) : list Opportunity :=
  snd (fold_left (validate_step keywords) raw_opportunities (O, [])).

End Validation.

End AIProcessor.

(* ------------------------------------------------------------------------- *)
(** ** Vocabulary of the statements *)

Module Shape.

(** A value that is a string whenever it is not falsy: how an optional
    textual field (a date, a city) reaches the ranking service. *)
Definition text_or_falsy (v : json) : bool :=
  negb (Py.truthy v) || match v with JStr _ => true | _ => false end.

(** The textual field holds a non-empty string. *)
Definition present (v : json) : Prop :=
  exists s, v = JStr s /\ s <> EmptyString.

Definition is_dict (v : json) : bool :=
  match v with JDict _ => true | _ => false end.

(** The member [key] of a dict, [default] when the value is no dict or has
    no such key. *)
Definition member (v : json) (key : string) (default : json) : json :=
  match v with
  | JDict d => PyDict.get d key default
  | _ => default
  end.

(** The two dates [_is_expired] reads: [dates.get("application_deadline")]
    and [dates.get("start_date")], with [dates = opp.get("dates", {})]. *)
Definition deadline_of (opp : json) : json :=
  member (member opp "dates" (JDict [])) "application_deadline" JNull.

Definition start_of (opp : json) : json :=
  member (member opp "dates" (JDict [])) "start_date" JNull.

(** The [dates] sub-record is a dict when present, and its deadline and
    start date are optional strings. *)
Definition dates_shaped (opp : json) : bool :=
  is_dict opp
  && is_dict (member opp "dates" (JDict []))
  && text_or_falsy (deadline_of opp)
  && text_or_falsy (start_of opp).

Definition is_str (v : json) : bool :=
  match v with JStr _ => true | _ => false end.

(** The keyword list is absent, or iterates over strings. *)
Definition keywords_shaped (v : json) : bool :=
  negb (Py.truthy v)
  || match Py.iter v with
     | Ok items => forallb is_str items
     | Raise _ => false
     end.

(** An opportunity record as the data model describes it: the nested
    sub-records are dicts when present, the textual fields the service
    reads are optional strings, the identifier is a scalar. *)
Definition opportunity_shaped (opp : json) : bool :=
  dates_shaped opp
  && Py.hashable (member opp "id" (JStr ""))
  && is_dict (member opp "location" (JDict []))
  && text_or_falsy (member (member opp "location" (JDict [])) "city" JNull)
  && text_or_falsy (member (member opp "location" (JDict [])) "country" JNull)
  && is_dict (member opp "compensation" (JDict []))
  && is_dict (member opp "application" (JDict []))
  && keywords_shaped (member opp "keywords_matched" JNull).

(** One entry of a scoring response: a dict with a scalar
    [opportunity_id] and, when it has a [match_score], one with a numeric
    value, which excludes NaN. *)
Definition scoring_entry_shaped (r : json) : bool :=
  match r with
  | JDict d =>
      match PyDict.lookup d "opportunity_id" with
      | Some k => Py.hashable k
      | None => false
      end
      && match PyDict.lookup d "match_score" with
         | Some s => match Py.number s with Some _ => true | None => false end
         | None => true
         end
  | _ => false
  end.

(** A scoring response: a list of such entries. *)
Definition rankings_shaped (v : json) : bool :=
  match v with
  | JList items => forallb scoring_entry_shaped items
  | _ => false
  end.

(** The entry [r] of a scoring response is filed under the identifier
    [id]. *)
Definition covers (id r : json) : bool :=
  match r with
  | JDict d => match PyDict.lookup d "opportunity_id" with
               | Some k => Py.eq id k
               | None => false
               end
  | _ => false
  end.

(** The scoring response has an entry for the identifier [id]. *)
Definition scored (rankings : json) (id : json) : bool :=
  match rankings with
  | JList items => existsb (covers id) items
  | _ => false
  end.

(** The numeric value of the sort key of an entry (0 where it has
    none). *)
Definition score (e : RankedOpportunity) : Q :=
  match Py.number (match_score e) with
  | Some q => q
  | None => 0%Q
  end.

Definition numeric_score (e : RankedOpportunity) : bool :=
  match Py.number (match_score e) with Some _ => true | None => false end.

(** [insert_desc] and [sort_desc] when every key is a number. *)
Fixpoint insert_by_score (x : RankedOpportunity) (l : list RankedOpportunity)
  : list RankedOpportunity :=
  match l with
  | [] => [x]
  | y :: l' => if Py.Qlt_bool (score x) (score y) then y :: insert_by_score x l'
               else x :: l
  end.

Fixpoint sort_by_score (l : list RankedOpportunity) : list RankedOpportunity :=
  match l with
  | [] => []
  | x :: l' => insert_by_score x (sort_by_score l')
  end.


(** The entries whose score is [q]. *)
Definition tie (q : Q) (e : RankedOpportunity) : bool := Qeq_bool (score e) q.

(** The date field [v] is a string that [_parse_date] reads as [d]. *)
Definition parses_to (strptime : string -> string -> option datetime)
           (v : json) (d : datetime) : Prop :=
  exists s, v = JStr s /\ Ranking.first_format strptime Ranking.formats s = Some d.

(** The opportunities [rank_opportunities] keeps: those [_is_expired]
    answers [False] for. *)
Definition not_expired (strptime : string -> string -> option datetime)
           (now : datetime) (opp : json) : bool :=
  match Ranking._is_expired strptime opp now with
  | Ok false => true
  | _ => false
  end.

Definition valid_of (strptime : string -> string -> option datetime)
           (now : datetime) (opps : list json) : list json :=
  filter (not_expired strptime now) opps.

(** The identifier under which an opportunity is looked up:
    [opp.get("id", "")]. *)
Definition id_of (opp : json) : json := member opp "id" (JStr "").

(** Every entry of the lookup table is an entry of the response, filed
    under the identifier that entry carries. *)
Definition table_from (items : list json) (t : Ranking.lookup_table) : Prop :=
  forall k r, In (k, r) t ->
    scoring_entry_shaped r = true
    /\ exists r', In r' items /\ Py.subscript r' "opportunity_id" = Ok k.

(** An entry carries the neutral defaults of an opportunity the scorer did
    not cover. *)
Definition unscored_defaults (e : RankedOpportunity) : Prop :=
  match_score e = JNum (1 # 2) /\ relevance_score e = JNum (1 # 2)
  /\ preference_score e = JNum (1 # 2)
  /\ match_reasons e = JList [] /\ matching_keywords e = JList [].

(** What [Opportunity.__init__] leaves behind: the nested sub-records,
    the lists, the booleans and the enumerations hold a value, and the
    confidence score lies in the unit interval. *)
Definition Location_materialized (l : Location) : Prop :=
  loc_is_virtual l <> None /\ loc_has_virtual_option l <> None.

Definition Compensation_materialized (c : Compensation) : Prop :=
  comp_is_paid c <> None /\ comp_compensation_type c <> None
  /\ comp_includes_travel c <> None /\ comp_includes_accommodation c <> None.

Definition ApplicationInfo_materialized (a : ApplicationInfo) : Prop :=
  app_requirements a <> None.

Definition materialized (o : Opportunity) : Prop :=
  opp_event_type o <> None
  /\ (exists d, opp_dates o = Some d)
  /\ (exists l, opp_location o = Some l /\ Location_materialized l)
  /\ (exists c, opp_compensation o = Some c /\ Compensation_materialized c)
  /\ (exists a, opp_application o = Some a /\ ApplicationInfo_materialized a)
  /\ opp_target_audience o <> None
  /\ opp_keywords_matched o <> None
  /\ (exists q, opp_confidence_score o = Some q /\ (0 <= q <= 1)%Q).

(** What [_validate_and_fix_opportunities] leaves behind for the keyword
    list [keywords]: a materialized record with an identifier and a name,
    whose matched keywords are empty only if [keywords] is. *)
Definition normalized (keywords : list string) (o : Opportunity) : Prop :=
  materialized o
  /\ opp_id o <> EmptyString
  /\ opp_event_name o <> EmptyString
  /\ exists km, opp_keywords_matched o = Some km
                /\ (km <> [] \/ (km = [] /\ keywords = [])).

End Shape.

(* ------------------------------------------------------------------------- *)
(** ** Concrete inputs *)

Module Examples.

Import Reference.

(** The reference instant of the examples: 2026-01-01T00:00:00. *)
Definition now : datetime := mkdate 2026 1 1 0 0 0.

Definition conf_a : json :=
  JDict [("id", JStr "a"); ("event_name", JStr "Conf A");
         ("dates", JDict [("application_deadline", JStr "2099-01-01")])].

Definition conf_b : json :=
  JDict [("id", JStr "b"); ("event_name", JStr "Conf B");
         ("dates", JDict [("application_deadline", JStr "2000-01-01")])].

(** No dates at all. *)
Definition conf_c : json :=
  JDict [("id", JStr "c"); ("event_name", JStr "Conf C");
         ("location", JDict [("city", JStr "Oslo"); ("country", JStr "Norway")])].

(** A deadline in the future and a start date in the past. *)
Definition conf_d : json :=
  JDict [("id", JStr "d"); ("event_name", JStr "Conf D");
         ("dates", JDict [("start_date", JStr "2020-05-01");
                          ("application_deadline", JStr "2027-01-01")])].

(** A deadline that no format reads, and a start date in the past. *)
Definition conf_e : json :=
  JDict [("id", JStr "e"); ("event_name", JStr "Conf E");
         ("dates", JDict [("start_date", JStr "2020-05-01");
                          ("application_deadline", JStr "rolling")])].

(** An empty deadline and a start date in the past. *)
Definition conf_f : json :=
  JDict [("id", JStr "f"); ("event_name", JStr "Conf F");
         ("dates", JDict [("start_date", JStr "2020-05-01");
                          ("application_deadline", JStr "")])].

(** A text with a sentence end at offset 6. *)
Definition stall_text : string := "aaaaaa. aaaaaaaaaaaa".

(** A scorer that answers every request with the same outcome. *)
Definition scorer (outcome : chat_outcome) : string -> string -> string -> chat_outcome :=
  fun _ _ _ => outcome.

Definition answers (text : string) : string -> string -> string -> chat_outcome :=
  scorer (ChatContent (Some (dq text))).

(** [rank_opportunities] with the reference library functions. *)
Definition rank (chat : string -> string -> string -> chat_outcome)
           (opportunities : list json) : result RankingResult :=
  Ranking.rank_opportunities strptime json_loads py_str strftime_ymd chat
                             now "A speaker on formal methods." opportunities.

(** The identifiers and match scores of a ranking, in order. *)
Definition summary (r : result RankingResult) : result (list (json * json)) :=
  res <- r ;; Ok (map (fun e => (opportunity_id e, match_score e))
                      (ranked_opportunities res)).

(** Raw records as the extraction model returns them. *)
Definition record_nulls : PyDict.t :=
  [("id", JStr "x1"); ("event_name", JStr "Conf X");
   ("dates", JNull); ("location", JNull);
   ("compensation", JDict [("is_paid", JNull); ("amount", JNum 500)]);
   ("target_audience", JNull)].

Definition raw_nulls : json := JDict record_nulls.

Definition raw_score (q : Q) : json :=
  JDict [("id", JStr "x2"); ("event_name", JStr "Conf Y");
         ("confidence_score", JNum q)].

Definition raw_no_id : json :=
  JDict [("event_name", JStr "Conf Z"); ("event_type", JStr "keynote")].

(** [_validate_and_fix_opportunities] with the strict validators. *)
Definition normalize (raws : list json) (keywords : list string) : list Opportunity :=
  @AIProcessor._validate_and_fix_opportunities Models.strict uuid4_hex raws keywords.

End Examples.
(* ------------------------------------------------------------------------- *)
(** ** Further vocabulary of the statements *)

Module Conditions.

(** An entry the comprehension of [rank_opportunities] (line 298) can file:
    [r["opportunity_id"]] is defined and hashable. *)
Definition keyed (r : json) : bool :=
  match Py.subscript r "opportunity_id" with
  | Ok k => Py.hashable k
  | Raise _ => false
  end.

(** The entry a lookup of [id] finds in a scoring response: the last one
    filed under [id], the empty dict when there is none. *)
Definition last_entry (items : list json) (id : json) : json :=
  match List.find (Shape.covers id) (rev items) with
  | Some r => r
  | None => JDict []
  end.

(** Every key of the lookup table is hashable, as the keys of a [dict]
    are. *)
Definition hashable_keys (t : Ranking.lookup_table) : Prop :=
  Forall (fun kr => Py.hashable (fst kr) = true) t.

(** The string [c] is a contiguous part of [text]. *)
Definition occurs (c text : string) : Prop :=
  exists before after, text = (before ++ c ++ after)%string.

(** What [chunk_text] promises of a chunk cut by its loop: it is not
    empty, [strip] has nothing left to remove, it is no longer than the
    chunk size, and it is a part of the text. *)
Definition chunk_of (text : string) (chunk_size : Z) (c : string) : Prop :=
  c <> EmptyString /\ PyStr.strip c = c /\ PyStr.len c <= chunk_size
  /\ occurs c text.

End Conditions.

(* ------------------------------------------------------------------------- *)
(** ** [EmbeddingService.generate_embedding]  (embedding_service.py, lines 43-95) *)

Module Embedding.

Section Service.

(** The type of an embedding ([List[float]]). *)
Variable vector : Type.

(** [self.client.embeddings.create(model=..., input=text)] followed by
    [response.data[0].embedding]; [None] stands for an exception raised
    inside the [try] block, which ends in [return None]. *)
Variable embeddings_create : string -> option vector.

Definition max_chars : Z := 30000.

(** [generate_embedding], lines 43-76. *)
Definition generate_embedding (text : string) : option vector :=
  if negb (PyStr.truthy text) || negb (PyStr.truthy (PyStr.strip text)) then None
  else
    let text := if max_chars <? PyStr.len text then PyStr.slice text 0 max_chars
                else text in
    embeddings_create text.

(** [generate_embeddings_batch], lines 78-95. *)
Definition generate_embeddings_batch (texts : list string) : list (option vector) :=
  map generate_embedding texts.

End Service.

End Embedding.

(* ------------------------------------------------------------------------- *)
(** ** [AIProcessor.process_search_results]  (ai_processor.py, lines 193-245)
    and the response models  (opportunity.py, lines 135-151) *)

Record SearchMetadata : Type := mkSearchMetadata {
  sm_search_id : string;
  sm_keywords : list string;
  sm_search_date : string;
  sm_opportunity_types : list string;
  sm_location_preference : option string;
  sm_total_results : Z
}.

Record SearchResponse : Type := mkSearchResponse {
  sr_search_metadata : SearchMetadata;
  sr_opportunities : list Opportunity
}.

Module Processing.

(** [len(v)] is defined for a string, a list and a dict, and raises
    [TypeError] for the other values [json.loads] produces. *)
Definition sized (v : json) : bool :=
  match v with
  | JStr _ | JList _ | JDict _ => true
  | _ => false
  end.

Section Process.

Context {P : Pydantic}.

Variable json_loads : string -> option json.
Variable uuid4_hex : nat -> string.

(** [self._call_model(SYSTEM_PROMPT, user_prompt)], lines 68-99, where
    [user_prompt] is a fixed template around the keywords, the search
    results and the opportunity types: the call re-raises what the client
    raises, and otherwise returns the message content, which the API types
    as an optional string. *)
Variable call_model : list string -> string -> list string -> result (option string).

(** [datetime.utcnow().isoformat()] *)
Variable utcnow_isoformat : string.

(** [f"search_{uuid.uuid4().hex[:12]}"] *)
Definition search_id (n : nat) : string :=
  let token := PyStr.slice (uuid4_hex n) 0 12 in ("search_" ++ token)%string.

(** [process_search_results].  The two log lines take [len(raw_response)]
    and [len(raw_opportunities)]; the loop of
    [_validate_and_fix_opportunities] iterates over [raw_opportunities];
    the identifier of the search is drawn after those of the records. *)
Definition process_search_results (search_results : string)
           (keywords opportunity_types : list string) : result SearchResponse :=
  raw_response <- call_model keywords search_results opportunity_types ;;
  match raw_response with
  | None => Raise TypeError
  | Some raw_response =>
      let raw_opportunities := AIProcessor._parse_opportunities json_loads raw_response in
      if negb (sized raw_opportunities) then Raise TypeError
      else
        items <- Py.iter raw_opportunities ;;
        let drawn :=
          fst (fold_left (AIProcessor.validate_step uuid4_hex keywords) items (O, [])) in
        let opportunities :=
          AIProcessor._validate_and_fix_opportunities uuid4_hex items keywords in
        Ok {| sr_search_metadata :=
                {| sm_search_id := search_id drawn;
                   sm_keywords := keywords;
                   sm_search_date := utcnow_isoformat;
                   sm_opportunity_types := opportunity_types;
                   sm_location_preference := None;
                   sm_total_results := Z.of_nat (List.length opportunities) |};
              sr_opportunities := opportunities |}
  end.

End Process.

End Processing.

(* ------------------------------------------------------------------------- *)
(** ** The search request and the entry script
    (backend/models/opportunity.py, lines 154-164;
    backend/services/serper_search.py, lines 48-79 and 152-220;
    backend/score.py, lines 56-115) *)

Module PyList.

(** [l[:n]] *)
Definition take {A : Type} (l : list A) (n : Z) : list A :=
  firstn (Z.to_nat (PyStr.adjust (Z.of_nat (List.length l)) n)) l.

End PyList.

Record SearchRequest : Type := mkSearchRequest {
  rq_keywords : list string;
  rq_opportunity_types : list string;
  rq_location_preference : option string;
  rq_time_frame_months : Z;
  rq_max_results : Z
}.

(** What [run] returns, before [json.dumps]: the response with the search
    id ["empty"] and no opportunity, the dump of the response of
    [process_search_results], or the dict with the key ["error"]. *)
Inductive run_outcome : Type :=
| NoResults (keywords opportunity_types : list string)
| Results (response : SearchResponse)
| Failure (e : exn).

Module Search.

(** *** [SerperSearchService._build_queries] *)

Section Queries.

(** [self.query_templates], read from the configuration. *)
Variable query_templates : list string.

(** [template.format(keyword=keyword)], which raises on a template with
    another field or an unbalanced brace. *)
Variable format_keyword : string -> string -> result string.

(** [f"{keyword} {opp_type} speaker opportunity 2025"] *)
Definition type_query (keyword opp_type : string) : string :=
  (keyword ++ " " ++ opp_type ++ " speaker opportunity 2025")%string.

(** The body of the loop over the keywords, lines 62-70: the queries one
    keyword adds to [queries]. *)
Definition keyword_queries (opportunity_types : list string) (keyword : string)
  : result (list string) :=
  from_templates <- mapM (fun template => format_keyword template keyword)
                         query_templates ;;
  Ok (from_templates ++ map (type_query keyword) opportunity_types)%list.

(** [q in seen] *)
Definition mem (q : string) (seen : list string) : bool :=
  existsb (String.eqb q) seen.

(** The loop that removes duplicates, lines 72-77: the queries appended to
    [unique_queries], given the set [seen]. *)
Fixpoint unique_queries (queries seen : list string) : list string :=
  match queries with
  | [] => []
  | q :: rest => if mem q seen then unique_queries rest seen
                 else q :: unique_queries rest (q :: seen)
  end.

Definition _build_queries (keywords opportunity_types : list string)
  : result (list string) :=
  per_keyword <- mapM (keyword_queries opportunity_types) keywords ;;
  Ok (unique_queries (List.concat per_keyword) []).

(** The queries [search] and [get_raw_results] execute:
    [self._build_queries(keywords, opportunity_types)[:max_queries]]. *)
Definition search_queries (keywords opportunity_types : list string)
           (max_queries : Z) : result (list string) :=
  queries <- _build_queries keywords opportunity_types ;;
  Ok (PyList.take queries max_queries).

End Queries.

(** *** [SearchRequest] *)

(** A field declared [T] with a default: a missing key takes the default,
    anything else must validate as [T]. *)
Definition defaulted {T : Type} (validate : json -> option T) (data : PyDict.t)
           (key : string) (default : T) : result T :=
  match PyDict.lookup data key with
  | None => Ok default
  | Some v => match validate v with
              | Some x => Ok x
              | None => Raise ValidationError
              end
  end.

(** [min(5, search_request.max_results // 4 + 1)], the [max_queries]
    argument of the call in [run]. *)
Definition max_queries (request : SearchRequest) : Z :=
  Z.min 5 (rq_max_results request / 4 + 1).

Section Request.

Context {P : Pydantic}.

(** pydantic's validator for an [int] field. *)
Variable validate_int : json -> option Z.

(** A constraint [ge=lo, le=hi] on an [int] field. *)
Definition validate_int_bounded (lo hi : Z) (v : json) : option Z :=
  match validate_int v with
  | Some n => if (lo <=? n) && (n <=? hi) then Some n else None
  | None => None
  end.

Definition SearchRequest_init (data : PyDict.t) : result SearchRequest :=
  keywords <- Models.required validate_str_list data "keywords" ;;
  opportunity_types <- defaulted validate_str_list data "opportunity_types"
                                 ["conference"; "seminar"; "webinar"] ;;
  location_preference <- Models.optional validate_str data "location_preference"
                                         (Some "global") ;;
  time_frame_months <- defaulted (validate_int_bounded 1 12) data
                                 "time_frame_months" 6 ;;
  max_results <- defaulted (validate_int_bounded 1 50) data "max_results" 20 ;;
  Ok (mkSearchRequest keywords opportunity_types location_preference
                      time_frame_months max_results).

(** *** [run]  (backend/score.py, lines 56-115) *)

Variable json_loads : string -> option json.
Variable uuid4_hex : nat -> string.
Variable call_model : list string -> string -> list string -> result (option string).
Variable utcnow_isoformat : string.

(** [search_service.search(keywords, opportunity_types, max_queries)]: the
    text of the search results, or the exception that leaves the call. *)
Variable search : list string -> list string -> Z -> result string.

(** The body of the [try] block; a [Raise] is what [except Exception]
    catches.  The constructor of [SearchRequest] is applied to the members of
    a dict. *)
Definition run_body (raw_data : string) : result run_outcome :=
  match json_loads raw_data with
  | None => Raise ValueError
  | Some (JDict request_data) =>
      search_request <- SearchRequest_init request_data ;;
      search_results <- search (rq_keywords search_request)
                               (rq_opportunity_types search_request)
                               (max_queries search_request) ;;
      if negb (PyStr.truthy (PyStr.strip search_results))
      then Ok (NoResults (rq_keywords search_request)
                         (rq_opportunity_types search_request))
      else
        response <- Processing.process_search_results
                      json_loads uuid4_hex call_model utcnow_isoformat
                      search_results (rq_keywords search_request)
                      (rq_opportunity_types search_request) ;;
        Ok (Results response)
  | Some _ => Raise TypeError
  end.

Definition run (raw_data : string) : run_outcome :=
  match run_body raw_data with
  | Ok outcome => outcome
  | Raise e => Failure e
  end.

End Request.

End Search.

(* ------------------------------------------------------------------------- *)
(** ** Concrete inputs for the search request and the entry script *)

Module Requests.

(** A validator for [int] fields that accepts exactly the integral
    numbers. *)
Definition strict_int (v : json) : option Z :=
  match v with
  | JNum q => if Qnum q mod Z.pos (Qden q) =? 0 then Some (Qnum q / Z.pos (Qden q))
              else None
  | _ => None
  end.

(** Templates of the form ["{keyword} <words>"], given by their words. *)
Definition after_keyword (words keyword : string) : result string :=
  Ok (keyword ++ " " ++ words)%string.

Definition templates : list string :=
  ["conference call for speakers 2025"; "summit speaker application"].

(** A request for at most 50 results on one keyword. *)
Definition request_fifty : PyDict.t :=
  [("keywords", JList [JStr "ai"]); ("max_results", JNum 50)].

(** A search that finds nothing, and one that finds a page. *)
Definition search_nothing : list string -> list string -> Z -> result string :=
  fun _ _ _ => Ok "  ".

Definition search_page : list string -> list string -> Z -> result string :=
  fun _ _ _ => Ok "Title: Conf Z".

(** A model that answers every prompt with the same text. *)
Definition model (text : string)
  : list string -> string -> list string -> result (option string) :=
  fun _ _ _ => Ok (Some (Reference.dq text)).

(** [run] with the reference library functions and the strict
    validators. *)
Definition run (search : list string -> list string -> Z -> result string)
           (call_model : list string -> string -> list string -> result (option string))
           (raw_data : string) : run_outcome :=
  @Search.run Models.strict strict_int Reference.json_loads Reference.uuid4_hex
              call_model "2026-01-01T00:00:00" search (Reference.dq raw_data).

End Requests.

(* ------------------------------------------------------------------------- *)
(** * Proofs *)

(** ** The result monad *)

Lemma bind_ok {A B : Type} (m : result A) (k : A -> result B) (b : B) :
  bind m k = Ok b -> exists a, m = Ok a /\ k a = Ok b.
Proof.
  destruct m as [a | e]; simpl; intros H; [eauto | discriminate].
Qed.

Lemma mapM_length {A B : Type} (f : A -> result B) (l : list A) (bs : list B) :
  mapM f l = Ok bs -> List.length bs = List.length l.
Proof.
  revert bs; induction l as [| a l IH]; simpl; intros bs H.
  - injection H as <-; reflexivity.
  - apply bind_ok in H as (b & _ & H).
    apply bind_ok in H as (bs' & Hbs & H).
    injection H as <-; simpl; f_equal; auto.
Qed.

Lemma mapM_Forall2 {A B : Type} (f : A -> result B) (l : list A) (bs : list B) :
  mapM f l = Ok bs -> Forall2 (fun a b => f a = Ok b) l bs.
Proof.
  revert bs; induction l as [| a l IH]; simpl; intros bs H.
  - injection H as <-; constructor.
  - apply bind_ok in H as (b & Hb & H).
    apply bind_ok in H as (bs' & Hbs & H).
    injection H as <-; constructor; auto.
Qed.

Lemma mapM_total {A B : Type} (f : A -> result B) (l : list A) :
  Forall (fun a => exists b, f a = Ok b) l -> exists bs, mapM f l = Ok bs.
Proof.
  induction 1 as [| a l (b & Hb) _ (bs & Hbs)]; simpl.
  - eauto.
  - rewrite Hb, Hbs; simpl; eauto.
Qed.


(** ** Sorting by score *)

Module SortFacts.

Import Shape Ranking.

Lemma Qlt_bool_true (x y : Q) : Py.Qlt_bool x y = true <-> (x < y)%Q.
Proof.
  unfold Py.Qlt_bool; rewrite negb_true_iff.
  split; intros H.
  - apply Qnot_le_lt; intros Hle.
    apply Qle_bool_iff in Hle; congruence.
  - destruct (Qle_bool y x) eqn:E; [| reflexivity].
    apply Qle_bool_iff in E; exfalso; eapply Qlt_not_le; eauto.
Qed.


(** On numbers, [<] is the order of the rationals. *)
Lemma lt_numbers (a b : json) (p q : Q) :
  Py.number a = Some p -> Py.number b = Some q -> Py.lt a b = Ok (Py.Qlt_bool p q).
Proof.
  destruct a, b; simpl; try discriminate; intros Ha Hb;
    injection Ha as <-; injection Hb as <-; reflexivity.
Qed.

Lemma lt_scores (x y : RankedOpportunity) :
  numeric_score x = true -> numeric_score y = true ->
  Py.lt (match_score x) (match_score y) = Ok (Py.Qlt_bool (score x) (score y)).
Proof.
  unfold numeric_score, score; intros Hx Hy.
  destruct (Py.number (match_score x)) as [p |] eqn:Ex; [| discriminate].
  destruct (Py.number (match_score y)) as [q |] eqn:Ey; [| discriminate].
  now apply lt_numbers.
Qed.

Lemma insert_by_score_perm (x : RankedOpportunity) (l : list RankedOpportunity) :
  Permutation (x :: l) (insert_by_score x l).
Proof.
  induction l as [| y l IH]; simpl; [reflexivity |].
  destruct (Py.Qlt_bool (score x) (score y)); [| reflexivity].
  rewrite perm_swap; now constructor.
Qed.

Lemma sort_by_score_perm (l : list RankedOpportunity) :
  Permutation l (sort_by_score l).
Proof.
  induction l as [| x l IH]; simpl; [constructor |].
  rewrite <- insert_by_score_perm; now constructor.
Qed.

Lemma insert_by_score_numeric (x : RankedOpportunity) (l : list RankedOpportunity) :
  numeric_score x = true -> Forall (fun e => numeric_score e = true) l ->
  Forall (fun e => numeric_score e = true) (insert_by_score x l).
Proof.
  intros Hx Hl.
  eapply Permutation_Forall; [apply insert_by_score_perm |].
  now constructor.
Qed.

Lemma sort_by_score_numeric (l : list RankedOpportunity) :
  Forall (fun e => numeric_score e = true) l ->
  Forall (fun e => numeric_score e = true) (sort_by_score l).
Proof.
  intros Hl; eapply Permutation_Forall; [apply sort_by_score_perm | exact Hl].
Qed.

(** With numeric keys no comparison raises, and the sort is the insertion
    sort on the scores. *)
Lemma insert_desc_numeric (x : RankedOpportunity) (l : list RankedOpportunity) :
  numeric_score x = true -> Forall (fun e => numeric_score e = true) l ->
  insert_desc x l = Ok (insert_by_score x l).
Proof.
  intros Hx Hl; induction Hl as [| y l Hy Hl IH]; simpl; [reflexivity |].
  rewrite (lt_scores x y Hx Hy); simpl.
  destruct (Py.Qlt_bool (score x) (score y)); [| reflexivity].
  rewrite IH; reflexivity.
Qed.

Lemma sort_desc_numeric (l : list RankedOpportunity) :
  Forall (fun e => numeric_score e = true) l ->
  sort_desc l = Ok (sort_by_score l).
Proof.
  induction 1 as [| x l Hx Hl IH]; simpl; [reflexivity |].
  rewrite IH; simpl.
  apply insert_desc_numeric; [exact Hx | now apply sort_by_score_numeric].
Qed.



(** Stability: the entries of any one score keep their input order. *)
Lemma insert_by_score_stable (q : Q) (x : RankedOpportunity) (l : list RankedOpportunity) :
  filter (tie q) (insert_by_score x l) = filter (tie q) (x :: l).
Proof.
  induction l as [| y l IH]; [reflexivity |].
  cbn [insert_by_score].
  destruct (Py.Qlt_bool (score x) (score y)) eqn:E; [| reflexivity].
  cbn [filter] in *; rewrite IH.
  destruct (tie q x) eqn:Ex, (tie q y) eqn:Ey; try reflexivity.
  exfalso.
  apply Qlt_bool_true in E.
  unfold tie in Ex, Ey; apply Qeq_bool_iff in Ex, Ey.
  rewrite Ex, Ey in E; now apply Qlt_irrefl in E.
Qed.

Lemma sort_by_score_stable (q : Q) (l : list RankedOpportunity) :
  filter (tie q) (sort_by_score l) = filter (tie q) l.
Proof.
  induction l as [| x l IH]; [reflexivity |].
  cbn [sort_by_score]; rewrite insert_by_score_stable.
  cbn [filter]; now rewrite IH.
Qed.

End SortFacts.

(** ** Expiry and days until the deadline *)

Module DateFacts.

Import Shape Ranking.

Section WithStrptime.

Variable strptime : string -> string -> option datetime.

Local Abbreviation parse := (first_format strptime formats).

Lemma truthy_present (v : json) :
  text_or_falsy v = true -> (Py.truthy v = true <-> present v).
Proof.
  unfold text_or_falsy, present; intros H; split.
  - intros Ht; rewrite Ht in H; simpl in H.
    destruct v; try discriminate.
    exists s; split; [reflexivity |].
    intros ->; discriminate.
  - intros (s & -> & Hs); destruct s; [contradiction | reflexivity].
Qed.

Lemma parse_date_text (v : json) :
  text_or_falsy v = true ->
  _parse_date strptime v
  = Ok (match v with
        | JStr s => if PyStr.truthy s then parse s else None
        | _ => None
        end).
Proof.
  unfold text_or_falsy, _parse_date; intros H.
  destruct (Py.truthy v) eqn:Ht; simpl in *.
  - destruct v; try discriminate; simpl in Ht; now rewrite Ht.
  - destruct v; try reflexivity; simpl in Ht; now rewrite Ht.
Qed.

(** An optional text is either falsy, and then not present, or a
    non-empty string. *)
Lemma text_cases (v : json) :
  text_or_falsy v = true ->
  (Py.truthy v = false /\ ~ present v)
  \/ (exists s, v = JStr s /\ s <> EmptyString /\ Py.truthy v = true
                /\ _parse_date strptime v = Ok (parse s)).
Proof.
  intros H.
  destruct (Py.truthy v) eqn:Ht.
  - right.
    apply (truthy_present v H) in Ht as Hp.
    destruct Hp as (s & -> & Hs).
    exists s; repeat split; auto.
    unfold _parse_date; rewrite Ht; reflexivity.
  - left; split; [reflexivity |].
    intros Hp; apply (truthy_present v H) in Hp; congruence.
Qed.

Lemma present_text (s : string) : s <> EmptyString -> present (JStr s).
Proof. intros Hs; exists s; auto. Qed.

Lemma parses_to_text (s : string) (d : datetime) :
  parses_to strptime (JStr s) d <-> parse s = Some d.
Proof.
  split; [intros (s' & E & H); now injection E as <- | intros H; exists s; auto].
Qed.

Lemma is_expired_shaped (opp : json) (now : datetime) :
  dates_shaped opp = true ->
  exists b, _is_expired strptime opp now = Ok b
    /\ (b = true <->
        (present (deadline_of opp)
         /\ exists d, parses_to strptime (deadline_of opp) d /\ d < now)
        \/ (~ present (deadline_of opp) /\ present (start_of opp)
            /\ exists d, parses_to strptime (start_of opp) d /\ d < now)).
Proof.
  unfold dates_shaped; intros H.
  repeat (apply andb_prop in H as [H ?]).
  destruct opp as [| | | | | | o]; try discriminate.
  unfold deadline_of, start_of in *; cbn [member] in *.
  destruct (PyDict.get o "dates" (JDict [])) as [| | | | | | dd] eqn:Edates; try discriminate.
  cbn [member] in *.
  unfold _is_expired; cbn [Py.get bind]; rewrite Edates; cbn [Py.get bind].
  set (deadline := PyDict.get dd "application_deadline" JNull) in *.
  set (start := PyDict.get dd "start_date" JNull) in *.
  clearbody deadline start.
  destruct (text_cases deadline) as [(Htd & Hnd) | (s & -> & Hs & Htd & Hpd)];
    [assumption | |]; rewrite Htd; cbn [negb].
  - destruct (text_cases start) as [(Hts & Hns) | (s & -> & Hs & Hts & Hps)];
      [assumption | |]; rewrite Hts.
    + exists false; split; [reflexivity |].
      split; [discriminate | intros [(? & _) | (_ & ? & _)]; contradiction].
    + rewrite Hps; cbn [bind].
      destruct (parse s) as [d |] eqn:Ep.
      * exists (d <? now); split; [now destruct (d <? now) |].
        rewrite Z.ltb_lt; split.
        -- intros Hlt; right; repeat split; auto using present_text.
           exists d; split; [now apply parses_to_text | exact Hlt].
        -- intros [(? & _) | (_ & _ & d' & Hp & Hlt)]; [contradiction |].
           apply parses_to_text in Hp; congruence.
      * exists false; split; [reflexivity |].
        split; [discriminate |].
        intros [(? & _) | (_ & _ & d' & Hp & _)]; [contradiction |].
        apply parses_to_text in Hp; congruence.
  - rewrite Hpd; cbn [bind].
    destruct (parse s) as [d |] eqn:Ep.
    + exists (d <? now); split; [reflexivity |].
      rewrite Z.ltb_lt; split.
      * intros Hlt; left; split; [now apply present_text |].
        exists d; split; [now apply parses_to_text | exact Hlt].
      * intros [(_ & d' & Hp & Hlt) | (Hn & _)].
        -- apply parses_to_text in Hp; congruence.
        -- exfalso; apply Hn; now apply present_text.
    + exists false; split; [reflexivity |].
      split; [discriminate |].
      intros [(_ & d' & Hp & _) | (Hn & _)].
      * apply parses_to_text in Hp; congruence.
      * exfalso; apply Hn; now apply present_text.
Qed.

Lemma days_until_deadline_shaped (opp : json) (now : datetime) :
  dates_shaped opp = true ->
  exists days, _days_until_deadline strptime opp now = Ok days.
Proof.
  unfold dates_shaped; intros H.
  repeat (apply andb_prop in H as [H ?]).
  destruct opp as [| | | | | | o]; try discriminate.
  unfold deadline_of, start_of in *; cbn [member] in *.
  destruct (PyDict.get o "dates" (JDict [])) as [| | | | | | dd] eqn:Edates; try discriminate.
  cbn [member] in *.
  unfold _days_until_deadline; cbn [Py.get bind]; rewrite Edates; cbn [Py.get bind].
  destruct (Py.truthy _); cbn [negb]; [| eauto].
  rewrite parse_date_text by assumption; cbn [bind].
  destruct (match _ with JStr _ => _ | _ => None end); eauto.
Qed.

End WithStrptime.

End DateFacts.

(** ** The merge *)

Module RankFacts.

Import Shape Ranking.

Lemma join_strings (sep : string) (items : list json) :
  forallb is_str items = true -> exists s, Py.join sep items = Ok s.
Proof.
  unfold Py.join; intros H.
  assert (exists ss, Py.as_strings items = Ok ss) as (ss & ->).
  { induction items as [| x items IH]; simpl in *; [eauto |].
    apply andb_prop in H as [Hx H].
    destruct x; try discriminate.
    destruct (IH H) as (ss & ->); simpl; eauto. }
  simpl; eauto.
Qed.

Lemma truthy_text (v : json) :
  text_or_falsy v = true -> Py.truthy v = true -> is_str v = true.
Proof.
  unfold text_or_falsy; intros H Ht; rewrite Ht in H; simpl in H.
  now destruct v.
Qed.

Lemma loc_parts_shaped (ld : PyDict.t) :
  text_or_falsy (PyDict.get ld "city" JNull) = true ->
  text_or_falsy (PyDict.get ld "country" JNull) = true ->
  exists parts, loc_parts (JDict ld) = Ok parts /\ forallb is_str parts = true.
Proof.
  intros Hc Hn; unfold loc_parts; cbn [Py.get bind].
  eexists; split; [reflexivity |].
  rewrite forallb_app.
  destruct (Py.truthy (PyDict.get ld "city" JNull)) eqn:E1,
           (Py.truthy (PyDict.get ld "country" JNull)) eqn:E2; simpl;
    rewrite ?truthy_text by assumption; reflexivity.
Qed.

(** A well-shaped opportunity unpacked. *)
Lemma opportunity_shaped_inv (opp : json) :
  opportunity_shaped opp = true ->
  exists d dd ld cd ad,
    opp = JDict d
    /\ PyDict.get d "dates" (JDict []) = JDict dd
    /\ PyDict.get d "location" (JDict []) = JDict ld
    /\ PyDict.get d "compensation" (JDict []) = JDict cd
    /\ PyDict.get d "application" (JDict []) = JDict ad
    /\ Py.hashable (PyDict.get d "id" (JStr "")) = true
    /\ text_or_falsy (PyDict.get ld "city" JNull) = true
    /\ text_or_falsy (PyDict.get ld "country" JNull) = true
    /\ keywords_shaped (PyDict.get d "keywords_matched" JNull) = true
    /\ dates_shaped opp = true.
Proof.
  unfold opportunity_shaped; intros H.
  do 7 (apply andb_prop in H as [H ?]).
  pose proof H as Hd.
  unfold dates_shaped in H.
  do 3 (apply andb_prop in H as [H ?]).
  destruct opp as [| | | | | | d]; try discriminate.
  cbn [member] in *.
  destruct (PyDict.get d "dates" (JDict [])) as [| | | | | | dd] eqn:E1; try discriminate.
  destruct (PyDict.get d "location" (JDict [])) as [| | | | | | ld] eqn:E2; try discriminate.
  destruct (PyDict.get d "compensation" (JDict [])) as [| | | | | | cd] eqn:E3; try discriminate.
  destruct (PyDict.get d "application" (JDict [])) as [| | | | | | ad] eqn:E4; try discriminate.
  cbn [member] in *.
  exists d, dd, ld, cd, ad; repeat split; assumption.
Qed.

Section WithService.

Variable strptime : string -> string -> option datetime.
Variable json_loads : string -> option json.
Variable py_str : json -> string.
Variable strftime_ymd : datetime -> string.
Variable chat_completion : string -> string -> string -> chat_outcome.

Lemma prepare_text_shaped (opp : json) :
  opportunity_shaped opp = true ->
  exists t, _prepare_opportunity_text py_str opp = Ok t.
Proof.
  intros H.
  apply opportunity_shaped_inv in H
    as (d & dd & ld & cd & ad & -> & Hdd & Hld & Hcd & Had & _ & Hc & Hn & Hk & _).
  unfold _prepare_opportunity_text, _prepare_opportunity_parts.
  cbn [Py.get bind]; rewrite Hdd, Hld, Hcd; cbn [Py.get bind].
  destruct (loc_parts_shaped ld Hc Hn) as (parts & -> & Hparts); cbn [bind].
  assert (exists line,
             match parts with
             | [] => Ok []
             | _ => s <- Py.join ", " parts ;; Ok [("Location: " ++ s)%string]
             end = Ok line) as (line & ->).
  { destruct parts as [| p parts]; [eauto |].
    destruct (join_strings ", " (p :: parts) Hparts) as (s & ->); simpl; eauto. }
  cbn [bind].
  assert (exists line,
             (if Py.truthy (PyDict.get d "keywords_matched" JNull)
              then items <- Py.iter (PyDict.get d "keywords_matched" JNull) ;;
                   s <- Py.join ", " items ;; Ok [("Keywords: " ++ s)%string]
              else Ok []) = Ok line) as (kw & ->).
  { unfold keywords_shaped in Hk.
    destruct (Py.truthy (PyDict.get d "keywords_matched" JNull)); [| eauto].
    simpl in Hk.
    destruct (Py.iter (PyDict.get d "keywords_matched" JNull)) as [items |];
      [| discriminate].
    cbn [bind].
    destruct (join_strings ", " items Hk) as (s & ->); simpl; eauto. }
  cbn [bind]; eauto.
Qed.

Lemma rank_with_ai_shaped (profile : string) (opps : list json) (now : datetime) :
  Forall (fun o => opportunity_shaped o = true) opps ->
  exists texts,
    mapM (_prepare_opportunity_text py_str) opps = Ok texts
    /\ rank_opportunities_with_ai json_loads py_str strftime_ymd chat_completion
         profile opps now
       = Ok (parse_rankings json_loads
               (chat_completion (strftime_ymd now) profile
                                (PyStr.join opportunities_separator texts))).
Proof.
  intros H.
  destruct (mapM_total (_prepare_opportunity_text py_str) opps) as (texts & Ht).
  { eapply Forall_impl; [| exact H]; apply prepare_text_shaped. }
  exists texts; split; [exact Ht |].
  unfold rank_opportunities_with_ai; rewrite Ht; reflexivity.
Qed.

(** The first loop keeps the opportunities that are not expired, in
    order, and counts the others. *)
Lemma partition_expired_shaped (opps : list json) (now : datetime) :
  Forall (fun o => opportunity_shaped o = true) opps ->
  partition_expired strptime opps now
  = Ok (filter (not_expired strptime now) opps,
        Z.of_nat (List.length opps)
        - Z.of_nat (List.length (filter (not_expired strptime now) opps))).
Proof.
  induction 1 as [| o opps Ho _ IH]; [reflexivity |].
  cbn [partition_expired filter List.length].
  apply opportunity_shaped_inv in Ho as (? & ? & ? & ? & ? & _ & _ & _ & _ & _ & _ & _ & _ & _ & Hd).
  destruct (DateFacts.is_expired_shaped strptime o now Hd) as (b & Hb & _).
  assert (Hne : not_expired strptime now o = negb b)
    by (unfold not_expired; rewrite Hb; now destruct b).
  rewrite Hne, Hb, IH; cbn [bind].
  destruct b; cbn [negb List.length]; rewrite ?Nat2Z.inj_succ;
    apply f_equal; apply f_equal2; try reflexivity; lia.
Qed.

(** *** The lookup table *)

Lemma table_set_from (items : list json) (t : lookup_table) (k r : json) :
  table_from items t -> scoring_entry_shaped r = true ->
  (exists r', In r' items /\ Py.subscript r' "opportunity_id" = Ok k) ->
  table_from items (table_set t k r).
Proof.
  intros Ht Hr Hk; induction t as [| [k0 r0] t IH]; simpl.
  - intros k' r' [E | []]; injection E as <- <-; auto.
  - assert (Ht' : table_from items t) by (intros ? ? ?; apply Ht; now right).
    destruct (Py.eq k k0).
    + intros k' r' [E | Hin].
      * injection E as <- <-; split; [exact Hr |].
        apply (Ht k0 r0); now left.
      * apply Ht; now right.
    + intros k' r' [E | Hin].
      * injection E as <- <-; apply Ht; now left.
      * now apply IH.
Qed.

Lemma build_table_shaped (items all : list json) (acc : lookup_table) :
  forallb scoring_entry_shaped items = true ->
  incl items all -> table_from all acc ->
  exists t, build_table items acc = Ok t /\ table_from all t.
Proof.
  revert acc; induction items as [| r items IH]; intros acc H Hincl Hacc; simpl.
  - eauto.
  - simpl in H; apply andb_prop in H as [Hr H].
    pose proof Hr as Hr'.
    unfold scoring_entry_shaped in Hr'.
    destruct r as [| | | | | | rd]; try discriminate.
    cbn [Py.subscript].
    destruct (PyDict.lookup rd "opportunity_id") as [k |] eqn:Ek; [| discriminate].
    apply andb_prop in Hr' as [Hk _].
    cbn [bind]; rewrite Hk.
    apply IH; [exact H | intros x Hx; apply Hincl; now right |].
    apply table_set_from; [exact Hacc | exact Hr |].
    exists (JDict rd); split; [apply Hincl; now left |].
    cbn [Py.subscript]; now rewrite Ek.
Qed.

Lemma build_lookup_shaped (rankings : json) :
  rankings_shaped rankings = true ->
  exists items t, rankings = JList items
                  /\ build_lookup rankings = Ok t /\ table_from items t.
Proof.
  destruct rankings as [| | | | | items |]; try discriminate; simpl; intros H.
  destruct (build_table_shaped items items [] H (incl_refl _)) as (t & Ht & Hfrom).
  { intros ? ? []. }
  exists items, t; auto.
Qed.

Lemma table_find_in (t : lookup_table) (id r : json) :
  table_find t id = Some r -> exists k, In (k, r) t /\ Py.eq id k = true.
Proof.
  induction t as [| [k0 r0] t IH]; simpl; [discriminate |].
  destruct (Py.eq id k0) eqn:E.
  - intros H; injection H as <-; exists k0; auto.
  - intros H; destruct (IH H) as (k & Hin & Hk); eauto.
Qed.

(** An identifier no entry of the response carries is not in the table. *)
Lemma table_find_unscored (items : list json) (t : lookup_table) (id : json) :
  table_from items t -> scored (JList items) id = false -> table_find t id = None.
Proof.
  intros Ht Hs.
  destruct (table_find t id) as [r |] eqn:E; [| reflexivity].
  apply table_find_in in E as (k & Hin & Hk).
  destruct (Ht k r Hin) as (_ & r' & Hr' & Hsub).
  exfalso.
  cbn [scored] in Hs.
  assert (Hc : covers id r' = true).
  { unfold covers; destruct r' as [| | | | | | rd]; try discriminate.
    cbn [Py.subscript] in Hsub.
    destruct (PyDict.lookup rd "opportunity_id"); [| discriminate].
    injection Hsub as ->; exact Hk. }
  assert (existsb (covers id) items = true)
    by (apply existsb_exists; eauto).
  congruence.
Qed.

(** *** One entry *)

Lemma ranked_entry_shaped (items : list json) (t : lookup_table)
      (now : datetime) (opp : json) :
  opportunity_shaped opp = true -> table_from items t ->
  exists e, ranked_entry strptime t now opp = Ok e
            /\ opportunity_id e = id_of opp
            /\ is_expired e = false
            /\ numeric_score e = true
            /\ (scored (JList items) (id_of opp) = false -> unscored_defaults e).
Proof.
  intros H Ht.
  pose proof H as Hshape.
  apply opportunity_shaped_inv in H
    as (d & dd & ld & cd & ad & -> & Hdd & Hld & Hcd & Had & Hid & Hc & Hn & Hk & Hdates).
  destruct (DateFacts.days_until_deadline_shaped strptime (JDict d) now Hdates)
    as (days & Hdays).
  destruct (loc_parts_shaped ld Hc Hn) as (parts & Hparts & Hstr).
  assert (exists loc,
             match parts with
             | [] => Ok JNull
             | _ => s <- Py.join ", " parts ;; Ok (JStr s)
             end = Ok loc) as (loc & Hloc).
  { destruct parts as [| p parts]; [eauto |].
    destruct (join_strings ", " (p :: parts) Hstr) as (s & ->); simpl; eauto. }
  assert (exists rd,
             table_get t (PyDict.get d "id" (JStr "")) = Ok (JDict rd)
             /\ (exists q, Py.number (PyDict.get rd "match_score" (JNum (1 # 2))) = Some q)
             /\ (scored (JList items) (PyDict.get d "id" (JStr "")) = false -> rd = []))
    as (rd & Hget & Hnum & Hun).
  { unfold table_get; rewrite Hid.
    destruct (table_find t (PyDict.get d "id" (JStr ""))) as [r |] eqn:Ef.
    - pose proof Ef as Ef'.
      apply table_find_in in Ef as (k & Hin & _).
      destruct (Ht k r Hin) as (Hr & _).
      unfold scoring_entry_shaped in Hr.
      destruct r as [| | | | | | rd]; try discriminate.
      exists rd; split; [reflexivity |]; split.
      + apply andb_prop in Hr as [_ Hr].
        unfold PyDict.get.
        destruct (PyDict.lookup rd "match_score") as [s |]; [| simpl; eauto].
        destruct (Py.number s); [eauto | discriminate].
      + intros Hs.
        rewrite (table_find_unscored items t _ Ht Hs) in Ef'; discriminate.
    - exists []; split; [reflexivity |]; split; [simpl; eauto | reflexivity]. }
  unfold ranked_entry.
  cbn [Py.get bind]; rewrite Hget; cbn [bind].
  rewrite Hld; cbn [bind Py.get]; rewrite Hparts; cbn [bind]; rewrite Hloc; cbn [bind].
  rewrite Hcd, Hdd, Had; cbn [bind Py.get]; rewrite Hdays; cbn [bind].
  eexists; split; [reflexivity |].
  unfold id_of, numeric_score, unscored_defaults; cbn.
  split; [reflexivity |]; split; [reflexivity |]; split.
  - destruct Hnum as (q & ->); reflexivity.
  - intros Hs; rewrite (Hun Hs); cbn; auto.
Qed.

(** *** The whole function *)

Lemma rank_opportunities_merge (now : datetime) (profile : string) (opps : list json) :
  Forall (fun o => opportunity_shaped o = true) opps ->
  (forall date summary text,
      rankings_shaped (parse_rankings json_loads (chat_completion date summary text))
      = true) ->
  exists res entries,
    rank_opportunities strptime json_loads py_str strftime_ymd chat_completion
                       now profile opps = Ok res
    /\ total_opportunities res = Z.of_nat (List.length opps)
    /\ valid_opportunities res = Z.of_nat (List.length (valid_of strptime now opps))
    /\ expired_opportunities res
       = Z.of_nat (List.length opps)
         - Z.of_nat (List.length (valid_of strptime now opps))
    /\ Forall2 (fun o e =>
                  opportunity_id e = id_of o
                  /\ is_expired e = false
                  /\ forall rankings,
                       rank_opportunities_with_ai json_loads py_str strftime_ymd
                         chat_completion profile (valid_of strptime now opps) now
                       = Ok rankings ->
                       scored rankings (id_of o) = false -> unscored_defaults e)
               (valid_of strptime now opps) entries
    /\ ranked_opportunities res = sort_by_score entries.
Proof.
  intros Hopps Hchat.
  unfold rank_opportunities.
  rewrite (partition_expired_shaped opps now Hopps); cbn [bind].
  assert (Hvalid : Forall (fun o => opportunity_shaped o = true)
                          (valid_of strptime now opps)).
  { apply Forall_forall; intros o Ho.
    apply filter_In in Ho as [Ho _].
    revert o Ho; now apply Forall_forall. }
  fold (valid_of strptime now opps).
  generalize dependent (valid_of strptime now opps); intros valid Hvalid.
  destruct valid as [| v0 valid'].
  { eexists; exists []; repeat split; try reflexivity; constructor. }
  cbv iota.
  set (valid := v0 :: valid') in *.
  destruct (rank_with_ai_shaped profile valid now Hvalid) as (texts & _ & Hai).
  rewrite Hai; cbn [bind].
  set (rankings := parse_rankings json_loads _) in *.
  destruct (build_lookup_shaped rankings (Hchat _ _ _)) as (items & t & Eitems & Ht & Hfrom).
  rewrite Ht; cbn [bind].
  assert (Hentries :
            Forall (fun o => exists e,
                        ranked_entry strptime t now o = Ok e
                        /\ opportunity_id e = id_of o
                        /\ is_expired e = false
                        /\ numeric_score e = true
                        /\ (scored (JList items) (id_of o) = false -> unscored_defaults e))
                   valid).
  { eapply Forall_impl; [| exact Hvalid].
    intros o Ho; now apply (ranked_entry_shaped items). }
  destruct (mapM_total (ranked_entry strptime t now) valid) as (entries & Hmap).
  { eapply Forall_impl; [| exact Hentries]; intros o (e & He & _); eauto. }
  rewrite Hmap; cbn [bind].
  assert (Hall : Forall2 (fun o e =>
                            opportunity_id e = id_of o
                            /\ is_expired e = false
                            /\ numeric_score e = true
                            /\ (scored (JList items) (id_of o) = false
                                -> unscored_defaults e))
                         valid entries).
  { apply mapM_Forall2 in Hmap.
    clear - Hmap Hentries.
    induction Hmap as [| o e valid entries He _ IH]; [constructor |].
    inversion Hentries as [| ? ? (e' & He' & Hprops) Hrest]; subst.
    rewrite He in He'; injection He' as <-.
    constructor; auto. }
  rewrite SortFacts.sort_desc_numeric.
  2:{ clear - Hall; induction Hall as [| ? ? ? ? (_ & _ & Hn & _)]; constructor; auto. }
  cbn [bind].
  eexists; exists entries; split; [reflexivity |].
  cbn [total_opportunities valid_opportunities expired_opportunities
       ranked_opportunities].
  repeat split; try reflexivity.
  eapply Forall2_impl; [| exact Hall].
  intros o e (Hid & Hexp & _ & Hun).
  split; [exact Hid | split; [exact Hexp |]].
  intros rankings' Hr; injection Hr as <-.
  rewrite Eitems; exact Hun.
Qed.

End WithService.

End RankFacts.

(** ** Ranking: the claims *)

Module RankClaims.

Import Shape Ranking.

(** C4.  For every reference instant, a well-shaped opportunity is judged
    expired exactly when its application deadline, if present, parses to an
    instant strictly earlier than the reference instant, or, with no
    deadline present, its start date is present and parses to an instant
    strictly earlier than the reference instant.  With neither date
    present the opportunity is not expired, and a deadline that parses to
    the reference instant or later makes it not expired whatever the start
    date is.  A date is present when it is a non-empty string. *)
Theorem is_expired_rule (strptime : string -> string -> option datetime)
        (opp : json) (now : datetime) :
  dates_shaped opp = true ->
  exists b, _is_expired strptime opp now = Ok b
    /\ (b = true <->
        (present (deadline_of opp)
         /\ exists d, parses_to strptime (deadline_of opp) d /\ d < now)
        \/ (~ present (deadline_of opp) /\ present (start_of opp)
            /\ exists d, parses_to strptime (start_of opp) d /\ d < now))
    /\ (~ present (deadline_of opp) -> ~ present (start_of opp) -> b = false)
    /\ (forall d, present (deadline_of opp) ->
                  parses_to strptime (deadline_of opp) d -> now <= d -> b = false).
Proof.
  intros H.
  destruct (DateFacts.is_expired_shaped strptime opp now H) as (b & Hb & Hiff).
  exists b; split; [exact Hb |]; split; [exact Hiff |]; split.
  - intros Hnd Hns.
    destruct b; [| reflexivity].
    destruct (proj1 Hiff eq_refl) as [(? & _) | (_ & ? & _)]; contradiction.
  - intros d Hp (s & Es & Hs) Hle.
    destruct b; [| reflexivity].
    destruct (proj1 Hiff eq_refl) as [(_ & d' & (s' & Es' & Hs') & Hlt) | (? & _)];
      [| contradiction].
    rewrite Es in Es'; injection Es' as <-.
    rewrite Hs in Hs'; injection Hs' as <-; lia.
Qed.

Lemma is_expired_rule_witness :
  exists b, _is_expired Reference.strptime Examples.conf_d Examples.now = Ok b
    /\ (~ present (deadline_of Examples.conf_d) ->
        ~ present (start_of Examples.conf_d) -> b = false).
Proof.
  destruct (is_expired_rule Reference.strptime Examples.conf_d Examples.now eq_refl)
    as (b & Hb & _ & Hnone & _).
  exists b; split; [exact Hb | exact Hnone].
Defined.

(** The examples of the specification: a deadline of 2020-01-01 is expired
    at a later instant; a deadline a year ahead is not, even with a start
    date in the past. *)
Example expired_2020 :
  _is_expired Reference.strptime
              (JDict [("dates", JDict [("application_deadline", JStr "2020-01-01")])])
              Examples.now = Ok true.
Proof. vm_compute; reflexivity. Qed.

Example future_deadline_past_start :
  _is_expired Reference.strptime Examples.conf_d Examples.now = Ok false.
Proof. vm_compute; reflexivity. Qed.

(** C10.  An opportunity whose application deadline is a non-empty string
    that none of the accepted formats reads is not expired, whatever its
    start date is, and has no days-until-deadline value. *)
Theorem unparseable_deadline (strptime : string -> string -> option datetime)
        (opp : json) (now : datetime) (s : string) :
  deadline_of opp = JStr s -> s <> EmptyString ->
  first_format strptime formats s = None ->
  _is_expired strptime opp now = Ok false
  /\ _days_until_deadline strptime opp now = Ok None.
Proof.
  unfold deadline_of; intros Hd Hs Hp.
  destruct opp as [| | | | | | o]; try discriminate.
  cbn [member] in Hd.
  unfold _is_expired, _days_until_deadline; cbn [Py.get bind].
  destruct (PyDict.get o "dates" (JDict [])) as [| | | | | | dd]; try discriminate.
  cbn [member] in Hd; cbn [Py.get bind]; rewrite Hd.
  destruct s as [| c s]; [contradiction |].
  cbn [Py.truthy PyStr.truthy negb].
  unfold _parse_date; cbn [Py.truthy PyStr.truthy negb bind]; rewrite Hp.
  split; reflexivity.
Qed.

Lemma unparseable_deadline_witness :
  _is_expired Reference.strptime Examples.conf_e Examples.now = Ok false
  /\ _days_until_deadline Reference.strptime Examples.conf_e Examples.now = Ok None.
Proof.
  apply (unparseable_deadline Reference.strptime Examples.conf_e Examples.now "rolling").
  - reflexivity.
  - discriminate.
  - vm_compute; reflexivity.
Defined.

(** An empty deadline counts as no deadline: the start date decides. *)
Example empty_deadline_past_start :
  _is_expired Reference.strptime Examples.conf_f Examples.now = Ok true.
Proof. vm_compute; reflexivity. Qed.

Section WithService.

Variable strptime : string -> string -> option datetime.
Variable json_loads : string -> option json.
Variable py_str : json -> string.
Variable strftime_ymd : datetime -> string.
Variable chat_completion : string -> string -> string -> chat_outcome.


(** When the scoring call fails outright, or its text cannot be parsed at
    all, the ranking is complete and every entry is unscored. *)
Lemma rank_opportunities_scorer_failure (now : datetime) (profile : string)
      (opps : list json) :
  Forall (fun o => opportunity_shaped o = true) opps ->
  (forall date summary text,
      parse_rankings json_loads (chat_completion date summary text) = JList []) ->
  exists res,
    rank_opportunities strptime json_loads py_str strftime_ymd chat_completion
                       now profile opps = Ok res
    /\ List.length (ranked_opportunities res)
       = List.length (valid_of strptime now opps)
    /\ Forall unscored_defaults (ranked_opportunities res).
Proof.
  intros Hopps Hchat.
  destruct (RankFacts.rank_opportunities_merge strptime json_loads py_str strftime_ymd
              chat_completion now profile opps Hopps)
    as (res & entries & Hres & _ & _ & _ & Hall & Hsort).
  { intros; rewrite Hchat; reflexivity. }
  exists res; split; [exact Hres |].
  rewrite Hsort; split.
  - rewrite <- (Permutation_length (SortFacts.sort_by_score_perm entries)).
    symmetry; eapply Forall2_length; exact Hall.
  - eapply Permutation_Forall; [apply SortFacts.sort_by_score_perm |].
    destruct (RankFacts.rank_with_ai_shaped json_loads py_str strftime_ymd
                chat_completion profile (valid_of strptime now opps) now)
      as (texts & _ & Hai).
    { apply Forall_forall; intros o Ho.
      apply filter_In in Ho as [Ho _].
      revert o Ho; now apply Forall_forall. }
    rewrite Hchat in Hai.
    eapply Forall2_impl in Hall.
    2:{ intros o e (_ & _ & Hun); exact (Hun (JList []) Hai eq_refl). }
    clear - Hall.
    induction Hall; constructor; auto.
Qed.

End WithService.


(** The end-to-end example of the specification: of two opportunities,
    one with a deadline in 2099 and one with a deadline in 2000, the first
    is ranked and the second counted as expired. *)
Example end_to_end :
  Examples.summary (Examples.rank (Examples.scorer ChatError)
                                  [Examples.conf_a; Examples.conf_b])
  = Ok [(JStr "a", JNum (1 # 2))]
  /\ exists res,
      Examples.rank (Examples.scorer ChatError) [Examples.conf_a; Examples.conf_b]
      = Ok res
      /\ total_opportunities res = 2 /\ valid_opportunities res = 1
      /\ expired_opportunities res = 1.
Proof.
  split; [vm_compute; reflexivity |].
  eexists; split; [vm_compute; reflexivity |].
  repeat split.
Qed.

(** Ties keep the input order: [a] and [c] both score 0.9. *)
Example ties_keep_input_order :
  Examples.summary
    (Examples.rank
       (Examples.answers
          "Here: [{'opportunity_id': 'c', 'match_score': 0.9}, {'opportunity_id': 'a', 'match_score': 0.9}] ok")
       [Examples.conf_a; Examples.conf_b; Examples.conf_c; Examples.conf_d])
  = Ok [(JStr "a", JNum (9 # 10)); (JStr "c", JNum (9 # 10)); (JStr "d", JNum (1 # 2))].
Proof. vm_compute; reflexivity. Qed.

(** A match score that is NaN is outside what [rankings_shaped] admits:
    [<] answers [False] on it either way round, [list.sort] raises nothing
    and leaves the three entries as they stand, 0.9 behind 0.1. *)
Example nan_score_is_not_ordered :
  Examples.summary
    (Examples.rank
       (Examples.answers
          "[{'opportunity_id': 'a', 'match_score': 0.1}, {'opportunity_id': 'c', 'match_score': NaN}, {'opportunity_id': 'd', 'match_score': 0.9}]")
       [Examples.conf_a; Examples.conf_b; Examples.conf_c; Examples.conf_d])
  = Ok [(JStr "a", JNum (1 # 10)); (JStr "c", JNaN); (JStr "d", JNum (9 # 10))]
  /\ rankings_shaped
       (JList [JDict [("opportunity_id", JStr "c"); ("match_score", JNaN)]]) = false.
Proof. split; vm_compute; reflexivity. Qed.

(** C2.  A scoring response with an entry that lacks [opportunity_id], or
    with an entry that is not a dictionary, makes [rank_opportunities]
    raise: the exception leaves the comprehension that builds the lookup
    table, and no ranked list is returned. *)
Theorem rank_opportunities_malformed_entry :
  Examples.rank (Examples.answers "[{'match_score': 0.9}]") [Examples.conf_a]
  = Raise KeyError
  /\ Examples.rank (Examples.answers "[42]") [Examples.conf_a] = Raise TypeError.
Proof. split; vm_compute; reflexivity. Qed.

End RankClaims.

(** ** Chunking *)

Module ChunkFacts.

Import Chunking.

(** Every cut leaves the window's first half behind. *)
Lemma sentence_cut_bound (seps : list string) (window : string)
      (chunk_size start e : Z) :
  Forall (fun sep => PyStr.len sep = 2) seps ->
  sentence_cut seps window chunk_size start = Some e ->
  start + chunk_size / 2 + 3 <= e.
Proof.
  induction 1 as [| sep seps Hsep _ IH]; simpl; [discriminate |].
  destruct (negb (PyStr.rfind window sep =? -1)
            && (chunk_size / 2 <? PyStr.rfind window sep)) eqn:E.
  - intros H; injection H as <-.
    apply andb_prop in E as [_ E]; apply Z.ltb_lt in E; lia.
  - exact IH.
Qed.

Lemma sentence_seps_len : Forall (fun sep => PyStr.len sep = 2) sentence_seps.
Proof. repeat constructor. Qed.

Lemma cut_end_bound (text : string) (chunk_size start : Z) :
  0 < chunk_size ->
  start + chunk_size <= cut_end text chunk_size start
  \/ start + chunk_size / 2 + 2 <= cut_end text chunk_size start.
Proof.
  intros Hcs; unfold cut_end.
  destruct (start + chunk_size <? PyStr.len text); [| left; lia].
  destruct (sentence_cut _ _ _ _) as [e |] eqn:E.
  - right; apply sentence_cut_bound in E; [lia | apply sentence_seps_len].
  - unfold word_cut.
    destruct (negb _ && (chunk_size / 2 <? _)) eqn:Ew; [| left; lia].
    apply andb_prop in Ew as [_ Ew]; apply Z.ltb_lt in Ew; right; lia.
Qed.

(** With an overlap of at most half the chunk size plus one, the window
    start moves forward at every turn. *)
Lemma next_start_progress (text : string) (chunk_size overlap start : Z) :
  0 < chunk_size -> 0 <= overlap < chunk_size -> overlap <= chunk_size / 2 + 1 ->
  0 <= start -> start < next_start text chunk_size overlap start.
Proof.
  intros Hcs Hov Hhalf Hstart; unfold next_start.
  destruct (cut_end_bound text chunk_size start Hcs) as [H | H];
    destruct (cut_end text chunk_size start - overlap <? 0) eqn:E;
    try (apply Z.ltb_lt in E); try (apply Z.ltb_ge in E); lia.
Qed.

Lemma chunk_loop_terminates (text : string) (chunk_size overlap : Z) :
  0 < chunk_size -> 0 <= overlap < chunk_size -> overlap <= chunk_size / 2 + 1 ->
  forall (fuel : nat) (start : Z) (chunks : list string),
    0 <= start -> PyStr.len text - start <= Z.of_nat fuel ->
    exists r, chunk_loop fuel text chunk_size overlap (start, chunks) = Some r.
Proof.
  intros Hcs Hov Hhalf.
  induction fuel as [| fuel IH]; intros start chunks Hstart Hfuel;
    cbn [chunk_loop fst snd].
  - destruct (start <? PyStr.len text) eqn:E; [| eauto].
    apply Z.ltb_lt in E; lia.
  - destruct (start <? PyStr.len text) eqn:E; [| eauto].
    cbn [chunk_step].
    pose proof (next_start_progress text chunk_size overlap start Hcs Hov Hhalf Hstart).
    apply IH; lia.
Qed.

Lemma window_starts_increasing (text : string) (chunk_size overlap : Z) :
  0 < chunk_size -> 0 <= overlap < chunk_size -> overlap <= chunk_size / 2 + 1 ->
  forall (fuel : nat) (start : Z),
    0 <= start ->
    StronglySorted Z.lt (window_starts fuel text chunk_size overlap start)
    /\ Forall (fun s => start <= s) (window_starts fuel text chunk_size overlap start).
Proof.
  intros Hcs Hov Hhalf.
  induction fuel as [| fuel IH]; intros start Hstart; cbn [window_starts].
  - destruct (start <? PyStr.len text); split; constructor.
  - destruct (start <? PyStr.len text); [| split; constructor].
    pose proof (next_start_progress text chunk_size overlap start Hcs Hov Hhalf Hstart)
      as Hnext.
    destruct (IH (next_start text chunk_size overlap start)) as [Hs Hge]; [lia |].
    split; constructor; try lia; try assumption.
    all: eapply Forall_impl; [| exact Hge]; simpl; intros; lia.
Qed.

(** Termination and forward progress for overlaps up to half the chunk size
    plus one: the range in which the default arguments (1000 and 200)
    lie. *)
Lemma chunk_text_terminates_small_overlap (text : string) (chunk_size overlap : Z) :
  0 < chunk_size -> 0 <= overlap < chunk_size -> overlap <= chunk_size / 2 + 1 ->
  (exists chunks,
      chunk_text_fuel (String.length text) text chunk_size overlap = Some chunks)
  /\ StronglySorted Z.lt (window_starts (String.length text) text chunk_size overlap 0).
Proof.
  intros Hcs Hov Hhalf; split.
  - unfold chunk_text_fuel.
    destruct (negb (PyStr.truthy text) || (PyStr.len text <=? chunk_size)); [eauto |].
    apply chunk_loop_terminates; try assumption; unfold PyStr.len; lia.
  - apply window_starts_increasing; try assumption; lia.
Qed.

Lemma chunk_text_terminates_small_overlap_example :
  exists chunks,
    chunk_text_fuel 61 "Hello world. This is a test of the chunker! Does it work? yes"
                    20 5 = Some chunks.
Proof.
  apply (chunk_text_terminates_small_overlap
           "Hello world. This is a test of the chunker! Does it work? yes" 20 5);
    [lia | lia | vm_compute; discriminate].
Defined.

(** The text on which the loop stalls: a sentence end at offset 6 of a
    window of 10. *)
Lemma stall_step :
  next_start Examples.stall_text 10 9 0 = 0
  /\ PyStr.strip (PyStr.slice Examples.stall_text 0 (cut_end Examples.stall_text 10 0))
     = "aaaaaa.".
Proof. split; vm_compute; reflexivity. Qed.

Lemma stall_loop (fuel : nat) (chunks : list string) :
  chunk_loop fuel Examples.stall_text 10 9 (0, chunks) = None.
Proof.
  revert chunks; induction fuel as [| fuel IH]; intros chunks;
    cbn [chunk_loop fst snd].
  - reflexivity.
  - change (0 <? PyStr.len Examples.stall_text) with true; cbv iota.
    unfold chunk_step.
    destruct stall_step as [-> ->]; cbn [PyStr.truthy].
    apply IH.
Qed.

Lemma stall_starts (fuel : nat) :
  window_starts fuel Examples.stall_text 10 9 0 = repeat 0 fuel.
Proof.
  induction fuel as [| fuel IH]; cbn [window_starts repeat].
  - reflexivity.
  - change (0 <? PyStr.len Examples.stall_text) with true; cbv iota.
    destruct stall_step as [-> _]; now rewrite IH.
Qed.

(** C3.  With chunk size 10 and overlap 9, both within the stated bounds,
    the loop of [chunk_text] does not terminate on a text whose first
    window holds a sentence end past its midpoint: however many turns it
    is given it is still running, and the window start is 0 at every
    turn. *)
Theorem chunk_text_stalls (fuel : nat) :
  0 < 10 /\ 0 <= 9 < 10
  /\ chunk_text_fuel fuel Examples.stall_text 10 9 = None
  /\ window_starts fuel Examples.stall_text 10 9 0 = repeat 0 fuel.
Proof.
  split; [lia |]; split; [lia |]; split.
  - unfold chunk_text_fuel.
    change (negb (PyStr.truthy Examples.stall_text)
            || (PyStr.len Examples.stall_text <=? 10)) with false; cbv iota.
    apply stall_loop.
  - apply stall_starts.
Qed.

End ChunkFacts.

(** ** The response parser *)

Module StrFacts.

Lemma len_nonneg (s : string) : 0 <= PyStr.len s.
Proof. unfold PyStr.len; lia. Qed.

Lemma len_cons (c : ascii) (s : string) : PyStr.len (String c s) = PyStr.len s + 1.
Proof. unfold PyStr.len; cbn [String.length]; lia. Qed.

Lemma len_app (s t : string) : PyStr.len (s ++ t) = PyStr.len s + PyStr.len t.
Proof.
  induction s as [| c s IH]; cbn [append]; rewrite ?len_cons; [reflexivity | lia].
Qed.

(** [find] answers [-1] or an index from the starting offset on. *)
Lemma find_from_range (sep s : string) (i : Z) :
  PyStr.find_from sep s i = -1 \/ i <= PyStr.find_from sep s i.
Proof.
  revert i; induction s as [| c s IH]; intros i; cbn [PyStr.find_from].
  - destruct (prefix sep ""); [right; lia | left; reflexivity].
  - destruct (prefix sep (String c s)); [right; lia |].
    destruct (IH (i + 1)) as [-> | H]; [now left | right; lia].
Qed.

Lemma find_from_absent (sep s : string) (i j : Z) :
  0 <= i -> 0 <= j -> PyStr.find_from sep s i = -1 -> PyStr.find_from sep s j = -1.
Proof.
  revert i j; induction s as [| c s IH]; intros i j Hi Hj; cbn [PyStr.find_from].
  - destruct (prefix sep ""); [lia | reflexivity].
  - destruct (prefix sep (String c s)); [lia |].
    apply IH; lia.
Qed.

Lemma rfind_from_range (sep s : string) (i : Z) :
  PyStr.rfind_from sep s i = -1 \/ i <= PyStr.rfind_from sep s i.
Proof.
  revert i; induction s as [| c s IH]; intros i; cbn [PyStr.rfind_from].
  - destruct (prefix sep ""); [right; lia | left; reflexivity].
  - destruct (0 <=? PyStr.rfind_from sep s (i + 1)) eqn:E.
    + destruct (IH (i + 1)) as [H | H]; [rewrite H in E; discriminate | right; lia].
    + destruct (prefix sep (String c s)); [right; lia | now left].
Qed.

Lemma rfind_from_absent (sep s : string) (i j : Z) :
  0 <= i -> 0 <= j -> PyStr.rfind_from sep s i = -1 -> PyStr.rfind_from sep s j = -1.
Proof.
  revert i j; induction s as [| c s IH]; intros i j Hi Hj; cbn [PyStr.rfind_from].
  - destruct (prefix sep ""); [lia | reflexivity].
  - destruct (rfind_from_range sep s (i + 1)) as [H | H].
    + rewrite H, (IH (i + 1) (j + 1)) by (lia || assumption).
      cbn [Z.leb Z.compare].
      destruct (prefix sep (String c s)); [lia | reflexivity].
    + destruct (0 <=? PyStr.rfind_from sep s (i + 1)) eqn:E;
        [lia | apply Z.leb_gt in E; lia].
Qed.

Lemma prefix_empty (s : string) : prefix "" s = true.
Proof. now destruct s. Qed.

Section OneChar.

Variable c : ascii.

Local Abbreviation sep := (String c EmptyString).

Lemma prefix_one (s : string) : prefix sep (String c s) = true.
Proof.
  cbn [prefix].
  destruct (ascii_dec c c); [apply prefix_empty | contradiction].
Qed.

Lemma prefix_one_app (a : ascii) (s t : string) :
  prefix sep (String a s) = prefix sep (String a (s ++ t)).
Proof.
  cbn [prefix].
  destruct (ascii_dec c a); [| reflexivity].
  now rewrite !prefix_empty.
Qed.

(** The first occurrence of a character absent from [before]. *)
Lemma find_first (before rest : string) (i : Z) :
  0 <= i -> PyStr.find_from sep before 0 = -1 ->
  PyStr.find_from sep (before ++ String c rest) i = i + PyStr.len before.
Proof.
  revert i; induction before as [| a before IH]; intros i Hi Hfind.
  - cbn [append PyStr.find_from]; rewrite prefix_one.
    unfold PyStr.len; cbn; lia.
  - cbn [append PyStr.find_from] in *.
    rewrite <- prefix_one_app.
    destruct (prefix sep (String a before)); [discriminate |].
    rewrite IH; [rewrite len_cons; lia | lia |].
    now apply (find_from_absent sep before 1 0).
Qed.

(** The last occurrence of a character absent from [after]. *)
Lemma rfind_last (before after : string) (i : Z) :
  0 <= i -> PyStr.rfind_from sep after 0 = -1 ->
  PyStr.rfind_from sep (before ++ String c after) i = i + PyStr.len before.
Proof.
  revert i; induction before as [| a before IH]; intros i Hi Hfind.
  - cbn [append PyStr.rfind_from].
    rewrite (rfind_from_absent sep after 0 (i + 1)) by (lia || assumption).
    cbn [Z.leb Z.compare]; rewrite prefix_one.
    unfold PyStr.len; cbn; lia.
  - cbn [append PyStr.rfind_from].
    rewrite IH by (lia || assumption).
    pose proof (len_nonneg before).
    destruct (0 <=? i + 1 + PyStr.len before) eqn:E;
      [rewrite len_cons; lia | apply Z.leb_gt in E; lia].
Qed.

End OneChar.

Lemma app_assoc (s t u : string) : ((s ++ t) ++ u = s ++ t ++ u)%string.
Proof.
  induction s as [| c s IH]; cbn [append]; [reflexivity | now rewrite IH].
Qed.

Lemma substring_all (s t : string) :
  substring 0 (String.length s) (s ++ t) = s.
Proof.
  induction s as [| c s IH]; cbn [append String.length substring].
  - now destruct t.
  - now rewrite IH.
Qed.

Lemma substring_skip (a s : string) (n : nat) :
  substring (String.length a) n (a ++ s) = substring 0 n s.
Proof.
  induction a as [| c a IH]; cbn [append String.length substring]; auto.
Qed.

(** The slice that spans the middle of three pieces. *)
Lemma slice_middle (a b c : string) :
  b <> EmptyString ->
  PyStr.slice (a ++ b ++ c) (PyStr.len a) (PyStr.len a + PyStr.len b) = b.
Proof.
  intros Hb; unfold PyStr.slice, PyStr.adjust.
  rewrite !len_app.
  pose proof (len_nonneg a); pose proof (len_nonneg b); pose proof (len_nonneg c).
  assert (0 < PyStr.len b).
  { destruct b as [| x b']; [contradiction |].
    rewrite len_cons; pose proof (len_nonneg b'); lia. }
  destruct (PyStr.len a <? 0) eqn:E1; [apply Z.ltb_lt in E1; lia |].
  destruct (PyStr.len a + PyStr.len b <? 0) eqn:E2; [apply Z.ltb_lt in E2; lia |].
  rewrite !Z.min_l by lia.
  destruct (PyStr.len a <? PyStr.len a + PyStr.len b) eqn:E3;
    [| apply Z.ltb_ge in E3; lia].
  replace (PyStr.len a + PyStr.len b - PyStr.len a) with (PyStr.len b) by lia.
  unfold PyStr.len; rewrite !Nat2Z.id.
  now rewrite substring_skip, substring_all.
Qed.

End StrFacts.

Module ParserFacts.

Import AIProcessor.

Section WithLoads.

Variable json_loads : string -> option json.

(** In a text whose prose has no bracket of its own, the bracketed
    substring is the embedded array. *)
Lemma between_brackets (before body after : string) :
  PyStr.find before "[" = -1 -> PyStr.rfind after "]" = -1 ->
  between (before ++ ("[" ++ body ++ "]") ++ after) "[" "]"
  = Some ("[" ++ body ++ "]")%string.
Proof.
  intros Hb Ha; unfold between, PyStr.find, PyStr.rfind.
  set (text := (before ++ ("[" ++ body ++ "]") ++ after)%string).
  pose proof (StrFacts.len_nonneg before); pose proof (StrFacts.len_nonneg body).
  assert (Hfind : PyStr.find_from "[" text 0 = PyStr.len before).
  { change text with (before ++ String "[" ((body ++ "]") ++ after))%string.
    rewrite (StrFacts.find_first "["%char before _ 0) by (lia || assumption); lia. }
  assert (Hrfind : PyStr.rfind_from "]" text 0 = PyStr.len before + 1 + PyStr.len body).
  { replace text with ((before ++ "[" ++ body) ++ String "]" after)%string.
    2:{ unfold text; rewrite !StrFacts.app_assoc; reflexivity. }
    rewrite (StrFacts.rfind_last "]"%char (before ++ "[" ++ body) after 0)
      by (lia || assumption).
    rewrite !StrFacts.len_app; change (PyStr.len "[") with 1; lia. }
  rewrite Hfind, Hrfind.
  destruct (PyStr.len before =? -1) eqn:E1; [apply Z.eqb_eq in E1; lia |].
  destruct (PyStr.len before <? PyStr.len before + 1 + PyStr.len body + 1)
    eqn:E2; [| apply Z.ltb_ge in E2; lia].
  cbn [negb andb]; f_equal.
  replace (PyStr.len before + 1 + PyStr.len body + 1)
    with (PyStr.len before + PyStr.len ("[" ++ body ++ "]"))
    by (rewrite !StrFacts.len_app; change (PyStr.len "[") with 1;
        change (PyStr.len "]") with 1; lia).
  apply StrFacts.slice_middle; discriminate.
Qed.

Lemma parse_opportunities_brackets (before body after : string) (items : list json) :
  json_loads (before ++ ("[" ++ body ++ "]") ++ after) = None ->
  json_loads ("[" ++ body ++ "]") = Some (JList items) ->
  PyStr.find before "[" = -1 -> PyStr.rfind after "]" = -1 ->
  _parse_opportunities json_loads (before ++ ("[" ++ body ++ "]") ++ after)
  = JList items.
Proof.
  intros Hwhole Harray Hb Ha; unfold _parse_opportunities.
  rewrite Hwhole, (between_brackets before body after Hb Ha).
  cbn [try_loads]; now rewrite Harray.
Qed.

(** When no strategy parses anything, the answer is the empty list. *)
Lemma parse_opportunities_nothing (raw : string) :
  json_loads raw = None ->
  try_loads json_loads (between raw "[" "]") = None ->
  try_loads json_loads (between raw "{" "}") = None ->
  _parse_opportunities json_loads raw = JList [].
Proof.
  intros H1 H2 H3; unfold _parse_opportunities; now rewrite H1, H2, H3.
Qed.

(** What the function can return: a list, or the member [opportunities] of
    a parsed object, or the value of the bracketed substring. *)
Lemma parse_opportunities_cases (raw : string) :
  (exists l, _parse_opportunities json_loads raw = JList l)
  \/ (exists d v, PyDict.lookup d "opportunities" = Some v
                  /\ _parse_opportunities json_loads raw = v)
  \/ (json_loads raw = None
      /\ try_loads json_loads (between raw "[" "]")
         = Some (_parse_opportunities json_loads raw)).
Proof.
  unfold _parse_opportunities.
  destruct (json_loads raw) as [v |].
  - destruct v as [| | | | | l | d]; try (left; eexists; reflexivity).
    destruct (PyDict.lookup d "opportunities") as [v |] eqn:E;
      [right; left; exists d, v; auto | left; eexists; reflexivity].
  - destruct (try_loads json_loads (between raw "[" "]")) as [v |];
      [right; right; auto |].
    destruct (try_loads json_loads (between raw "{" "}")) as [v |];
      [| left; eexists; reflexivity].
    destruct v as [| | | | | l | d]; try (left; eexists; reflexivity).
    destruct (PyDict.lookup d "opportunities") as [v |] eqn:E;
      [right; left; exists d, v; auto | left; eexists; reflexivity].
Qed.

End WithLoads.

(** C6.  For every text made of a JSON array between a leading prose with
    no opening bracket and a trailing prose with no closing bracket, the
    whole text not being valid JSON, [_parse_opportunities] returns exactly
    that array. *)
Theorem parse_opportunities_embedded_array (json_loads : string -> option json)
        (before body after : string) (items : list json) :
  json_loads (before ++ ("[" ++ body ++ "]") ++ after) = None ->
  json_loads ("[" ++ body ++ "]") = Some (JList items) ->
  PyStr.find before "[" = -1 -> PyStr.rfind after "]" = -1 ->
  _parse_opportunities json_loads (before ++ ("[" ++ body ++ "]") ++ after)
  = JList items.
Proof. apply parse_opportunities_brackets. Qed.

Lemma parse_opportunities_embedded_array_witness :
  _parse_opportunities Reference.json_loads
    (Reference.dq "Here you go: " ++ ("[" ++ Reference.dq "{'id': 'a'}, {'id': 'b'}" ++ "]")
                                  ++ " -- enjoy!")
  = JList [JDict [("id", JStr "a")]; JDict [("id", JStr "b")]].
Proof.
  apply (parse_opportunities_embedded_array Reference.json_loads);
    vm_compute; reflexivity.
Defined.

(** The claim as first stated fails when the prose has a bracket of its
    own: the text holds a valid array after a bracketed remark, and the
    answer is the empty list. *)
Lemma parse_opportunities_prose_bracket :
  let array := Reference.dq "[{'id': 'a'}, {'id': 'b'}]" in
  let text := ("Here are the results [as requested]: " ++ array)%string in
  Reference.json_loads array
  = Some (JList [JDict [("id", JStr "a")]; JDict [("id", JStr "b")]])
  /\ Reference.json_loads text = None
  /\ _parse_opportunities Reference.json_loads text = JList []
  /\ _parse_opportunities Reference.json_loads text
     <> JList [JDict [("id", JStr "a")]; JDict [("id", JStr "b")]].
Proof.
  cbv zeta; repeat split; try (vm_compute; reflexivity).
  vm_compute; discriminate.
Qed.

(** C8.  On a text that is a JSON object whose member [opportunities] is
    not an array, [_parse_opportunities] returns that member: a number, or
    [None], not a list. *)
Theorem parse_opportunities_not_a_list :
  _parse_opportunities Reference.json_loads (Reference.dq "{'opportunities': 5}")
  = JNum 5
  /\ _parse_opportunities Reference.json_loads
       (Reference.dq "Result: {'opportunities': null} (none found)")
     = JNull.
Proof. split; vm_compute; reflexivity. Qed.

End ParserFacts.

(** ** The models *)

Module ModelFacts.

Import Shape Models.

(** *** Dictionaries *)

Lemma lookup_set (d : PyDict.t) (k k' : string) (v : json) :
  PyDict.lookup (PyDict.set d k v) k'
  = if String.eqb k' k then Some v else PyDict.lookup d k'.
Proof.
  induction d as [| [k0 v0] d IH]; cbn [PyDict.set PyDict.lookup].
  - reflexivity.
  - destruct (String.eqb k k0) eqn:E; cbn [PyDict.lookup].
    + apply String.eqb_eq in E; subst k0.
      destruct (String.eqb k' k); reflexivity.
    + rewrite IH.
      destruct (String.eqb k' k0) eqn:E0; [| reflexivity].
      apply String.eqb_eq in E0; subst k0.
      destruct (String.eqb k' k) eqn:E1; [| reflexivity].
      apply String.eqb_eq in E1; subst k'.
      rewrite String.eqb_refl in E; discriminate.
Qed.

Lemma lookup_set_if_none (d : PyDict.t) (k k' : string) (v : json) :
  PyDict.lookup (set_if_none d k v) k'
  = if String.eqb k' k then Some (or_default (PyDict.lookup d k) v)
    else PyDict.lookup d k'.
Proof.
  unfold set_if_none, PyDict.get, or_default.
  destruct (PyDict.lookup d k) as [x |] eqn:E.
  - destruct x; rewrite ?lookup_set;
      destruct (String.eqb k' k) eqn:Ek; try reflexivity;
      apply String.eqb_eq in Ek; subst k'; exact E.
  - rewrite lookup_set; reflexivity.
Qed.

Lemma lookup_set_if_none_eq (d : PyDict.t) (k : string) (v : json) :
  PyDict.lookup (set_if_none d k v) k = Some (or_default (PyDict.lookup d k) v).
Proof. now rewrite lookup_set_if_none, String.eqb_refl. Qed.

Lemma lookup_set_if_none_ne (d : PyDict.t) (k k' : string) (v : json) :
  k' <> k -> PyDict.lookup (set_if_none d k v) k' = PyDict.lookup d k'.
Proof.
  intros H; rewrite lookup_set_if_none.
  destruct (String.eqb k' k) eqn:E; [| reflexivity].
  apply String.eqb_eq in E; contradiction.
Qed.

Lemma or_default_not_null (o : option json) (default : json) :
  default <> JNull -> or_default o default <> JNull.
Proof.
  unfold or_default; intros H.
  destruct o as [[] |]; try assumption; discriminate.
Qed.

Lemma or_default_null (d : PyDict.t) (k : string) (default : json) :
  PyDict.get d k JNull = JNull -> or_default (PyDict.lookup d k) default = default.
Proof.
  unfold PyDict.get, or_default.
  destruct (PyDict.lookup d k) as [[] |]; try discriminate; reflexivity.
Qed.

(** *** Fields *)

Lemma required_ok {T : Type} (validate : json -> option T) (data : PyDict.t)
      (key : string) (x : T) :
  required validate data key = Ok x ->
  exists v, PyDict.lookup data key = Some v /\ validate v = Some x.
Proof.
  unfold required.
  destruct (PyDict.lookup data key) as [v |]; [| discriminate].
  destruct (validate v) as [y |] eqn:E; [| discriminate].
  intros H; injection H as <-; eauto.
Qed.

Lemma optional_not_null {T : Type} (validate : json -> option T)
      (data : PyDict.t) (key : string) (default r : option T) (v : json) :
  PyDict.lookup data key = Some v -> v <> JNull ->
  optional validate data key default = Ok r ->
  exists x, r = Some x /\ validate v = Some x.
Proof.
  unfold optional; intros -> Hv.
  destruct v; try contradiction;
    (destruct (validate _) as [x |] eqn:E; [| discriminate]);
    intros H; injection H as <-; eauto.
Qed.

Lemma optional_model_not_null {M : Type} (init : PyDict.t -> result M)
      (data : PyDict.t) (key : string) (r : option M) (v : json) :
  PyDict.lookup data key = Some v -> v <> JNull ->
  optional_model init data key = Ok r ->
  exists d m, v = JDict d /\ init d = Ok m /\ r = Some m.
Proof.
  unfold optional_model; intros -> Hv.
  destruct v as [| | | | | | d]; try contradiction; try discriminate.
  destruct (init d) as [m |] eqn:E; [| discriminate].
  cbn [bind]; intros H; injection H as <-.
  exists d, m; auto.
Qed.

Tactic Notation "peel" hyp(H) "as" ident(x) ident(Hx) :=
  apply bind_ok in H as (x & Hx & H).

Ltac lookup_sanitized :=
  repeat first [ rewrite lookup_set_if_none_ne by discriminate
               | rewrite lookup_set_if_none_eq ].

Section WithValidators.

Context {P : Pydantic}.

(** *** What construction guarantees *)

Lemma Location_init_materialized (data : PyDict.t) (l : Location) :
  Location_init data = Ok l -> Location_materialized l.
Proof.
  unfold Location_init; intros H.
  peel H as venue Hvenue; peel H as city Hcity; peel H as state Hstate;
    peel H as country Hcountry; peel H as virtual Hvirtual; peel H as hasopt Hoption.
  injection H as <-; unfold Location_materialized; cbn.
  eapply optional_not_null in Hvirtual as (b & -> & _);
    [| lookup_sanitized; reflexivity | now apply or_default_not_null].
  eapply optional_not_null in Hoption as (b' & -> & _);
    [| lookup_sanitized; reflexivity | now apply or_default_not_null].
  split; discriminate.
Qed.

Lemma Compensation_init_materialized (data : PyDict.t) (c : Compensation) :
  Compensation_init data = Ok c -> Compensation_materialized c.
Proof.
  unfold Compensation_init; intros H.
  peel H as paid Hpaid; peel H as ctype Htype; peel H as amount Hamount;
    peel H as currency Hcurrency; peel H as travel Htravel; peel H as accom Haccom;
    peel H as details Hdetails.
  injection H as <-; unfold Compensation_materialized; cbn.
  eapply optional_not_null in Hpaid as (b1 & -> & _);
    [| lookup_sanitized; reflexivity | now apply or_default_not_null].
  eapply optional_not_null in Htype as (b2 & -> & _);
    [| lookup_sanitized; reflexivity | now apply or_default_not_null].
  eapply optional_not_null in Htravel as (b3 & -> & _);
    [| lookup_sanitized; reflexivity | now apply or_default_not_null].
  eapply optional_not_null in Haccom as (b4 & -> & _);
    [| lookup_sanitized; reflexivity | now apply or_default_not_null].
  repeat split; discriminate.
Qed.

Lemma ApplicationInfo_init_materialized (data : PyDict.t) (a : ApplicationInfo) :
  ApplicationInfo_init data = Ok a -> ApplicationInfo_materialized a.
Proof.
  unfold ApplicationInfo_init; intros H.
  peel H as url Hurl; peel H as email Hemail; peel H as reqs Hreqs.
  injection H as <-; unfold ApplicationInfo_materialized; cbn.
  eapply optional_not_null in Hreqs as (b & -> & _);
    [| lookup_sanitized; reflexivity | now apply or_default_not_null].
  discriminate.
Qed.

Lemma validate_bounded_range (lo hi : Q) (v : json) (q : Q) :
  validate_bounded lo hi v = Some q ->
  validate_float v = Some q /\ (lo <= q <= hi)%Q.
Proof.
  unfold validate_bounded, validate_unbounded.
  destruct v; cbn [option_map]; try discriminate;
    (destruct (validate_float _) as [x |]; cbn [option_map]; [| discriminate]);
    (destruct (Qle_bool lo x && Qle_bool x hi) eqn:E; [| discriminate]);
    intros H; injection H as <-;
    apply andb_prop in E as [E1 E2];
    apply Qle_bool_iff in E1, E2; auto.
Qed.

Lemma validate_bounded_nan (lo hi : Q) : validate_bounded lo hi JNaN = None.
Proof. reflexivity. Qed.

(** Every field of a constructed [Opportunity], traced to the value of
    the raw record it was validated from. *)
Lemma Opportunity_init_fields (data : PyDict.t) (o : Opportunity) :
  Opportunity_init data = Ok o ->
  (exists v, PyDict.lookup data "id" = Some v /\ validate_str v = Some (opp_id o))
  /\ (exists v, PyDict.lookup data "event_name" = Some v
                /\ validate_str v = Some (opp_event_name o))
  /\ (exists t, opp_event_type o = Some t)
  /\ (exists d m, or_default (PyDict.lookup data "dates") (JDict []) = JDict d
                  /\ DateInfo_init d = Ok m /\ opp_dates o = Some m)
  /\ (exists d m, or_default (PyDict.lookup data "location") (JDict []) = JDict d
                  /\ Location_init d = Ok m /\ opp_location o = Some m)
  /\ (exists d m, or_default (PyDict.lookup data "compensation") (JDict []) = JDict d
                  /\ Compensation_init d = Ok m /\ opp_compensation o = Some m)
  /\ (exists d m, or_default (PyDict.lookup data "application") (JDict []) = JDict d
                  /\ ApplicationInfo_init d = Ok m /\ opp_application o = Some m)
  /\ (exists l, opp_target_audience o = Some l
                /\ validate_str_list
                     (or_default (PyDict.lookup data "target_audience") (JList []))
                   = Some l)
  /\ (exists l, opp_keywords_matched o = Some l
                /\ validate_str_list
                     (or_default (PyDict.lookup data "keywords_matched") (JList []))
                   = Some l)
  /\ (exists q, opp_confidence_score o = Some q
                /\ validate_bounded 0 1
                     (or_default (PyDict.lookup data "confidence_score") (JNum (1 # 2)))
                   = Some q).
Proof.
  unfold Opportunity_init; intros H.
  peel H as id Hid; peel H as name Hname; peel H as etype Hetype;
    peel H as descr Hdescr; peel H as dates Hdates; peel H as loc Hloc;
    peel H as comp Hcomp; peel H as app Happ; peel H as audience Haudience;
    peel H as size Hsize; peel H as keywords Hkeywords; peel H as url Hurl;
    peel H as score Hscore.
  injection H as <-; cbn.
  apply required_ok in Hid as (v & Hv & Hid), Hname as (w & Hw & Hname).
  revert Hv Hw; lookup_sanitized; intros Hv Hw.
  split; [eauto |].
  split; [eauto |].
  split.
  { eapply optional_not_null in Hetype as (t & -> & _);
      [eauto | lookup_sanitized; reflexivity | now apply or_default_not_null]. }
  split.
  { eapply optional_model_not_null in Hdates;
      [| lookup_sanitized; reflexivity | now apply or_default_not_null].
    destruct Hdates as (d & m & Hd & Hm & ->); exists d, m; auto. }
  split.
  { eapply optional_model_not_null in Hloc;
      [| lookup_sanitized; reflexivity | now apply or_default_not_null].
    destruct Hloc as (d & m & Hd & Hm & ->); exists d, m; auto. }
  split.
  { eapply optional_model_not_null in Hcomp;
      [| lookup_sanitized; reflexivity | now apply or_default_not_null].
    destruct Hcomp as (d & m & Hd & Hm & ->); exists d, m; auto. }
  split.
  { eapply optional_model_not_null in Happ;
      [| lookup_sanitized; reflexivity | now apply or_default_not_null].
    destruct Happ as (d & m & Hd & Hm & ->); exists d, m; auto. }
  split.
  { eapply optional_not_null in Haudience;
      [| lookup_sanitized; reflexivity | now apply or_default_not_null].
    destruct Haudience as (l & -> & Hl); eauto. }
  split.
  { eapply optional_not_null in Hkeywords;
      [| lookup_sanitized; reflexivity | now apply or_default_not_null].
    destruct Hkeywords as (l & -> & Hl); eauto. }
  eapply optional_not_null in Hscore;
    [| lookup_sanitized; reflexivity | now apply or_default_not_null].
  destruct Hscore as (q & -> & Hq); eauto.
Qed.

Lemma Opportunity_init_materialized (data : PyDict.t) (o : Opportunity) :
  Opportunity_init data = Ok o -> materialized o.
Proof.
  intros H.
  destruct (Opportunity_init_fields data o H)
    as (_ & _ & (t & Ht) & (dd & dm & _ & _ & Hd) & (ld & lm & _ & Hlm & Hl)
        & (cd & cm & _ & Hcm & Hc) & (ad & am & _ & Ham & Ha)
        & (ta & Hta & _) & (km & Hkm & _) & (q & Hq & Hrange)).
  unfold materialized.
  rewrite Ht, Hd, Hl, Hc, Ha, Hta, Hkm, Hq.
  apply validate_bounded_range in Hrange as [_ Hrange].
  repeat split; try discriminate; eauto.
  - exists lm; split; [reflexivity | now apply (Location_init_materialized ld)].
  - exists cm; split; [reflexivity | now apply (Compensation_init_materialized cd)].
  - exists am; split; [reflexivity | now apply (ApplicationInfo_init_materialized ad)].
Qed.

(** *** Zero-value structures *)

Context {L : PydanticLaws P}.

Lemma validate_enum_OpportunityType (t : OpportunityType) :
  validate_OpportunityType (JStr (OpportunityType_value t)) = Some t.
Proof. destruct t; reflexivity. Qed.

Lemma validate_enum_CompensationType (t : CompensationType) :
  validate_CompensationType (JStr (CompensationType_value t)) = Some t.
Proof. destruct t; reflexivity. Qed.

Lemma validate_str_list_nil : validate_str_list (JList []) = Some [].
Proof. exact (validate_str_list_id []). Qed.

Lemma DateInfo_init_empty : DateInfo_init [] = Ok DateInfo_default.
Proof. reflexivity. Qed.

Lemma Location_init_empty : Location_init [] = Ok Location_default.
Proof.
  unfold Location_init, optional; cbn [set_if_none PyDict.get PyDict.lookup PyDict.set
                                       String.eqb Ascii.eqb Bool.eqb andb bind].
  rewrite validate_bool_id; reflexivity.
Qed.

Lemma Compensation_init_empty : Compensation_init [] = Ok Compensation_default.
Proof.
  unfold Compensation_init, optional;
    cbn [set_if_none PyDict.get PyDict.lookup PyDict.set
         String.eqb Ascii.eqb Bool.eqb andb bind CompensationType_value].
  rewrite validate_bool_id; reflexivity.
Qed.

Lemma ApplicationInfo_init_empty : ApplicationInfo_init [] = Ok ApplicationInfo_default.
Proof.
  unfold ApplicationInfo_init, optional;
    cbn [set_if_none PyDict.get PyDict.lookup PyDict.set
         String.eqb Ascii.eqb Bool.eqb andb bind].
  rewrite validate_str_list_nil; reflexivity.
Qed.

(** A boolean that is null or absent in the raw sub-record becomes
    [false]; a list, the empty list. *)
Lemma optional_bool_default (data : PyDict.t) (key : string) (r : option bool) :
  PyDict.get data key JNull = JNull ->
  optional validate_bool (set_if_none data key (JBool false)) key (Some false) = Ok r ->
  r = Some false.
Proof.
  intros Hnull H.
  eapply optional_not_null in H as (b & -> & Hb);
    [| rewrite lookup_set_if_none, String.eqb_refl; reflexivity
     | now apply or_default_not_null].
  rewrite (or_default_null data key _ Hnull), validate_bool_id in Hb; congruence.
Qed.

Lemma Location_init_booleans (data : PyDict.t) (l : Location) :
  Location_init data = Ok l ->
  (PyDict.get data "is_virtual" JNull = JNull -> loc_is_virtual l = Some false)
  /\ (PyDict.get data "has_virtual_option" JNull = JNull ->
      loc_has_virtual_option l = Some false).
Proof.
  unfold Location_init; intros H.
  peel H as venue Hvenue; peel H as city Hcity; peel H as state Hstate;
    peel H as country Hcountry; peel H as virtual Hvirtual; peel H as hasopt Hoption.
  injection H as <-; cbn.
  split; intros Hnull.
  - eapply optional_not_null in Hvirtual as (b & -> & Hb);
      [| lookup_sanitized; reflexivity | now apply or_default_not_null].
    rewrite (or_default_null data _ _ Hnull), validate_bool_id in Hb; congruence.
  - eapply optional_not_null in Hoption as (b & -> & Hb);
      [| lookup_sanitized; reflexivity | now apply or_default_not_null].
    rewrite (or_default_null data _ _ Hnull), validate_bool_id in Hb; congruence.
Qed.

Lemma Compensation_init_booleans (data : PyDict.t) (c : Compensation) :
  Compensation_init data = Ok c ->
  (PyDict.get data "is_paid" JNull = JNull -> comp_is_paid c = Some false)
  /\ (PyDict.get data "includes_travel" JNull = JNull ->
      comp_includes_travel c = Some false)
  /\ (PyDict.get data "includes_accommodation" JNull = JNull ->
      comp_includes_accommodation c = Some false).
Proof.
  unfold Compensation_init; intros H.
  peel H as paid Hpaid; peel H as ctype Htype; peel H as amount Hamount;
    peel H as currency Hcurrency; peel H as travel Htravel; peel H as accom Haccom;
    peel H as details Hdetails.
  injection H as <-; cbn.
  repeat split; intros Hnull.
  - eapply optional_not_null in Hpaid as (b & -> & Hb);
      [| lookup_sanitized; reflexivity | now apply or_default_not_null].
    rewrite (or_default_null data _ _ Hnull), validate_bool_id in Hb; congruence.
  - eapply optional_not_null in Htravel as (b & -> & Hb);
      [| lookup_sanitized; reflexivity | now apply or_default_not_null].
    rewrite (or_default_null data _ _ Hnull), validate_bool_id in Hb; congruence.
  - eapply optional_not_null in Haccom as (b & -> & Hb);
      [| lookup_sanitized; reflexivity | now apply or_default_not_null].
    rewrite (or_default_null data _ _ Hnull), validate_bool_id in Hb; congruence.
Qed.

Lemma ApplicationInfo_init_requirements (data : PyDict.t) (a : ApplicationInfo) :
  ApplicationInfo_init data = Ok a ->
  PyDict.get data "requirements" JNull = JNull -> app_requirements a = Some [].
Proof.
  unfold ApplicationInfo_init; intros H Hnull.
  peel H as url Hurl; peel H as email Hemail; peel H as reqs Hreqs.
  injection H as <-; cbn.
  eapply optional_not_null in Hreqs as (b & -> & Hb);
    [| lookup_sanitized; reflexivity | now apply or_default_not_null].
  rewrite (or_default_null data _ _ Hnull), validate_str_list_nil in Hb; congruence.
Qed.

(** *** Construction from a dumped record *)

Ltac compute_lookups :=
  cbn [PyDict.lookup PyDict.get PyDict.set set_if_none String.eqb Ascii.eqb Bool.eqb
       andb bind dump_opt fst snd].

Ltac canonical :=
  rewrite ?validate_str_id, ?validate_bool_id, ?validate_float_id,
    ?validate_str_list_id, ?validate_enum_OpportunityType,
    ?validate_enum_CompensationType.

Lemma DateInfo_init_dump (d : DateInfo) :
  DateInfo_init (DateInfo_record d) = Ok d.
Proof.
  destruct d as [[a |] [b |] [c |]];
    unfold DateInfo_init, DateInfo_record, optional; cbn; canonical; reflexivity.
Qed.

Lemma Location_init_dump (l : Location) :
  Location_materialized l -> Location_init (Location_record l) = Ok l.
Proof.
  intros (Hv & Ho).
  destruct l as [venue city state country [v |] [o |]]; cbn in Hv, Ho;
    try contradiction.
  destruct venue, city, state, country;
    unfold Location_init, Location_record, optional; cbn; canonical; reflexivity.
Qed.

Lemma Compensation_init_dump (c : Compensation) :
  Compensation_materialized c -> Compensation_init (Compensation_record c) = Ok c.
Proof.
  intros (Hp & Ht & Hr & Ha).
  destruct c as [[p |] [t |] amount currency [r |] [a |] details];
    cbn in Hp, Ht, Hr, Ha; try contradiction.
  destruct t, amount as [[q |] |], currency, details;
    unfold Compensation_init, Compensation_record, optional, validate_unbounded;
    cbn; canonical; reflexivity.
Qed.

Lemma ApplicationInfo_init_dump (a : ApplicationInfo) :
  ApplicationInfo_materialized a ->
  ApplicationInfo_init (ApplicationInfo_record a) = Ok a.
Proof.
  intros Hr.
  destruct a as [url email [r |]]; cbn in Hr; try contradiction.
  destruct url, email;
    unfold ApplicationInfo_init, ApplicationInfo_record, optional, dump_strs;
    cbn; canonical; reflexivity.
Qed.

Lemma validate_unbounded_id (q : Q) : validate_unbounded (JNum q) = Some (Finite q).
Proof. unfold validate_unbounded; now rewrite validate_float_id. Qed.

Lemma validate_bounded_id (lo hi q : Q) :
  (lo <= q <= hi)%Q -> validate_bounded lo hi (JNum q) = Some q.
Proof.
  intros [H1 H2]; unfold validate_bounded; rewrite validate_unbounded_id.
  apply Qle_bool_iff in H1, H2; now rewrite H1, H2.
Qed.

(** A materialized opportunity is rebuilt from its own record. *)
Lemma Opportunity_init_dump (o : Opportunity) :
  materialized o -> Opportunity_init (Opportunity_record o) = Ok o.
Proof.
  intros (Het & (d & Hd) & (l & Hl & Hlm) & (c & Hc & Hcm) & (a & Ha & Ham)
          & Hta & Hkm & (q & Hq & Hrange)).
  destruct o as [id name etype descr dates loc comp app audience size keywords url score].
  cbn in Het, Hd, Hl, Hc, Ha, Hta, Hkm, Hq; subst dates loc comp app score.
  destruct etype as [t |]; [| contradiction].
  destruct audience as [ta |]; [| contradiction].
  destruct keywords as [km |]; [| contradiction].
  unfold Opportunity_init, Opportunity_record, required, optional_model, optional,
    dump_strs, DateInfo_dump, Location_dump, Compensation_dump, ApplicationInfo_dump.
  cbn [opp_id opp_event_name opp_event_type opp_description opp_dates opp_location
       opp_compensation opp_application opp_target_audience
       opp_expected_audience_size opp_keywords_matched opp_source_url
       opp_confidence_score].
  destruct descr, size, url;
    repeat (progress (compute_lookups; canonical;
                      rewrite ?DateInfo_init_dump, ?(Location_init_dump l Hlm),
                        ?(Compensation_init_dump c Hcm),
                        ?(ApplicationInfo_init_dump a Ham),
                        ?(validate_bounded_id 0 1 q Hrange)));
    reflexivity.
Qed.

(** *** One turn of the normalization loop *)

Variable uuid4_hex : nat -> string.

Abbreviation ensure_id := (AIProcessor.ensure_id uuid4_hex).
Abbreviation ensure_keywords := AIProcessor.ensure_keywords.

Lemma fix_one_accepts (keywords : list string) (n : nat) (raw : json)
      (o : Opportunity) :
  snd (AIProcessor.fix_one uuid4_hex keywords n raw) = Some o ->
  exists d, raw = JDict d
            /\ Py.truthy (PyDict.get (fst (ensure_id n d)) "event_name" JNull) = true
            /\ Opportunity_init (ensure_keywords keywords (fst (ensure_id n d))) = Ok o.
Proof.
  unfold AIProcessor.fix_one.
  destruct raw as [| | | | | | d]; try (intros H; discriminate H).
  intros H; exists d; split; [reflexivity |]; revert H.
  destruct (ensure_id n d) as [d1 n1].
  cbn [fst].
  destruct (Py.truthy (PyDict.get d1 "event_name" JNull));
    cbn [negb]; [| intros H; discriminate H].
  destruct (Opportunity_init (ensure_keywords keywords d1)) as [o' |] eqn:E;
    intros H; [| discriminate H].
  cbn [snd] in H; injection H as <-.
  split; reflexivity.
Qed.

Lemma ensure_id_truthy (n : nat) (d : PyDict.t) :
  exists v, PyDict.lookup (fst (ensure_id n d)) "id" = Some v /\ Py.truthy v = true.
Proof.
  unfold AIProcessor.ensure_id.
  destruct (Py.truthy (PyDict.get d "id" JNull)) eqn:E; cbn [negb fst].
  - unfold PyDict.get in E.
    destruct (PyDict.lookup d "id") as [v |]; [eauto | discriminate].
  - rewrite lookup_set, String.eqb_refl.
    eexists; split; reflexivity.
Qed.

Lemma ensure_keywords_other (keywords : list string) (d : PyDict.t) (k : string) :
  k <> "keywords_matched" ->
  PyDict.lookup (ensure_keywords keywords d) k = PyDict.lookup d k.
Proof.
  intros Hk; unfold AIProcessor.ensure_keywords.
  destruct (negb _); [| reflexivity].
  rewrite lookup_set.
  destruct (String.eqb k "keywords_matched") eqn:E; [| reflexivity].
  apply String.eqb_eq in E; contradiction.
Qed.

Lemma ensure_id_other (n : nat) (d : PyDict.t) (k : string) :
  k <> "id" -> PyDict.lookup (fst (ensure_id n d)) k = PyDict.lookup d k.
Proof.
  intros Hk; unfold AIProcessor.ensure_id.
  destruct (negb _); cbn [fst]; [| reflexivity].
  rewrite lookup_set.
  destruct (String.eqb k "id") eqn:E; [| reflexivity].
  apply String.eqb_eq in E; contradiction.
Qed.

(** The keyword list handed to [Opportunity] is a non-empty value of the
    record, or the keyword list of the call. *)
Lemma ensure_keywords_value (keywords : list string) (d : PyDict.t) :
  exists v, PyDict.lookup (ensure_keywords keywords d) "keywords_matched" = Some v
            /\ (Py.truthy v = true
                \/ (v = JList (map JStr keywords) /\ keywords = [])).
Proof.
  unfold AIProcessor.ensure_keywords.
  destruct (Py.truthy (PyDict.get d "keywords_matched" JNull)) eqn:E; cbn [negb].
  - unfold PyDict.get in E.
    destruct (PyDict.lookup d "keywords_matched") as [v |]; [eauto | discriminate].
  - rewrite lookup_set, String.eqb_refl.
    eexists; split; [reflexivity |].
    destruct keywords as [| k ks]; [right; auto | left; reflexivity].
Qed.

(** What the first pass establishes about an accepted record. *)
Lemma fix_one_normal (keywords : list string) (n : nat) (raw : json)
      (o : Opportunity) :
  snd (AIProcessor.fix_one uuid4_hex keywords n raw) = Some o ->
  normalized keywords o.
Proof.
  unfold normalized; intros H.
  apply fix_one_accepts in H as (d & -> & Hname & Hinit).
  pose proof (Opportunity_init_materialized _ _ Hinit) as Hmat.
  destruct (Opportunity_init_fields _ _ Hinit)
    as ((v & Hv & Hid) & (w & Hw & Hname') & _ & _ & _ & _ & _ & _
        & (km & Hkm & Hval) & _).
  split; [exact Hmat |].
  rewrite ensure_keywords_other in Hv, Hw by discriminate.
  split.
  { destruct (ensure_id_truthy n d) as (v' & Hv' & Ht).
    rewrite Hv in Hv'; injection Hv' as <-.
    exact (validate_str_truthy v _ Hid Ht). }
  split.
  { unfold PyDict.get in Hname; rewrite Hw in Hname.
    exact (validate_str_truthy w _ Hname' Hname). }
  exists km; split; [exact Hkm |].
  destruct (ensure_keywords_value keywords (fst (ensure_id n d))) as (x & Hx & Hcases).
  rewrite Hx in Hval.
  destruct Hcases as [Ht | (-> & ->)].
  - left.
    assert (Hnn : or_default (Some x) (JList []) = x) by (now destruct x).
    rewrite Hnn in Hval.
    exact (validate_str_list_truthy x km Hval Ht).
  - right; split; [| reflexivity].
    cbn [map or_default] in Hval; rewrite validate_str_list_nil in Hval; congruence.
Qed.

(** The lookups [fix_one] makes in a dumped record. *)
Lemma Opportunity_record_id (o : Opportunity) :
  PyDict.get (Opportunity_record o) "id" JNull = JStr (opp_id o).
Proof. reflexivity. Qed.

Lemma Opportunity_record_event_name (o : Opportunity) :
  PyDict.get (Opportunity_record o) "event_name" JNull = JStr (opp_event_name o).
Proof. reflexivity. Qed.

Lemma Opportunity_record_keywords (o : Opportunity) :
  PyDict.get (Opportunity_record o) "keywords_matched" JNull
  = dump_opt dump_strs (opp_keywords_matched o).
Proof. reflexivity. Qed.

Lemma Opportunity_record_set_keywords (o : Opportunity) :
  opp_keywords_matched o = Some [] ->
  PyDict.set (Opportunity_record o) "keywords_matched" (JList [])
  = Opportunity_record o.
Proof.
  intros H; unfold Opportunity_record; rewrite H; reflexivity.
Qed.

Lemma truthy_str (s : string) : s <> EmptyString -> Py.truthy (JStr s) = true.
Proof. destruct s; [contradiction | reflexivity]. Qed.

(** A normal record passes through [fix_one] unchanged, and draws no
    identifier. *)
Lemma fix_one_dump (keywords : list string) (m : nat) (o : Opportunity) :
  normalized keywords o ->
  AIProcessor.fix_one uuid4_hex keywords m (Opportunity_dump o) = (m, Some o).
Proof.
  intros (Hmat & Hid & Hname & km & Hkm & Hcases).
  pose proof (Opportunity_init_dump o Hmat) as Hinit.
  unfold AIProcessor.fix_one, Opportunity_dump, AIProcessor.ensure_id.
  rewrite Opportunity_record_id, (truthy_str _ Hid); cbn [negb].
  rewrite Opportunity_record_event_name, (truthy_str _ Hname); cbn [negb].
  unfold AIProcessor.ensure_keywords.
  rewrite Opportunity_record_keywords, Hkm; cbn [dump_opt].
  destruct Hcases as [Hne | (-> & ->)].
  - destruct km as [| k km']; [contradiction |].
    cbn [dump_strs map Py.truthy negb]; now rewrite Hinit.
  - cbn [dump_strs map Py.truthy negb].
    rewrite (Opportunity_record_set_keywords o Hkm); now rewrite Hinit.
Qed.

(** The confidence score of an accepted record, traced to the raw one. *)
Lemma fix_one_confidence (keywords : list string) (n : nat) (raw : json)
      (o : Opportunity) :
  snd (AIProcessor.fix_one uuid4_hex keywords n raw) = Some o ->
  exists d q, raw = JDict d /\ opp_confidence_score o = Some q
              /\ validate_bounded 0 1
                   (or_default (PyDict.lookup d "confidence_score") (JNum (1 # 2)))
                 = Some q.
Proof.
  intros H.
  apply fix_one_accepts in H as (d & -> & _ & Hinit).
  destruct (Opportunity_init_fields _ _ Hinit)
    as (_ & _ & _ & _ & _ & _ & _ & _ & _ & (q & Hq & Hval)).
  rewrite ensure_keywords_other, ensure_id_other in Hval by discriminate.
  exists d, q; auto.
Qed.

(** *** The loop *)

Abbreviation step := (AIProcessor.validate_step uuid4_hex).

Lemma validate_loop_normal (keywords : list string) (raws : list json)
      (st : nat * list Opportunity) :
  Forall (normalized keywords) (snd st) ->
  Forall (normalized keywords) (snd (fold_left (step keywords) raws st)).
Proof.
  revert st; induction raws as [| raw raws IH]; intros st Hst; cbn [fold_left].
  - exact Hst.
  - apply IH; unfold AIProcessor.validate_step; cbn [snd].
    destruct (snd (AIProcessor.fix_one uuid4_hex keywords (fst st) raw)) as [o |] eqn:E;
      [| exact Hst].
    apply Forall_app; split; [exact Hst |].
    constructor; [| constructor].
    exact (fix_one_normal keywords (fst st) raw o E).
Qed.

Lemma validate_loop_dump (keywords : list string) (os : list Opportunity)
      (st : nat * list Opportunity) :
  Forall (normalized keywords) os ->
  fold_left (step keywords) (map Opportunity_dump os) st
  = (fst st, (snd st ++ os)%list).
Proof.
  intros Hos; revert st; induction Hos as [| o os Ho _ IH]; intros st;
    cbn [map fold_left].
  - rewrite app_nil_r; now destruct st.
  - rewrite IH; unfold AIProcessor.validate_step.
    rewrite (fix_one_dump keywords (fst st) o Ho); cbn [fst snd].
    now rewrite <- app_assoc.
Qed.

End WithValidators.

End ModelFacts.

(** ** Normalization: the claims *)

Module ModelClaims.

Import Shape Models.

(** The strict validators satisfy the laws. *)
Lemma strict_strs_id (l : list string) : strict_strs (map JStr l) = Some l.
Proof.
  induction l as [| s l IH]; cbn [map strict_strs]; [reflexivity | now rewrite IH].
Qed.

Lemma strict_laws : PydanticLaws strict.
Proof.
  constructor; cbn [validate_str validate_bool validate_float validate_str_list strict].
  - reflexivity.
  - reflexivity.
  - reflexivity.
  - exact strict_strs_id.
  - intros v s H Ht; destruct v; try discriminate.
    injection H as <-; intros ->; discriminate.
  - intros v l H Ht; destruct v as [| | | | | js |]; try discriminate.
    cbn [strict_str_list] in H.
    destruct js as [| j js]; [discriminate |].
    cbn [strict_strs] in H.
    destruct j; try discriminate.
    destruct (strict_strs js); [| discriminate].
    injection H as <-; discriminate.
Qed.

(** C5.  In every successfully constructed [Opportunity] the nested
    sub-records, the lists and the booleans hold a value; a [dates],
    [location], [compensation] or [application] field that is null or
    absent in the raw record becomes the zero-value structure of its model,
    a null or absent list becomes the empty list, and a null or absent
    boolean of a nested sub-record becomes [false]. *)
Theorem opportunity_defaults {P : Pydantic} {L : PydanticLaws P}
        (data : PyDict.t) (o : Opportunity) :
  Opportunity_init data = Ok o ->
  materialized o
  /\ (PyDict.get data "dates" JNull = JNull -> opp_dates o = Some DateInfo_default)
  /\ (PyDict.get data "location" JNull = JNull ->
      opp_location o = Some Location_default)
  /\ (PyDict.get data "compensation" JNull = JNull ->
      opp_compensation o = Some Compensation_default)
  /\ (PyDict.get data "application" JNull = JNull ->
      opp_application o = Some ApplicationInfo_default)
  /\ (PyDict.get data "target_audience" JNull = JNull ->
      opp_target_audience o = Some [])
  /\ (PyDict.get data "keywords_matched" JNull = JNull ->
      opp_keywords_matched o = Some [])
  /\ (forall ld l, PyDict.lookup data "location" = Some (JDict ld) ->
                   opp_location o = Some l ->
                   (PyDict.get ld "is_virtual" JNull = JNull ->
                    loc_is_virtual l = Some false)
                   /\ (PyDict.get ld "has_virtual_option" JNull = JNull ->
                       loc_has_virtual_option l = Some false))
  /\ (forall cd c, PyDict.lookup data "compensation" = Some (JDict cd) ->
                   opp_compensation o = Some c ->
                   (PyDict.get cd "is_paid" JNull = JNull -> comp_is_paid c = Some false)
                   /\ (PyDict.get cd "includes_travel" JNull = JNull ->
                       comp_includes_travel c = Some false)
                   /\ (PyDict.get cd "includes_accommodation" JNull = JNull ->
                       comp_includes_accommodation c = Some false))
  /\ (forall ad a, PyDict.lookup data "application" = Some (JDict ad) ->
                   opp_application o = Some a ->
                   PyDict.get ad "requirements" JNull = JNull ->
                   app_requirements a = Some []).
Proof.
  intros H.
  pose proof (ModelFacts.Opportunity_init_materialized data o H) as Hmat.
  destruct (ModelFacts.Opportunity_init_fields data o H)
    as (_ & _ & _ & (dd & dm & Edd & Hdm & Hd) & (ld & lm & Eld & Hlm & Hl)
        & (cd & cm & Ecd & Hcm & Hc) & (ad & am & Ead & Ham & Ha)
        & (ta & Hta & Vta) & (km & Hkm & Vkm) & _).
  split; [exact Hmat |].
  split.
  { intros Hn; rewrite (ModelFacts.or_default_null _ _ _ Hn) in Edd.
    injection Edd as <-; rewrite ModelFacts.DateInfo_init_empty in Hdm; congruence. }
  split.
  { intros Hn; rewrite (ModelFacts.or_default_null _ _ _ Hn) in Eld.
    injection Eld as <-; rewrite ModelFacts.Location_init_empty in Hlm; congruence. }
  split.
  { intros Hn; rewrite (ModelFacts.or_default_null _ _ _ Hn) in Ecd.
    injection Ecd as <-; rewrite ModelFacts.Compensation_init_empty in Hcm; congruence. }
  split.
  { intros Hn; rewrite (ModelFacts.or_default_null _ _ _ Hn) in Ead.
    injection Ead as <-; rewrite ModelFacts.ApplicationInfo_init_empty in Ham;
      congruence. }
  split.
  { intros Hn; rewrite (ModelFacts.or_default_null _ _ _ Hn) in Vta.
    rewrite ModelFacts.validate_str_list_nil in Vta; congruence. }
  split.
  { intros Hn; rewrite (ModelFacts.or_default_null _ _ _ Hn) in Vkm.
    rewrite ModelFacts.validate_str_list_nil in Vkm; congruence. }
  split.
  { intros ld' l Hlook Hl'; rewrite Hlook in Eld; cbn in Eld; injection Eld as <-.
    rewrite Hl in Hl'; injection Hl' as <-.
    now apply ModelFacts.Location_init_booleans. }
  split.
  { intros cd' c Hlook Hc'; rewrite Hlook in Ecd; cbn in Ecd; injection Ecd as <-.
    rewrite Hc in Hc'; injection Hc' as <-.
    now apply ModelFacts.Compensation_init_booleans. }
  intros ad' a Hlook Ha'; rewrite Hlook in Ead; cbn in Ead; injection Ead as <-.
  rewrite Ha in Ha'; injection Ha' as <-.
  now apply ModelFacts.ApplicationInfo_init_requirements.
Qed.

Lemma opportunity_defaults_witness :
  exists o, @Opportunity_init strict Examples.record_nulls = Ok o
            /\ opp_dates o = Some DateInfo_default
            /\ opp_location o = Some Location_default.
Proof.
  eexists; split; [vm_compute; reflexivity |].
  match goal with
  | |- opp_dates ?o = _ /\ _ =>
      destruct (@opportunity_defaults strict strict_laws Examples.record_nulls o)
        as (_ & Hd & Hl & _); [vm_compute; reflexivity |]
  end.
  split; [apply Hd | apply Hl]; reflexivity.
Defined.

Section WithValidators.

Context {P : Pydantic} {L : PydanticLaws P}.

Variable uuid4_hex : nat -> string.

(** C7.  A record that normalization accepts has a confidence score
    within [0.0, 1.0], and it is 0.5 when the raw record has none (absent
    or null); a raw record whose confidence score validates to a number
    outside [0.0, 1.0], or does not validate, is rejected: the score is not
    clamped. *)
Theorem confidence_score_rule (keywords : list string) (n : nat) (raw : json) :
  (forall o, snd (AIProcessor.fix_one uuid4_hex keywords n raw) = Some o ->
             exists q, opp_confidence_score o = Some q /\ (0 <= q <= 1)%Q
                       /\ (member raw "confidence_score" JNull = JNull -> q = 1 # 2))
  /\ (forall v, member raw "confidence_score" JNull = v -> v <> JNull ->
                (forall q, validate_float v = Some q -> ~ (0 <= q <= 1)%Q) ->
                snd (AIProcessor.fix_one uuid4_hex keywords n raw) = None).
Proof.
  split.
  - intros o H.
    apply ModelFacts.fix_one_confidence in H as (d & q & -> & Hq & Hval).
    exists q; split; [exact Hq |].
    pose proof (ModelFacts.validate_bounded_range _ _ _ _ Hval) as [Hv Hrange].
    split; [exact Hrange |].
    cbn [member]; intros Hn.
    rewrite (ModelFacts.or_default_null _ _ _ Hn), validate_float_id in Hv.
    congruence.
  - intros v Hv Hnn Hout.
    destruct (snd (AIProcessor.fix_one uuid4_hex keywords n raw)) as [o |] eqn:E;
      [| reflexivity].
    exfalso.
    apply ModelFacts.fix_one_confidence in E as (d & q & -> & _ & Hval).
    cbn [member] in Hv; unfold PyDict.get in Hv.
    assert (Hor : or_default (PyDict.lookup d "confidence_score")
                                        (JNum (1 # 2)) = v).
    { unfold or_default.
      destruct (PyDict.lookup d "confidence_score") as [x |];
        [subst x; destruct v; congruence | congruence]. }
    rewrite Hor in Hval.
    apply ModelFacts.validate_bounded_range in Hval as [Hf Hrange].
    exact (Hout q Hf Hrange).
Qed.

(** C9.  Normalization is idempotent: the record of an opportunity that
    [_validate_and_fix_opportunities] accepted, fed back with the same
    keyword list, is accepted again and yields an equal opportunity; and
    re-normalizing the records of a whole normalized list returns the
    list. *)
Theorem normalization_idempotent (keywords : list string) :
  (forall n raw o,
      snd (AIProcessor.fix_one uuid4_hex keywords n raw) = Some o ->
      forall m,
        AIProcessor.fix_one uuid4_hex keywords m (Opportunity_dump o) = (m, Some o))
  /\ (forall raws,
         AIProcessor._validate_and_fix_opportunities uuid4_hex
           (map Opportunity_dump
                (AIProcessor._validate_and_fix_opportunities uuid4_hex raws keywords))
           keywords
         = AIProcessor._validate_and_fix_opportunities uuid4_hex raws keywords).
Proof.
  split.
  - intros n raw o H m.
    apply ModelFacts.fix_one_dump.
    exact (ModelFacts.fix_one_normal uuid4_hex keywords n raw o H).
  - intros raws; unfold AIProcessor._validate_and_fix_opportunities.
    rewrite ModelFacts.validate_loop_dump; [reflexivity |].
    apply ModelFacts.validate_loop_normal; constructor.
Qed.

End WithValidators.

Lemma confidence_score_rule_witness :
  exists o,
    snd (@AIProcessor.fix_one strict Reference.uuid4_hex [] O
           (Examples.raw_score (7 # 10))) = Some o
    /\ exists q, opp_confidence_score o = Some q /\ (0 <= q <= 1)%Q.
Proof.
  eexists; split; [vm_compute; reflexivity |].
  match goal with
  | |- exists q, opp_confidence_score ?o = _ /\ _ =>
      destruct (proj1 (@confidence_score_rule strict strict_laws Reference.uuid4_hex
                         [] O (Examples.raw_score (7 # 10))) o)
        as (q & Hq & Hrange & _); [vm_compute; reflexivity |]
  end.
  exists q; split; [exact Hq | exact Hrange].
Defined.

(** The claim as first stated fails on a score above 1: the record is
    skipped, where the same record with a score of 0.7 is kept. *)
Lemma confidence_out_of_range_rejected :
  Examples.normalize [Examples.raw_score (3 # 2)] [] = []
  /\ (forall o, In o (Examples.normalize [Examples.raw_score (3 # 2)] []) ->
                opp_confidence_score o <> Some (1 # 2))
  /\ map opp_confidence_score (Examples.normalize [Examples.raw_score (7 # 10)] [])
     = [Some (7 # 10)].
Proof.
  split; [vm_compute; reflexivity |].
  split; [| vm_compute; reflexivity].
  intros o H; vm_compute in H; contradiction.
Qed.

Lemma normalization_idempotent_witness :
  Examples.normalize
    (map Opportunity_dump
         (Examples.normalize [Examples.raw_nulls; Examples.raw_no_id] ["ai"]))
    ["ai"]
  = Examples.normalize [Examples.raw_nulls; Examples.raw_no_id] ["ai"].
Proof.
  exact (proj2 (@normalization_idempotent strict strict_laws Reference.uuid4_hex ["ai"])
               [Examples.raw_nulls; Examples.raw_no_id]).
Defined.

End ModelClaims.
(** ** Ranking: further properties *)

Module RankMore.

Import Shape Ranking Conditions.

(** *** Equality of scalars *)

Lemma eqb_Qeq (x y : bool) :
  Bool.eqb x y = Qeq_bool (if x then 1 else 0) (if y then 1 else 0).
Proof. destruct x, y; reflexivity. Qed.

Lemma Qeq_bool_sym (p q : Q) : Qeq_bool p q = Qeq_bool q p.
Proof.
  destruct (Qeq_bool p q) eqn:E1, (Qeq_bool q p) eqn:E2; try reflexivity.
  - apply Qeq_bool_iff in E1; symmetry in E1; apply Qeq_bool_iff in E1; congruence.
  - apply Qeq_bool_iff in E2; symmetry in E2; apply Qeq_bool_iff in E2; congruence.
Qed.

Lemma Qeq_bool_congr (a b c : Q) :
  Qeq_bool a b = true -> Qeq_bool c a = Qeq_bool c b.
Proof.
  intros H; apply Qeq_bool_iff in H.
  destruct (Qeq_bool c a) eqn:E1, (Qeq_bool c b) eqn:E2; try reflexivity.
  - apply Qeq_bool_iff in E1.
    assert (c == b)%Q as E by (rewrite E1; exact H).
    apply Qeq_bool_iff in E; congruence.
  - apply Qeq_bool_iff in E2.
    assert (c == a)%Q as E by (rewrite E2; symmetry; exact H).
    apply Qeq_bool_iff in E; congruence.
Qed.

Lemma eq_sym_hashable (a b : json) :
  Py.hashable a = true -> Py.eq a b = Py.eq b a.
Proof.
  destruct a, b; cbn [Py.eq Py.hashable]; try discriminate; intros _;
    try reflexivity.
  - destruct b, b0; reflexivity.
  - apply Qeq_bool_sym.
  - apply Qeq_bool_sym.
  - apply Qeq_bool_sym.
  - apply String.eqb_sym.
Qed.

Lemma eq_congr_hashable (c a b : json) :
  Py.hashable a = true -> Py.hashable b = true ->
  Py.eq a b = true -> Py.eq c a = Py.eq c b.
Proof.
  destruct a, b; cbn [Py.eq Py.hashable]; try discriminate; intros _ _ H;
    destruct c; cbn [Py.eq]; try reflexivity;
    rewrite ?eqb_Qeq in *;
    try (apply Qeq_bool_congr; exact H).
  all: apply String.eqb_eq in H; now subst.
Qed.

Lemma eq_common_hashable (id k k0 : json) :
  Py.hashable k = true -> Py.hashable k0 = true ->
  Py.eq id k = true -> Py.eq id k0 = true -> Py.eq k k0 = true.
Proof.
  intros Hk Hk0 H1 H2.
  rewrite (eq_sym_hashable k k0 Hk).
  rewrite <- (eq_congr_hashable k0 id k); [| | exact Hk | exact H1].
  - rewrite eq_sym_hashable by exact Hk0; exact H2.
  - destruct id; try reflexivity; destruct k; discriminate.
Qed.

(** *** The lookup table as a map *)

Lemma table_set_keys (t : lookup_table) (k r : json) :
  hashable_keys t -> Py.hashable k = true -> hashable_keys (table_set t k r).
Proof.
  unfold hashable_keys; intros Ht Hk; induction Ht as [| [k0 r0] t H0 Ht IH];
    cbn [table_set].
  - repeat constructor; exact Hk.
  - destruct (Py.eq k k0); constructor; auto.
Qed.

Lemma table_find_set (t : lookup_table) (k r id : json) :
  hashable_keys t -> Py.hashable k = true ->
  table_find (table_set t k r) id
  = if Py.eq id k then Some r else table_find t id.
Proof.
  unfold hashable_keys; intros Ht Hk; induction Ht as [| [k0 r0] t H0 Ht IH];
    cbn [table_set table_find]; [reflexivity |].
  cbn [fst] in H0.
  destruct (Py.eq k k0) eqn:E; cbn [table_find].
  - rewrite (eq_congr_hashable id k k0 Hk H0 E).
    now destruct (Py.eq id k0).
  - rewrite IH.
    destruct (Py.eq id k0) eqn:E0, (Py.eq id k) eqn:E1; try reflexivity.
    rewrite (eq_common_hashable id k k0 Hk H0 E1 E0) in E; discriminate.
Qed.

Lemma find_app {A : Type} (f : A -> bool) (l m : list A) :
  List.find f (l ++ m)
  = match List.find f l with Some x => Some x | None => List.find f m end.
Proof.
  induction l as [| a l IH]; cbn [app List.find]; [reflexivity |].
  destruct (f a); [reflexivity | exact IH].
Qed.

Lemma build_table_find (items : list json) (acc t : lookup_table) (id : json) :
  hashable_keys acc -> build_table items acc = Ok t ->
  table_find t id
  = match List.find (covers id) (rev items) with
    | Some r => Some r
    | None => table_find acc id
    end.
Proof.
  revert acc; induction items as [| r items IH]; intros acc Hacc H;
    cbn [build_table rev List.find] in *.
  - injection H as <-; reflexivity.
  - apply bind_ok in H as (k & Hk & H).
    destruct (Py.hashable k) eqn:Hh; [| discriminate].
    rewrite (IH _ (table_set_keys acc k r Hacc Hh) H), find_app.
    destruct (List.find (covers id) (rev items)); [reflexivity |].
    rewrite (table_find_set acc k r id Hacc Hh).
    cbn [List.find]; unfold covers.
    destruct r as [| | | | | | d]; try discriminate.
    cbn [Py.subscript] in Hk.
    destruct (PyDict.lookup d "opportunity_id"); [| discriminate].
    injection Hk as ->; now destruct (Py.eq id k).
Qed.

Lemma build_table_keyed (items : list json) (acc : lookup_table) :
  (exists t, build_table items acc = Ok t) <-> forallb keyed items = true.
Proof.
  revert acc; induction items as [| r items IH]; intros acc;
    cbn [build_table forallb].
  - split; eauto.
  - unfold keyed at 1.
    destruct (Py.subscript r "opportunity_id") as [k | e]; cbn [bind].
    + destruct (Py.hashable k); cbn [andb]; [apply IH |].
      split; [intros (t & H) |]; discriminate.
    + split; [intros (t & H) |]; discriminate.
Qed.

(** *** The first loop and the sort, on any input *)

Section WithStrptime.

Variable strptime : string -> string -> option datetime.

Lemma partition_expired_any (opps valid : list json) (n : Z) (now : datetime) :
  partition_expired strptime opps now = Ok (valid, n) ->
  valid = valid_of strptime now opps
  /\ Z.of_nat (List.length valid) + n = Z.of_nat (List.length opps)
  /\ 0 <= n
  /\ Forall (fun o => _is_expired strptime o now = Ok false) valid.
Proof.
  revert valid n; induction opps as [| o opps IH]; intros valid n H;
    cbn [partition_expired] in H.
  - injection H as <- <-; repeat split; [lia | constructor].
  - apply bind_ok in H as (b & Hb & H).
    apply bind_ok in H as ([valid' n'] & Hrest & H).
    destruct (IH _ _ Hrest) as (Hv & Hlen & Hn & Hall).
    unfold valid_of in *; cbn [filter List.length].
    unfold not_expired at 1; rewrite Hb.
    destruct b; injection H as <- <-; cbn [List.length];
      rewrite ?Nat2Z.inj_succ; repeat split; try lia; try assumption.
    + now f_equal.
    + constructor; assumption.
Qed.

Lemma days_until_deadline_value (opp : json) (now : datetime) :
  dates_shaped opp = true ->
  exists days,
    _days_until_deadline strptime opp now = Ok days
    /\ (forall n, days = Some n <->
                  present (deadline_of opp)
                  /\ exists d, parses_to strptime (deadline_of opp) d
                               /\ n = timedelta_days d now)
    /\ (forall n d, days = Some n -> parses_to strptime (deadline_of opp) d ->
                    n * microseconds_per_day <= d - now
                    < (n + 1) * microseconds_per_day)
    /\ (forall n, days = Some n ->
                  (n < 0 <-> _is_expired strptime opp now = Ok true)).
Proof.
  unfold dates_shaped; intros H.
  repeat (apply andb_prop in H as [H ?]).
  destruct opp as [| | | | | | o]; try discriminate.
  unfold deadline_of, start_of in *; cbn [member] in *.
  destruct (PyDict.get o "dates" (JDict [])) as [| | | | | | dd] eqn:Edates; try discriminate.
  cbn [member] in *.
  unfold _days_until_deadline, _is_expired; cbn [Py.get bind]; rewrite Edates;
    cbn [Py.get bind].
  set (deadline := PyDict.get dd "application_deadline" JNull) in *.
  clearbody deadline.
  assert (Hfloor : forall d, timedelta_days d now * microseconds_per_day <= d - now
                             < (timedelta_days d now + 1) * microseconds_per_day).
  { intros d; unfold timedelta_days, microseconds_per_day.
    pose proof (Z.div_mod (d - now) (86400 * 1000000)).
    pose proof (Z.mod_pos_bound (d - now) (86400 * 1000000)).
    lia. }
  destruct (DateFacts.text_cases strptime deadline)
    as [(Htd & Hnd) | (s & -> & Hs & Htd & Hpd)]; [assumption | |];
    rewrite Htd; cbn [negb].
  - exists None; split; [reflexivity |].
    repeat split; try discriminate.
    intros (Hp & _); contradiction.
  - rewrite Hpd; cbn [bind].
    destruct (first_format strptime formats s) as [d |] eqn:Ep.
    + exists (Some (timedelta_days d now)); split; [reflexivity |].
      split; [| split].
      * intros n; split.
        -- intros E; injection E as <-.
           split; [now apply DateFacts.present_text |].
           exists d; split; [now apply DateFacts.parses_to_text | reflexivity].
        -- intros (_ & d' & Hp & ->).
           apply DateFacts.parses_to_text in Hp; congruence.
      * intros n d' E Hp; injection E as <-.
        apply DateFacts.parses_to_text in Hp.
        assert (d' = d) as -> by congruence.
        apply Hfloor.
      * intros n E; injection E as <-.
        pose proof (Hfloor d) as Hd.
        unfold microseconds_per_day in Hd.
        destruct (d <? now) eqn:El.
        -- apply Z.ltb_lt in El; split; [reflexivity | intros _; nia].
        -- apply Z.ltb_ge in El; split; [intros; nia | discriminate].
    + exists None; split; [reflexivity |].
      repeat split; try discriminate.
      intros (_ & d & Hp & _).
      apply DateFacts.parses_to_text in Hp; congruence.
Qed.

(** X1.  For a record whose dates have the expected shape,
    [_days_until_deadline] is defined exactly when the application
    deadline is present and parses; it is then the number of whole days
    from the reference instant to the deadline, rounded down, and it is
    negative exactly when [_is_expired] answers [True]. *)
Theorem days_until_deadline_rule (opp : json) (now : datetime) :
  dates_shaped opp = true ->
  exists days,
    _days_until_deadline strptime opp now = Ok days
    /\ (forall n, days = Some n <->
                  present (deadline_of opp)
                  /\ exists d, parses_to strptime (deadline_of opp) d
                               /\ n = timedelta_days d now)
    /\ (forall n d, days = Some n -> parses_to strptime (deadline_of opp) d ->
                    n * microseconds_per_day <= d - now
                    < (n + 1) * microseconds_per_day)
    /\ (forall n, days = Some n ->
                  (n < 0 <-> _is_expired strptime opp now = Ok true)).
Proof. apply days_until_deadline_value. Qed.

(** X29.  Expiry is monotone in the reference instant: a record whose
    dates have the expected shape and that is expired at one instant is
    expired at every later one, and the number of days until its deadline,
    defined at one instant exactly when it is at the other, does not grow
    with time. *)
Theorem expiry_monotone (opp : json) (now later : datetime) :
  dates_shaped opp = true -> now <= later ->
  (_is_expired strptime opp now = Ok true ->
   _is_expired strptime opp later = Ok true)
  /\ (forall n, _days_until_deadline strptime opp now = Ok (Some n) ->
                exists m, _days_until_deadline strptime opp later = Ok (Some m)
                          /\ m <= n)
  /\ (_days_until_deadline strptime opp now = Ok None ->
      _days_until_deadline strptime opp later = Ok None).
Proof.
  intros Hshape Hle.
  destruct (DateFacts.is_expired_shaped strptime opp now Hshape) as (b & Hb & Hiff).
  destruct (DateFacts.is_expired_shaped strptime opp later Hshape)
    as (b' & Hb' & Hiff').
  destruct (days_until_deadline_value opp now Hshape) as (days & Hd & Hsome & _).
  destruct (days_until_deadline_value opp later Hshape)
    as (days' & Hd' & Hsome' & _).
  split; [| split].
  - rewrite Hb, Hb'; intros E; injection E as ->.
    f_equal; apply Hiff'.
    destruct (proj1 Hiff eq_refl) as [(Hp & d & Hparse & Hlt)
                                     | (Hn & Hp & d & Hparse & Hlt)].
    + left; split; [exact Hp |]; exists d; split; [exact Hparse | lia].
    + right; split; [exact Hn |]; split; [exact Hp |].
      exists d; split; [exact Hparse | lia].
  - rewrite Hd, Hd'; intros n E; injection E as ->.
    destruct (proj1 (Hsome n) eq_refl) as (Hp & d & Hparse & ->).
    exists (timedelta_days d later); split.
    + f_equal; apply Hsome'; split; [exact Hp |]; eauto.
    + unfold timedelta_days, microseconds_per_day.
      apply Z.div_le_mono; lia.
  - rewrite Hd, Hd'; intros E; injection E as ->.
    destruct days' as [m |]; [| reflexivity].
    destruct (proj1 (Hsome' m) eq_refl) as (Hp & d & Hparse & _).
    assert (None = Some (timedelta_days d now)) as E; [| discriminate E].
    apply Hsome; split; [exact Hp |]; eauto.
Qed.

(** X2.  A date that is neither a string nor falsy (a number, say)
    makes the date functions raise [TypeError], which [strptime] raises
    and only [ValueError] is caught: a deadline of that kind in both
    [_is_expired] and [_days_until_deadline], a start date of that kind in
    [_is_expired] when there is no deadline. *)
Theorem date_of_wrong_type (opp : json) (now : datetime) :
  is_dict opp = true -> is_dict (member opp "dates" (JDict [])) = true ->
  (Py.truthy (deadline_of opp) = true -> is_str (deadline_of opp) = false ->
   _is_expired strptime opp now = Raise TypeError
   /\ _days_until_deadline strptime opp now = Raise TypeError)
  /\ (Py.truthy (deadline_of opp) = false ->
      Py.truthy (start_of opp) = true -> is_str (start_of opp) = false ->
      _is_expired strptime opp now = Raise TypeError
      /\ _days_until_deadline strptime opp now = Ok None).
Proof.
  intros Hopp Hdates.
  destruct opp as [| | | | | | o]; try discriminate.
  unfold deadline_of, start_of in *; cbn [member] in *.
  destruct (PyDict.get o "dates" (JDict [])) as [| | | | | | dd] eqn:Edates;
    try discriminate.
  cbn [member] in *.
  unfold _is_expired, _days_until_deadline; cbn [Py.get bind]; rewrite Edates;
    cbn [Py.get bind].
  assert (Hparse : forall v, Py.truthy v = true -> is_str v = false ->
                             _parse_date strptime v = Raise TypeError).
  { intros v Ht Hs; unfold _parse_date; rewrite Ht; cbn [negb].
    destruct v; try reflexivity; discriminate. }
  split.
  - intros Ht Hs; rewrite Ht; cbn [negb].
    rewrite (Hparse _ Ht Hs); split; reflexivity.
  - intros Hd Ht Hs; rewrite Hd, Ht; cbn [negb bind].
    rewrite (Hparse _ Ht Hs); split; reflexivity.
Qed.

End WithStrptime.

Lemma date_of_wrong_type_witness :
  _is_expired Reference.strptime
              (JDict [("dates", JDict [("application_deadline", JNum 2025)])])
              Examples.now = Raise TypeError
  /\ _days_until_deadline Reference.strptime
       (JDict [("dates", JDict [("application_deadline", JNum 2025)])])
       Examples.now = Raise TypeError.
Proof.
  apply (date_of_wrong_type
           Reference.strptime
           (JDict [("dates", JDict [("application_deadline", JNum 2025)])])
           Examples.now); reflexivity.
Defined.

Lemma expiry_monotone_witness :
  _is_expired Reference.strptime Examples.conf_b (Examples.now + 1) = Ok true.
Proof.
  apply (expiry_monotone Reference.strptime Examples.conf_b Examples.now
                         (Examples.now + 1));
    [reflexivity | lia | vm_compute; reflexivity].
Defined.

Lemma days_until_deadline_rule_witness :
  exists days,
    _days_until_deadline Reference.strptime Examples.conf_b Examples.now = Ok days
    /\ (forall n, days = Some n ->
                  (n < 0 <-> _is_expired Reference.strptime Examples.conf_b
                                         Examples.now = Ok true)).
Proof.
  destruct (days_until_deadline_rule Reference.strptime Examples.conf_b Examples.now
                                     eq_refl) as (days & Hdays & _ & _ & Hneg).
  exists days; split; [exact Hdays | exact Hneg].
Defined.

Lemma insert_desc_perm (x : RankedOpportunity) (l r : list RankedOpportunity) :
  insert_desc x l = Ok r -> Permutation (x :: l) r.
Proof.
  revert r; induction l as [| y l IH]; intros r H; cbn [insert_desc] in H.
  - injection H as <-; reflexivity.
  - apply bind_ok in H as (b & _ & H).
    destruct b.
    + apply bind_ok in H as (r' & Hr' & H); injection H as <-.
      rewrite perm_swap; constructor; now apply IH.
    + injection H as <-; reflexivity.
Qed.

Lemma sort_desc_perm (l r : list RankedOpportunity) :
  sort_desc l = Ok r -> Permutation l r.
Proof.
  revert r; induction l as [| x l IH]; intros r H; cbn [sort_desc] in H.
  - injection H as <-; constructor.
  - apply bind_ok in H as (r' & Hr' & H).
    rewrite <- (insert_desc_perm x r' r H); constructor; now apply IH.
Qed.

(** X3.  The lookup table of the scoring response can be built exactly
    when the response is a list whose entries are all dictionaries with a
    hashable [opportunity_id], or is an empty object or an empty string;
    any other response makes the comprehension raise. *)
Theorem build_lookup_succeeds_iff (rankings : json) :
  (exists t, build_lookup rankings = Ok t)
  <-> match rankings with
      | JList items => forallb keyed items = true
      | JDict d => d = []
      | JStr s => s = EmptyString
      | _ => False
      end.
Proof.
  unfold build_lookup.
  destruct rankings as [| b | q | | s | items | d]; cbn [Py.iter bind];
    try (split; [intros (t & H); discriminate | contradiction]).
  - rewrite build_table_keyed.
    destruct s as [| c s]; cbn [Py.chars forallb]; [tauto |].
    split; discriminate.
  - apply build_table_keyed.
  - rewrite build_table_keyed.
    destruct d as [| [k v] d]; cbn [map forallb]; [tauto |].
    split; discriminate.
Qed.

(** *** Comparisons that raise *)

Lemma lt_raises : forall (a b : json) (e : exn), Py.lt a b = Raise e -> e = TypeError.
Proof.
  fix IH 1.
  intros a b e.
  destruct a as [| x | p | | s | l | d], b as [| y | q | | t | m | d'];
    cbn [Py.lt Py.number Py.is_number andb]; try (intros H; congruence).
  revert m; induction l as [| x l IHl]; intros [| y m]; try discriminate.
  destruct (Py.eq x y); [apply IHl | apply IH].
Qed.

(** A key that is [None] cannot be compared with anything. *)
Lemma lt_null (a b : json) :
  a = JNull \/ b = JNull -> Py.lt a b = Raise TypeError.
Proof.
  intros [-> | ->]; [reflexivity |].
  destruct a; reflexivity.
Qed.

Lemma sort_desc_raises (l : list RankedOpportunity) (e : exn) :
  sort_desc l = Raise e -> e = TypeError.
Proof.
  assert (Hins : forall x r, insert_desc x r = Raise e -> e = TypeError).
  { intros x r; induction r as [| y r IH]; cbn [insert_desc]; [discriminate |].
    destruct (Py.lt (match_score x) (match_score y)) as [b | e'] eqn:E; cbn [bind].
    - destruct b; [| discriminate].
      destruct (insert_desc x r); cbn [bind]; [discriminate |].
      intros H; injection H as ->; now apply IH.
    - intros H; injection H as ->; exact (lt_raises _ _ _ E). }
  induction l as [| x l IH]; cbn [sort_desc]; [discriminate |].
  destruct (sort_desc l) as [r | e']; cbn [bind].
  - apply Hins.
  - intros H; injection H as ->; now apply IH.
Qed.

(** *** Keys that are not ordered *)

(** Between numbers, NaN among them, no comparison raises, and with NaN as
    an operand the answer is [False]. *)
Lemma lt_is_number (a b : json) :
  Py.is_number a = true -> Py.is_number b = true -> exists r, Py.lt a b = Ok r.
Proof.
  destruct a, b; cbn [Py.is_number Py.lt Py.number andb]; try discriminate; eauto.
Qed.

Lemma lt_nan (a : json) :
  Py.is_number a = true -> Py.lt a JNaN = Ok false /\ Py.lt JNaN a = Ok false.
Proof.
  destruct a; cbn [Py.is_number Py.lt Py.number andb]; try discriminate; auto.
Qed.

Lemma insert_desc_is_number (x : RankedOpportunity) (l : list RankedOpportunity) :
  Py.is_number (match_score x) = true ->
  Forall (fun e => Py.is_number (match_score e) = true) l ->
  exists r, insert_desc x l = Ok r.
Proof.
  intros Hx Hl; induction Hl as [| y l Hy Hl IH]; cbn [insert_desc]; [eauto |].
  destruct (lt_is_number _ _ Hx Hy) as (b & ->); cbn [bind].
  destruct b; [| eauto].
  destruct IH as (r & ->); cbn [bind]; eauto.
Qed.

(** [list.sort] raises nothing on such keys, whether [<] orders them or
    not, and keeps every item. *)
Lemma sort_desc_is_number (l : list RankedOpportunity) :
  Forall (fun e => Py.is_number (match_score e) = true) l ->
  exists r, sort_desc l = Ok r /\ Permutation l r.
Proof.
  induction 1 as [| x l Hx Hl IH]; cbn [sort_desc]; [eauto |].
  destruct IH as (r & -> & Hperm); cbn [bind].
  destruct (insert_desc_is_number x r Hx) as (r' & Hr').
  { eapply Permutation_Forall; [exact Hperm | exact Hl]. }
  exists r'; split; [exact Hr' |].
  rewrite <- (insert_desc_perm x r r' Hr'); now constructor.
Qed.

(** X4.  [list.sort] on the ranked entries raises [TypeError] as soon as
    there are two entries or more and the [match_score] of one of them is
    [None]: a scoring entry that carries [match_score: null] aborts the
    ranking of several opportunities. *)
Theorem sort_desc_null_score (l : list RankedOpportunity) :
  (2 <= List.length l)%nat -> Exists (fun e => match_score e = JNull) l ->
  sort_desc l = Raise TypeError.
Proof.
  induction l as [| x l IH]; cbn [List.length]; [lia |].
  intros Hlen Hnull; cbn [sort_desc].
  destruct (sort_desc l) as [r | e] eqn:Hsort; cbn [bind].
  2:{ now rewrite (sort_desc_raises l e Hsort). }
  pose proof (sort_desc_perm l r Hsort) as Hperm.
  destruct r as [| y r].
  { apply Permutation_length in Hperm; cbn in Hperm; lia. }
  cbn [insert_desc].
  inversion Hnull as [? ? Hx | ? ? Hl]; subst.
  - rewrite lt_null by auto; reflexivity.
  - destruct l as [| z l]; [inversion Hl |].
    destruct l as [| z' l].
    + apply Permutation_length_1_inv in Hperm; injection Hperm as -> ->.
      inversion Hl as [? ? Hz | ? ? Hn]; [| inversion Hn].
      rewrite lt_null by auto; reflexivity.
    + discriminate IH; [cbn; lia | exact Hl].
Qed.

Lemma sort_desc_null_score_witness :
  sort_desc
    (map (fun s => mkRanked (JStr "a") JNull JNull JNull JNull JNull JNull JNull
                            JNull JNull JNull JNull JNull s JNull JNull JNull JNull
                            false None)
         [JNum (9 # 10); JNull; JNum (1 # 2)])
  = Raise TypeError.
Proof.
  apply sort_desc_null_score; [cbn; lia |].
  apply Exists_cons_tl, Exists_cons_hd; reflexivity.
Defined.

Section WithService.

Variable strptime : string -> string -> option datetime.
Variable json_loads : string -> option json.
Variable py_str : json -> string.
Variable strftime_ymd : datetime -> string.
Variable chat_completion : string -> string -> string -> chat_outcome.

Abbreviation rank :=
  (rank_opportunities strptime json_loads py_str strftime_ymd chat_completion).

(** What a returned ranking is made of. *)
Lemma rank_opportunities_inv (now : datetime) (profile : string)
      (opps : list json) (res : RankingResult) :
  rank now profile opps = Ok res ->
  exists n entries t,
    partition_expired strptime opps now = Ok (valid_of strptime now opps, n)
    /\ total_opportunities res = Z.of_nat (List.length opps)
    /\ valid_opportunities res = Z.of_nat (List.length (valid_of strptime now opps))
    /\ expired_opportunities res = n
    /\ Permutation entries (ranked_opportunities res)
    /\ Forall2 (fun o e => ranked_entry strptime t now o = Ok e)
               (valid_of strptime now opps) entries
    /\ (valid_of strptime now opps = []
        \/ exists rankings,
             rank_opportunities_with_ai json_loads py_str strftime_ymd chat_completion
               profile (valid_of strptime now opps) now = Ok rankings
             /\ build_lookup rankings = Ok t).
Proof.
  unfold rank_opportunities; intros H.
  apply bind_ok in H as ([valid n] & Hpart & H).
  destruct (partition_expired_any strptime opps valid n now Hpart) as (-> & _).
  exists n.
  destruct (valid_of strptime now opps) as [| v0 valid'] eqn:Ev.
  - exists [], []; injection H as <-; cbn; repeat split; auto; constructor.
  - apply bind_ok in H as (rankings & Hrankings & H).
    apply bind_ok in H as (t & Ht & H).
    apply bind_ok in H as (entries & Hentries & H).
    apply bind_ok in H as (sorted & Hsorted & H).
    exists entries, t; injection H as <-; cbn.
    repeat split; auto.
    + now apply sort_desc_perm.
    + now apply mapM_Forall2.
    + right; eauto.
Qed.

Lemma ranked_entry_days (t : lookup_table) (now : datetime) (o : json)
      (e : RankedOpportunity) :
  ranked_entry strptime t now o = Ok e ->
  is_expired e = false
  /\ _days_until_deadline strptime o now = Ok (days_until_deadline e).
Proof.
  unfold ranked_entry; intros H.
  do 24 (apply bind_ok in H as (? & ? & H)).
  apply bind_ok in H as (days & Hdays & H).
  injection H as <-; cbn; auto.
Qed.

(** An opportunity that is not expired and has a number of days until its
    deadline has a non-negative one. *)
Lemma not_expired_days (o : json) (now : datetime) (n : Z) :
  _is_expired strptime o now = Ok false ->
  _days_until_deadline strptime o now = Ok (Some n) -> 0 <= n.
Proof.
  unfold _is_expired, _days_until_deadline; intros He Hd.
  apply bind_ok in He as (dates & Hdates & He); rewrite Hdates in Hd; cbn [bind] in Hd.
  apply bind_ok in He as (deadline & Hdl & He); rewrite Hdl in Hd; cbn [bind] in Hd.
  destruct (negb (Py.truthy deadline)); [discriminate |].
  destruct (_parse_date strptime deadline) as [[d |] | e]; cbn [bind] in *;
    try discriminate.
  injection He as He; injection Hd as <-.
  apply Z.ltb_ge in He.
  unfold timedelta_days, microseconds_per_day; apply Z.div_pos; lia.
Qed.

(** X5.  Whenever [rank_opportunities] returns, its counters are
    consistent: [total_opportunities] is the length of the input,
    [valid_opportunities] the length of the ranked list, and the total is
    the sum of the valid and the expired ones. *)
Theorem rank_opportunities_counts (now : datetime) (profile : string)
        (opps : list json) (res : RankingResult) :
  rank now profile opps = Ok res ->
  total_opportunities res = Z.of_nat (List.length opps)
  /\ valid_opportunities res = Z.of_nat (List.length (ranked_opportunities res))
  /\ total_opportunities res = valid_opportunities res + expired_opportunities res
  /\ 0 <= expired_opportunities res <= total_opportunities res.
Proof.
  intros H.
  destruct (rank_opportunities_inv now profile opps res H)
    as (n & entries & t & Hpart & Htotal & Hvalid & Hexp & Hperm & Hall & _).
  destruct (partition_expired_any strptime opps _ n now Hpart) as (_ & Hlen & Hn & _).
  rewrite Htotal, Hvalid, Hexp.
  rewrite <- (Permutation_length Hperm), <- (Forall2_length Hall).
  repeat split; lia.
Qed.

(** X6.  No entry of a returned ranking is past its deadline: every entry
    has [is_expired = False], and its [days_until_deadline] is [None] or a
    non-negative number. *)
Theorem ranked_entries_not_past_deadline (now : datetime) (profile : string)
        (opps : list json) (res : RankingResult) :
  rank now profile opps = Ok res ->
  Forall (fun e => is_expired e = false
                   /\ match days_until_deadline e with
                      | Some n => 0 <= n
                      | None => True
                      end)
         (ranked_opportunities res).
Proof.
  intros H.
  destruct (rank_opportunities_inv now profile opps res H)
    as (n & entries & t & Hpart & _ & _ & _ & Hperm & Hall & _).
  destruct (partition_expired_any strptime opps _ n now Hpart) as (_ & _ & _ & Hvalid).
  eapply Permutation_Forall; [exact Hperm |].
  clear - Hall Hvalid.
  induction Hall as [| o e valid entries He _ IH]; [constructor |].
  inversion Hvalid as [| ? ? Ho Hrest]; subst.
  constructor; [| now apply IH].
  destruct (ranked_entry_days t now o e He) as (Hexp & Hdays).
  split; [exact Hexp |].
  destruct (days_until_deadline e) as [d |] eqn:Ed; [| exact I].
  exact (not_expired_days o now d Ho Hdays).
Qed.

Lemma ranked_entry_scores (t : lookup_table) (now : datetime) (o : json)
      (e : RankedOpportunity) :
  ranked_entry strptime t now o = Ok e ->
  exists ai,
    table_get t (opportunity_id e) = Ok ai
    /\ Py.get ai "match_score" (JNum (1 # 2)) = Ok (match_score e)
    /\ Py.get ai "relevance_score" (JNum (1 # 2)) = Ok (relevance_score e)
    /\ Py.get ai "preference_score" (JNum (1 # 2)) = Ok (preference_score e)
    /\ Py.get ai "match_reasons" (JList []) = Ok (match_reasons e)
    /\ Py.get ai "matching_keywords" (JList []) = Ok (matching_keywords e).
Proof.
  unfold ranked_entry; intros H.
  apply bind_ok in H as (opp_id & _ & H).
  apply bind_ok in H as (ai & Hai & H).
  do 17 (apply bind_ok in H as (? & _ & H)).
  apply bind_ok in H as (v1 & H1 & H).
  apply bind_ok in H as (v2 & H2 & H).
  apply bind_ok in H as (v3 & H3 & H).
  apply bind_ok in H as (v4 & H4 & H).
  apply bind_ok in H as (v5 & H5 & H).
  apply bind_ok in H as (days & _ & H).
  injection H as <-; cbn.
  exists ai; repeat split; assumption.
Qed.

Lemma build_lookup_find (rankings : json) (items : list json) (t : lookup_table)
      (id : json) :
  build_lookup rankings = Ok t -> Py.iter rankings = Ok items ->
  table_get t id = if Py.hashable id then Ok (last_entry items id) else Raise TypeError.
Proof.
  unfold build_lookup, table_get, last_entry; intros H Hitems.
  rewrite Hitems in H; cbn [bind] in H.
  rewrite (build_table_find items [] t id (Forall_nil _) H).
  destruct (Py.hashable id); [| reflexivity].
  now destruct (List.find (covers id) (rev items)).
Qed.

(** X7.  The scores of a ranked entry are those of the last entry of the
    scoring response filed under the identifier of the entry: each of
    [match_score], [relevance_score], [preference_score], [match_reasons]
    and [matching_keywords] is the value that entry holds, or the default
    (0.5, respectively the empty list) when that entry has no such key or
    no entry is filed under the identifier. *)
Theorem scores_from_last_entry (now : datetime) (profile : string)
        (opps : list json) (res : RankingResult) (rankings : json)
        (items : list json) :
  rank now profile opps = Ok res ->
  rank_opportunities_with_ai json_loads py_str strftime_ymd chat_completion
    profile (valid_of strptime now opps) now = Ok rankings ->
  Py.iter rankings = Ok items ->
  Forall (fun e =>
            exists scores,
              last_entry items (opportunity_id e) = JDict scores
              /\ match_score e = PyDict.get scores "match_score" (JNum (1 # 2))
              /\ relevance_score e = PyDict.get scores "relevance_score" (JNum (1 # 2))
              /\ preference_score e
                 = PyDict.get scores "preference_score" (JNum (1 # 2))
              /\ match_reasons e = PyDict.get scores "match_reasons" (JList [])
              /\ matching_keywords e
                 = PyDict.get scores "matching_keywords" (JList []))
         (ranked_opportunities res).
Proof.
  intros H Hrankings Hitems.
  destruct (rank_opportunities_inv now profile opps res H)
    as (n & entries & t & _ & _ & _ & _ & Hperm & Hall & Hnil).
  eapply Permutation_Forall; [exact Hperm |].
  destruct Hnil as [Hnil | (rankings' & Hr' & Ht)].
  { rewrite Hnil in Hall; inversion Hall; constructor. }
  rewrite Hrankings in Hr'; injection Hr' as <-.
  clear - Hall Ht Hitems.
  induction Hall as [| o e valid entries He _ IH]; constructor; [| exact IH].
  destruct (ranked_entry_scores t now o e He) as (ai & Hai & H1 & H2 & H3 & H4 & H5).
  rewrite (build_lookup_find rankings items t _ Ht Hitems) in Hai.
  destruct (Py.hashable (opportunity_id e)); [| discriminate].
  injection Hai as <-.
  destruct (last_entry items (opportunity_id e)) as [| | | | | | scores];
    try discriminate.
  exists scores; cbn [Py.get] in *.
  repeat split; congruence.
Qed.

Lemma filter_all {A : Type} (f : A -> bool) (l : list A) :
  Forall (fun x => f x = true) l -> filter f l = l.
Proof.
  induction 1 as [| x l Hx _ IH]; cbn [filter]; [reflexivity |].
  now rewrite Hx, IH.
Qed.

(** Sorting entries that all have the same score changes nothing. *)
Lemma sort_by_score_ties (q : Q) (l : list RankedOpportunity) :
  Forall (fun e => tie q e = true) l -> sort_by_score l = l.
Proof.
  intros H.
  rewrite <- (filter_all (tie q) (sort_by_score l)).
  - rewrite SortFacts.sort_by_score_stable; now apply filter_all.
  - eapply Permutation_Forall; [apply SortFacts.sort_by_score_perm | exact H].
Qed.

(** X8.  When the scoring call fails, or its answer cannot be parsed at
    all, the ranking lists the opportunities that are not expired in their
    input order, each with the default scores: the sort leaves entries of
    equal score where they are. *)
Theorem rank_opportunities_unscored_order (now : datetime) (profile : string)
        (opps : list json) :
  Forall (fun o => opportunity_shaped o = true) opps ->
  (forall date summary text,
      parse_rankings json_loads (chat_completion date summary text) = JList []) ->
  exists res,
    rank now profile opps = Ok res
    /\ map opportunity_id (ranked_opportunities res)
       = map id_of (valid_of strptime now opps)
    /\ Forall unscored_defaults (ranked_opportunities res).
Proof.
  intros Hopps Hchat.
  destruct (RankFacts.rank_opportunities_merge strptime json_loads py_str strftime_ymd
              chat_completion now profile opps Hopps)
    as (res & entries & Hres & _ & _ & _ & Hall & Hsort).
  { intros; rewrite Hchat; reflexivity. }
  exists res; split; [exact Hres |].
  destruct (RankFacts.rank_with_ai_shaped json_loads py_str strftime_ymd
              chat_completion profile (valid_of strptime now opps) now)
    as (texts & _ & Hai).
  { apply Forall_forall; intros o Ho.
    apply filter_In in Ho as [Ho _].
    revert o Ho; now apply Forall_forall. }
  rewrite Hchat in Hai.
  assert (Hun : Forall2 (fun o e => opportunity_id e = id_of o /\ unscored_defaults e)
                        (valid_of strptime now opps) entries).
  { eapply Forall2_impl; [| exact Hall].
    intros o e (Hid & _ & Hdef); split; [exact Hid |].
    exact (Hdef (JList []) Hai eq_refl). }
  clear Hall.
  rewrite Hsort, (sort_by_score_ties (1 # 2) entries).
  - clear - Hun; induction Hun as [| o e valid entries (Hid & Hdef) _ (IH1 & IH2)];
      [split; constructor |].
    split; [cbn [map]; now rewrite Hid, IH1 | now constructor].
  - clear - Hun; induction Hun as [| o e valid entries (_ & Hdef & _) _ IH];
      constructor; [| exact IH].
    unfold tie, score; now rewrite Hdef.
Qed.

(** The fallback of [rank_opportunities_with_ai] reads the same substring
    as the one of [_parse_opportunities]. *)
Lemma parse_rankings_between (text : string) :
  json_loads text = None ->
  parse_rankings json_loads (ChatContent (Some text))
  = match AIProcessor.try_loads json_loads (AIProcessor.between text "[" "]") with
    | Some rankings => rankings
    | None => JList []
    end.
Proof.
  intros H; unfold parse_rankings, AIProcessor.between; rewrite H; cbv zeta.
  destruct (negb _ && _); reflexivity.
Qed.

(** X9.  The bracket fallback of the scoring response: when the answer is
    not valid JSON as a whole but holds a JSON value between a leading
    prose with no opening bracket and a trailing prose with no closing
    bracket, that value is the scoring response; an answer with no text,
    and a failed call, give the empty list. *)
Theorem parse_rankings_embedded (before body after : string) (rankings : json) :
  json_loads (before ++ ("[" ++ body ++ "]") ++ after) = None ->
  json_loads ("[" ++ body ++ "]") = Some rankings ->
  PyStr.find before "[" = -1 -> PyStr.rfind after "]" = -1 ->
  parse_rankings json_loads
    (ChatContent (Some (before ++ ("[" ++ body ++ "]") ++ after))) = rankings
  /\ parse_rankings json_loads (ChatContent None) = JList []
  /\ parse_rankings json_loads ChatError = JList [].
Proof.
  intros Hwhole Harray Hb Ha.
  split; [| split; reflexivity].
  rewrite (parse_rankings_between _ Hwhole).
  rewrite (ParserFacts.between_brackets before body after Hb Ha).
  cbn [AIProcessor.try_loads]; now rewrite Harray.
Qed.

(** X10.  When every opportunity is expired, and when there is none,
    [rank_opportunities] returns the empty ranking with all of them
    counted as expired; the scoring model, [json.loads] and the text
    preparation play no part in the result. *)
Theorem rank_opportunities_all_expired (now : datetime) (profile : string)
        (opps : list json) :
  Forall (fun o => _is_expired strptime o now = Ok true) opps ->
  rank now profile opps
  = Ok {| ranked_opportunities := [];
          total_opportunities := Z.of_nat (List.length opps);
          valid_opportunities := 0;
          expired_opportunities := Z.of_nat (List.length opps) |}.
Proof.
  intros H.
  assert (Hpart : partition_expired strptime opps now
                  = Ok ([], Z.of_nat (List.length opps))).
  { induction H as [| o opps Ho _ IH]; [reflexivity |].
    cbn [partition_expired List.length]; rewrite Ho, IH; cbn [bind].
    do 2 f_equal; lia. }
  unfold rank_opportunities; rewrite Hpart; reflexivity.
Qed.

End WithService.

Lemma rank_opportunities_counts_witness :
  exists res,
    Examples.rank (Examples.scorer ChatError) [Examples.conf_a; Examples.conf_b]
    = Ok res
    /\ total_opportunities res = valid_opportunities res + expired_opportunities res.
Proof.
  eexists; split; [vm_compute; reflexivity |].
  match goal with
  | |- total_opportunities ?r = _ =>
      destruct (rank_opportunities_counts
                  Reference.strptime Reference.json_loads Reference.py_str
                  Reference.strftime_ymd (Examples.scorer ChatError)
                  Examples.now "A speaker on formal methods."
                  [Examples.conf_a; Examples.conf_b] r)
        as (_ & _ & Hsum & _); [vm_compute; reflexivity | exact Hsum]
  end.
Defined.

Lemma ranked_entries_not_past_deadline_witness :
  exists res,
    Examples.rank (Examples.scorer ChatError) [Examples.conf_a; Examples.conf_b]
    = Ok res
    /\ Forall (fun e => is_expired e = false
                        /\ match days_until_deadline e with
                           | Some n => 0 <= n
                           | None => True
                           end)
              (ranked_opportunities res).
Proof.
  eexists; split; [vm_compute; reflexivity |].
  match goal with
  | |- Forall _ (ranked_opportunities ?r) =>
      apply (ranked_entries_not_past_deadline
               Reference.strptime Reference.json_loads Reference.py_str
               Reference.strftime_ymd (Examples.scorer ChatError)
               Examples.now "A speaker on formal methods."
               [Examples.conf_a; Examples.conf_b] r)
  end.
  vm_compute; reflexivity.
Defined.

Lemma scores_from_last_entry_witness :
  exists res,
    Examples.rank
      (Examples.answers
         "[{'opportunity_id': 'a', 'match_score': 0.2}, {'opportunity_id': 'a'}]")
      [Examples.conf_a] = Ok res
    /\ Forall (fun e =>
                 exists scores,
                   last_entry [JDict [("opportunity_id", JStr "a");
                                      ("match_score", JNum (1 # 5))];
                               JDict [("opportunity_id", JStr "a")]]
                              (opportunity_id e) = JDict scores
                   /\ match_score e = PyDict.get scores "match_score" (JNum (1 # 2)))
              (ranked_opportunities res).
Proof.
  eexists; split; [vm_compute; reflexivity |].
  match goal with
  | |- Forall _ (ranked_opportunities ?r) =>
      pose proof (scores_from_last_entry
                    Reference.strptime Reference.json_loads Reference.py_str
                    Reference.strftime_ymd
                    (Examples.answers
                       "[{'opportunity_id': 'a', 'match_score': 0.2}, {'opportunity_id': 'a'}]")
                    Examples.now "A speaker on formal methods."
                    [Examples.conf_a] r
                    (JList [JDict [("opportunity_id", JStr "a");
                                   ("match_score", JNum (1 # 5))];
                            JDict [("opportunity_id", JStr "a")]])
                    [JDict [("opportunity_id", JStr "a");
                            ("match_score", JNum (1 # 5))];
                     JDict [("opportunity_id", JStr "a")]]) as H
  end.
  eapply Forall_impl; [| apply H; vm_compute; reflexivity].
  intros e (scores & H1 & H2 & _); exists scores; auto.
Defined.

Lemma rank_opportunities_unscored_order_witness :
  exists res,
    Examples.rank (Examples.scorer ChatError)
                  [Examples.conf_c; Examples.conf_b; Examples.conf_a] = Ok res
    /\ map opportunity_id (ranked_opportunities res) = [JStr "c"; JStr "a"].
Proof.
  destruct (rank_opportunities_unscored_order
              Reference.strptime Reference.json_loads Reference.py_str
              Reference.strftime_ymd (Examples.scorer ChatError)
              Examples.now "A speaker on formal methods."
              [Examples.conf_c; Examples.conf_b; Examples.conf_a])
    as (res & Hres & Hids & _).
  - repeat constructor.
  - reflexivity.
  - exists res; split; [exact Hres | exact Hids].
Defined.

Lemma parse_rankings_embedded_witness :
  parse_rankings Reference.json_loads
    (ChatContent
       (Some (Reference.dq "Scores: "
              ++ ("[" ++ Reference.dq "{'opportunity_id': 'a', 'match_score': 1}" ++ "]")
              ++ " (done)")))
  = JList [JDict [("opportunity_id", JStr "a"); ("match_score", JNum 1)]].
Proof.
  apply (parse_rankings_embedded Reference.json_loads); vm_compute; reflexivity.
Defined.

Lemma rank_opportunities_all_expired_witness :
  Examples.rank (Examples.answers "[]") [Examples.conf_b; Examples.conf_f]
  = Ok {| ranked_opportunities := [];
          total_opportunities := 2;
          valid_opportunities := 0;
          expired_opportunities := 2 |}.
Proof.
  apply (rank_opportunities_all_expired
           Reference.strptime Reference.json_loads Reference.py_str
           Reference.strftime_ymd (Examples.answers "[]")
           Examples.now "A speaker on formal methods."
           [Examples.conf_b; Examples.conf_f]).
  repeat constructor.
Defined.

End RankMore.
(** ** Chunking: further properties *)

Module StrMore.

Import Conditions.

Lemma substring_length (n m : nat) (s : string) :
  (String.length (substring n m s) <= m)%nat.
Proof.
  revert n m; induction s as [| c s IH]; intros [| n] [| m]; cbn; try lia.
  - specialize (IH O m); lia.
  - apply IH.
  - apply IH.
Qed.

Lemma substring_prefix (m : nat) (s : string) :
  exists after, s = (substring 0 m s ++ after)%string.
Proof.
  revert m; induction s as [| c s IH]; intros [| m]; cbn [substring].
  - now exists "".
  - now exists "".
  - now exists (String c s).
  - destruct (IH m) as (b & E); exists b; cbn [append]; now rewrite <- E.
Qed.

Lemma substring_occurs (n m : nat) (s : string) : occurs (substring n m s) s.
Proof.
  unfold occurs; revert n; induction s as [| c s IH]; intros n.
  - exists "", ""; now destruct n, m.
  - destruct n as [| n].
    + destruct (substring_prefix m (String c s)) as (b & E); now exists "", b.
    + cbn [substring].
      destruct (IH n) as (a & b & E).
      exists (String c a), b; cbn [append]; now rewrite <- E.
Qed.

Lemma occurs_refl (s : string) : occurs s s.
Proof.
  exists "", ""; cbn [append].
  induction s as [| c s IH]; cbn [append]; [reflexivity | now rewrite <- IH].
Qed.

Lemma occurs_trans (a b c : string) : occurs a b -> occurs b c -> occurs a c.
Proof.
  intros (x & y & ->) (u & v & ->).
  exists (u ++ x)%string, (y ++ v)%string.
  now rewrite !StrFacts.app_assoc.
Qed.

Lemma occurs_len (a b : string) : occurs a b -> PyStr.len a <= PyStr.len b.
Proof.
  intros (x & y & ->); rewrite !StrFacts.len_app.
  pose proof (StrFacts.len_nonneg x); pose proof (StrFacts.len_nonneg y); lia.
Qed.

(** A slice is a part of the string, no longer than its bounds are
    apart. *)
Lemma slice_occurs (s : string) (i j : Z) : occurs (PyStr.slice s i j) s.
Proof.
  unfold PyStr.slice.
  destruct (_ <? _); [apply substring_occurs |].
  exists "", s; reflexivity.
Qed.

Lemma slice_len (s : string) (i j : Z) :
  0 <= i -> 0 <= j -> PyStr.len (PyStr.slice s i j) <= Z.max 0 (j - i).
Proof.
  intros Hi Hj; unfold PyStr.slice, PyStr.adjust.
  pose proof (StrFacts.len_nonneg s) as Hs.
  destruct (i <? 0) eqn:Ei; [apply Z.ltb_lt in Ei; lia |].
  set (a := Z.min i (PyStr.len s)).
  set (b := if j <? 0 then Z.max 0 (j + PyStr.len s) else Z.min j (PyStr.len s)).
  destruct (a <? b) eqn:E; [| cbn; lia].
  apply Z.ltb_lt in E.
  pose proof (substring_length (Z.to_nat a) (Z.to_nat (b - a)) s) as Hlen.
  unfold PyStr.len at 1.
  assert (b - a <= Z.max 0 (j - i)); [| lia].
  subst a b; destruct (j <? 0) eqn:Ej;
    [apply Z.ltb_lt in Ej | apply Z.ltb_ge in Ej]; lia.
Qed.

(** *** [strip] *)

Lemma lstrip_suffix (s : string) : exists before, s = (before ++ PyStr.lstrip s)%string.
Proof.
  induction s as [| c s (a & E)]; cbn [PyStr.lstrip].
  - now exists "".
  - destruct (PyStr.is_space c).
    + exists (String c a); cbn [append]; now rewrite <- E.
    + now exists "".
Qed.

Lemma rstrip_prefix (s : string) : exists after, s = (PyStr.rstrip s ++ after)%string.
Proof.
  induction s as [| c s (b & E)]; cbn [PyStr.rstrip].
  - now exists "".
  - destruct (PyStr.rstrip s) as [| x r] eqn:Er.
    + destruct (PyStr.is_space c).
      * now exists (String c s).
      * exists s; reflexivity.
    + exists b; cbn [append] in *; now rewrite <- E.
Qed.

Lemma strip_occurs (s : string) : occurs (PyStr.strip s) s.
Proof.
  unfold PyStr.strip.
  destruct (lstrip_suffix s) as (a & Ea).
  destruct (rstrip_prefix (PyStr.lstrip s)) as (b & Eb).
  exists a, b; now rewrite <- Eb.
Qed.

Lemma rstrip_idem (s : string) : PyStr.rstrip (PyStr.rstrip s) = PyStr.rstrip s.
Proof.
  induction s as [| c s IH]; cbn [PyStr.rstrip]; [reflexivity |].
  destruct (PyStr.rstrip s) as [| x r] eqn:Er.
  - destruct (PyStr.is_space c) eqn:Ec; cbn [PyStr.rstrip]; [reflexivity |].
    now rewrite Ec.
  - cbn [PyStr.rstrip] in *; rewrite IH; reflexivity.
Qed.

(** [rstrip] keeps the first character of what it leaves. *)
Lemma rstrip_head (c : ascii) (s : string) :
  PyStr.rstrip (String c s) = EmptyString
  \/ exists r, PyStr.rstrip (String c s) = String c r.
Proof.
  cbn [PyStr.rstrip].
  destruct (PyStr.rstrip s); [destruct (PyStr.is_space c) |]; eauto.
Qed.

Lemma lstrip_head (s : string) :
  PyStr.lstrip s = EmptyString
  \/ exists c r, PyStr.lstrip s = String c r /\ PyStr.is_space c = false.
Proof.
  induction s as [| c s IH]; cbn [PyStr.lstrip]; [now left |].
  destruct (PyStr.is_space c) eqn:E; [exact IH | right; eauto].
Qed.

Lemma strip_idem (s : string) : PyStr.strip (PyStr.strip s) = PyStr.strip s.
Proof.
  unfold PyStr.strip.
  destruct (lstrip_head s) as [-> | (c & r & -> & Hc)]; [reflexivity |].
  destruct (rstrip_head c r) as [-> | (r' & E)]; [reflexivity |].
  rewrite E; cbn [PyStr.lstrip]; rewrite Hc, <- E.
  apply rstrip_idem.
Qed.

Lemma strip_len (s : string) : PyStr.len (PyStr.strip s) <= PyStr.len s.
Proof. apply occurs_len, strip_occurs. Qed.

(** *** [rfind] *)

Lemma prefix_len (sep s : string) : prefix sep s = true -> PyStr.len sep <= PyStr.len s.
Proof.
  revert s; induction sep as [| a sep IH]; intros s H.
  - apply StrFacts.len_nonneg.
  - destruct s as [| b s]; [discriminate |].
    cbn [prefix] in H.
    destruct (ascii_dec a b); [| discriminate].
    rewrite !StrFacts.len_cons; specialize (IH s H); lia.
Qed.

(** An occurrence [rfind] reports lies within the string. *)
Lemma rfind_from_upper (sep s : string) (i : Z) :
  PyStr.rfind_from sep s i = -1
  \/ (i <= PyStr.rfind_from sep s i
      /\ PyStr.rfind_from sep s i + PyStr.len sep <= i + PyStr.len s).
Proof.
  revert i; induction s as [| c s IH]; intros i; cbn [PyStr.rfind_from].
  - destruct (prefix sep "") eqn:E; [right | now left].
    apply prefix_len in E; lia.
  - destruct (0 <=? PyStr.rfind_from sep s (i + 1)) eqn:E.
    + destruct (IH (i + 1)) as [H | H]; [rewrite H in E; discriminate |].
      right; rewrite StrFacts.len_cons; lia.
    + destruct (prefix sep (String c s)) eqn:Ep; [right | now left].
      apply prefix_len in Ep; lia.
Qed.

End StrMore.

Module ChunkMore.

Import Chunking Conditions.

Lemma sentence_cut_upper (seps : list string) (window : string)
      (chunk_size start e : Z) :
  0 <= chunk_size ->
  sentence_cut seps window chunk_size start = Some e ->
  start <= e <= start + PyStr.len window.
Proof.
  intros Hcs; induction seps as [| sep seps IH]; cbn [sentence_cut]; [discriminate |].
  destruct (negb (PyStr.rfind window sep =? -1)
            && (chunk_size / 2 <? PyStr.rfind window sep)) eqn:E; [| exact IH].
  intros H; injection H as <-.
  apply andb_prop in E as [_ E]; apply Z.ltb_lt in E.
  pose proof (Z.div_pos chunk_size 2 Hcs).
  pose proof (StrFacts.len_nonneg sep).
  unfold PyStr.rfind in *.
  destruct (StrMore.rfind_from_upper sep window 0) as [Hr | Hr]; lia.
Qed.

(** The cut lies in the window: the chunk is no longer than the chunk
    size. *)
Lemma cut_end_upper (text : string) (chunk_size start : Z) :
  0 < chunk_size -> 0 <= start ->
  start <= cut_end text chunk_size start <= start + chunk_size.
Proof.
  intros Hcs Hstart; unfold cut_end.
  destruct (start + chunk_size <? PyStr.len text); [| lia].
  pose proof (StrMore.slice_len text start (start + chunk_size)) as Hw.
  set (window := PyStr.slice text start (start + chunk_size)) in *.
  assert (Hlen : PyStr.len window <= chunk_size) by lia.
  destruct (sentence_cut _ _ _ _) as [e |] eqn:E.
  - apply sentence_cut_upper in E; lia.
  - unfold word_cut.
    destruct (negb _ && (chunk_size / 2 <? _)) eqn:Ew; [| lia].
    apply andb_prop in Ew as [_ Ew]; apply Z.ltb_lt in Ew.
    pose proof (Z.div_pos chunk_size 2).
    unfold PyStr.rfind in *.
    destruct (StrMore.rfind_from_upper " " window 0) as [Hr | Hr];
      change (PyStr.len " ") with 1 in *; lia.
Qed.

Lemma next_start_nonneg (text : string) (chunk_size overlap start : Z) :
  0 <= next_start text chunk_size overlap start.
Proof.
  unfold next_start.
  destruct (_ <? 0) eqn:E; [lia | now apply Z.ltb_ge in E].
Qed.

(** What one turn of the loop appends. *)
Lemma chunk_step_chunk (text : string) (chunk_size overlap start : Z)
      (chunks : list string) :
  0 < chunk_size -> 0 <= start ->
  Forall (chunk_of text chunk_size) chunks ->
  Forall (chunk_of text chunk_size)
         (snd (chunk_step text chunk_size overlap (start, chunks))).
Proof.
  intros Hcs Hstart Hchunks; cbn [chunk_step snd].
  set (piece := PyStr.slice text start (cut_end text chunk_size start)).
  destruct (PyStr.truthy (PyStr.strip piece)) eqn:E; [| exact Hchunks].
  apply Forall_app; split; [exact Hchunks |].
  constructor; [| constructor].
  pose proof (cut_end_upper text chunk_size start Hcs Hstart) as Hcut.
  pose proof (StrMore.slice_len text start (cut_end text chunk_size start)) as Hlen.
  fold piece in Hlen.
  pose proof (StrMore.strip_len piece).
  repeat split.
  - intros E'; rewrite E' in E; discriminate.
  - apply StrMore.strip_idem.
  - lia.
  - eapply StrMore.occurs_trans; [apply StrMore.strip_occurs |].
    apply StrMore.slice_occurs.
Qed.

Lemma chunk_loop_chunks (text : string) (chunk_size overlap : Z) :
  0 < chunk_size ->
  forall (fuel : nat) (start : Z) (chunks r : list string),
    0 <= start -> Forall (chunk_of text chunk_size) chunks ->
    chunk_loop fuel text chunk_size overlap (start, chunks) = Some r ->
    Forall (chunk_of text chunk_size) r.
Proof.
  intros Hcs; induction fuel as [| fuel IH]; intros start chunks r Hstart Hchunks;
    cbn [chunk_loop fst snd].
  - destruct (start <? PyStr.len text); [discriminate |].
    intros H; now injection H as <-.
  - destruct (start <? PyStr.len text).
    + pose proof (chunk_step_chunk text chunk_size overlap start chunks
                                   Hcs Hstart Hchunks) as Hstep.
      destruct (chunk_step text chunk_size overlap (start, chunks))
        as [start' chunks'] eqn:Es.
      assert (start' = next_start text chunk_size overlap start)
        by (cbn [chunk_step] in Es; now injection Es as <- _).
      apply IH; [subst start'; apply next_start_nonneg | exact Hstep].
    + intros H; now injection H as <-.
Qed.

(** X11.  With an overlap of at most half the chunk size plus one,
    [chunk_text] terminates on every text, within as many turns of its
    loop as the text has characters, and the start of the window moves
    forward at every turn. *)
Theorem chunk_text_terminates_when (text : string) (chunk_size overlap : Z) :
  0 < chunk_size -> 0 <= overlap < chunk_size -> overlap <= chunk_size / 2 + 1 ->
  (exists chunks,
      chunk_text_fuel (String.length text) text chunk_size overlap = Some chunks)
  /\ StronglySorted Z.lt (window_starts (String.length text) text chunk_size overlap 0).
Proof. apply ChunkFacts.chunk_text_terminates_small_overlap. Qed.

Lemma chunk_text_terminates_when_witness :
  (exists chunks,
      chunk_text_fuel 46 "One. Two three four five six! Seven eight nine" 12 7
      = Some chunks)
  /\ StronglySorted Z.lt
       (window_starts 46 "One. Two three four five six! Seven eight nine" 12 7 0).
Proof.
  apply (chunk_text_terminates_when
           "One. Two three four five six! Seven eight nine" 12 7);
    [lia | lia | vm_compute; discriminate].
Defined.

Lemma chunk_text_result (fuel : nat) (text : string) (chunk_size overlap : Z)
        (chunks : list string) :
  0 < chunk_size ->
  chunk_text_fuel fuel text chunk_size overlap = Some chunks ->
  Forall (fun c => c <> EmptyString /\ PyStr.len c <= chunk_size /\ occurs c text)
         chunks
  /\ (chunk_size < PyStr.len text -> Forall (fun c => PyStr.strip c = c) chunks)
  /\ (PyStr.len text <= chunk_size ->
      chunks = if PyStr.truthy text then [text] else []).
Proof.
  intros Hcs; unfold chunk_text_fuel.
  destruct (negb (PyStr.truthy text) || (PyStr.len text <=? chunk_size)) eqn:E.
  - intros H; injection H as <-.
    assert (Hshort : PyStr.len text <= chunk_size).
    { apply orb_prop in E as [E | E]; [| now apply Z.leb_le].
      destruct text; [cbn; lia | discriminate]. }
    split; [| split; [lia | reflexivity]].
    destruct text as [| c text]; cbn [PyStr.truthy]; constructor; [| constructor].
    repeat split; [discriminate | exact Hshort | apply StrMore.occurs_refl].
  - apply orb_false_elim in E as [_ E]; apply Z.leb_gt in E.
    intros H.
    apply (chunk_loop_chunks text chunk_size overlap Hcs) in H;
      [| lia | constructor].
    split; [| split; [| lia]].
    + eapply Forall_impl; [| exact H].
      intros c (H1 & _ & H3 & H4); auto.
    + intros _; eapply Forall_impl; [| exact H].
      intros c (_ & H2 & _); exact H2.
Qed.

(** X12.  Whatever the overlap, the chunks [chunk_text] returns are not
    empty, no longer than the chunk size, and parts of the text.  Those of
    a text longer than the chunk size are stripped of surrounding white
    space; a text that fits in one chunk is returned as it is, white space
    included, and the empty text gives no chunk. *)
Theorem chunk_text_chunks (fuel : nat) (text : string) (chunk_size overlap : Z)
        (chunks : list string) :
  0 < chunk_size ->
  chunk_text_fuel fuel text chunk_size overlap = Some chunks ->
  Forall (fun c => c <> EmptyString /\ PyStr.len c <= chunk_size /\ occurs c text)
         chunks
  /\ (chunk_size < PyStr.len text -> Forall (fun c => PyStr.strip c = c) chunks)
  /\ (PyStr.len text <= chunk_size ->
      chunks = if PyStr.truthy text then [text] else []).
Proof. apply chunk_text_result. Qed.

Lemma chunk_text_chunks_witness :
  exists chunks,
    chunk_text_fuel 46 "One. Two three four five six! Seven eight nine" 12 7
    = Some chunks
    /\ Forall (fun c => c <> EmptyString /\ PyStr.len c <= 12
                        /\ occurs c "One. Two three four five six! Seven eight nine")
              chunks.
Proof.
  eexists; split; [vm_compute; reflexivity |].
  match goal with
  | |- Forall _ ?cs =>
      apply (chunk_text_chunks
               46 "One. Two three four five six! Seven eight nine" 12 7 cs)
  end; [lia | vm_compute; reflexivity].
Defined.

(** X13.  With its default arguments, as [handle_upload] calls it,
    [chunk_text] terminates on every text, and every chunk it returns is a
    non-empty part of the text of at most 1000 characters. *)
Theorem chunk_text_defaults (text : string) :
  exists chunks,
    chunk_text_fuel (String.length text) text 1000 200 = Some chunks
    /\ Forall (fun c => c <> EmptyString /\ PyStr.len c <= 1000 /\ occurs c text)
              chunks.
Proof.
  destruct (ChunkFacts.chunk_text_terminates_small_overlap text 1000 200)
    as ((chunks & H) & _); [lia | lia | vm_compute; discriminate |].
  exists chunks; split; [exact H |].
  now apply (chunk_text_result (String.length text) text 1000 200 chunks).
Qed.

End ChunkMore.

(** ** Embedding requests *)

Module EmbeddingFacts.

Import Embedding.

Lemma substring_0_length (m : nat) (s : string) :
  String.length (substring 0 m s) = Nat.min m (String.length s).
Proof.
  revert m; induction s as [| c s IH]; intros [| m]; cbn; auto.
Qed.

Lemma prefix_app (s t : string) : prefix s (s ++ t) = true.
Proof.
  induction s as [| c s IH]; cbn [append prefix]; [apply StrFacts.prefix_empty |].
  destruct (ascii_dec c c); [exact IH | contradiction].
Qed.

Lemma prefix_refl (s : string) : prefix s s = true.
Proof.
  induction s as [| c s IH]; cbn [prefix]; [reflexivity |].
  destruct (ascii_dec c c); [exact IH | contradiction].
Qed.

(** [s[:n]] is the prefix of [s] of length [min n (len s)]. *)
Lemma slice_to (s : string) (n : Z) :
  0 <= n ->
  prefix (PyStr.slice s 0 n) s = true
  /\ PyStr.len (PyStr.slice s 0 n) = Z.min n (PyStr.len s).
Proof.
  intros Hn; unfold PyStr.slice, PyStr.adjust.
  pose proof (StrFacts.len_nonneg s) as Hs.
  change (0 <? 0) with false; cbv iota.
  destruct (n <? 0) eqn:En; [apply Z.ltb_lt in En; lia |].
  rewrite (Z.min_l 0 _) by lia.
  destruct (0 <? Z.min n (PyStr.len s)) eqn:E.
  - rewrite Z.sub_0_r; change (Z.to_nat 0) with O.
    split.
    + destruct (StrMore.substring_prefix (Z.to_nat (Z.min n (PyStr.len s))) s)
        as (b & Eb).
      remember (substring 0 (Z.to_nat (Z.min n (PyStr.len s))) s) as p eqn:Ep.
      rewrite Eb; apply prefix_app.
    + unfold PyStr.len; rewrite substring_0_length; lia.
  - apply Z.ltb_ge in E; split; [apply StrFacts.prefix_empty |].
    change (PyStr.len "") with 0; lia.
Qed.

Lemma strip_empty_cases (text : string) :
  negb (PyStr.truthy text) || negb (PyStr.truthy (PyStr.strip text)) = true
  <-> PyStr.strip text = EmptyString.
Proof.
  destruct text as [| c text]; [cbn; tauto |].
  cbn [PyStr.truthy negb orb].
  destruct (PyStr.strip (String c text)); cbn; split; congruence.
Qed.

Section WithService.

Variable vector : Type.
Variable embeddings_create : string -> option vector.

(** X14.  [generate_embedding] answers [None] for a text that is empty or
    all white space, without a request; for any other text it makes one
    request, whose input is the first 30000 characters of the text (the
    whole text when it is shorter), and returns its outcome. *)
Theorem generate_embedding_request (text : string) :
  (PyStr.strip text = EmptyString ->
   generate_embedding vector embeddings_create text = None)
  /\ (PyStr.strip text <> EmptyString ->
      exists input,
        generate_embedding vector embeddings_create text = embeddings_create input
        /\ prefix input text = true
        /\ PyStr.len input = Z.min 30000 (PyStr.len text)
        /\ input <> EmptyString).
Proof.
  unfold generate_embedding.
  pose proof (strip_empty_cases text) as Hblank.
  destruct (negb (PyStr.truthy text) || negb (PyStr.truthy (PyStr.strip text))).
  - split; [reflexivity |].
    intros H; exfalso; apply H, Hblank; reflexivity.
  - split; [intros H; apply Hblank in H; discriminate |].
    intros Hne; cbv zeta.
    assert (Hpos : 0 < PyStr.len text).
    { destruct text as [| c text]; [now contradiction Hne |].
      rewrite StrFacts.len_cons; pose proof (StrFacts.len_nonneg text); lia. }
    assert (Hlen : forall input, 0 < PyStr.len input -> input <> EmptyString).
    { intros input H ->; cbn in H; lia. }
    unfold max_chars.
    destruct (30000 <? PyStr.len text) eqn:E.
    + apply Z.ltb_lt in E.
      destruct (slice_to text 30000) as (Hp & Hl); [lia |].
      eexists; split; [reflexivity |].
      split; [exact Hp |]; split; [exact Hl |].
      apply Hlen; lia.
    + apply Z.ltb_ge in E.
      exists text; split; [reflexivity |].
      split; [| split; [lia | apply Hlen; lia]].
      apply prefix_refl.
Qed.

End WithService.

End EmbeddingFacts.
(** ** The response parser and the models: further properties *)

Module ParserMore.

Import AIProcessor.

Section Delimiters.

Variables opening closing : ascii.

Local Abbreviation op := (String opening EmptyString).
Local Abbreviation cl := (String closing EmptyString).

(** In a text whose prose has no delimiter of its own, the delimited
    substring is the embedded value. *)
Lemma between_delimiters (before body after : string) :
  PyStr.find before op = -1 -> PyStr.rfind after cl = -1 ->
  between (before ++ (op ++ body ++ cl) ++ after) op cl
  = Some (op ++ body ++ cl)%string.
Proof.
  intros Hb Ha; unfold between, PyStr.find, PyStr.rfind.
  set (text := (before ++ (op ++ body ++ cl) ++ after)%string).
  pose proof (StrFacts.len_nonneg before); pose proof (StrFacts.len_nonneg body).
  assert (Hfind : PyStr.find_from op text 0 = PyStr.len before).
  { change text with (before ++ String opening ((body ++ cl) ++ after))%string.
    rewrite (StrFacts.find_first opening before _ 0) by (lia || assumption); lia. }
  assert (Hrfind : PyStr.rfind_from cl text 0 = PyStr.len before + 1 + PyStr.len body).
  { replace text with ((before ++ op ++ body) ++ String closing after)%string.
    2:{ unfold text; rewrite !StrFacts.app_assoc; reflexivity. }
    rewrite (StrFacts.rfind_last closing (before ++ op ++ body) after 0)
      by (lia || assumption).
    rewrite !StrFacts.len_app; change (PyStr.len op) with 1; lia. }
  rewrite Hfind, Hrfind.
  destruct (PyStr.len before =? -1) eqn:E1; [apply Z.eqb_eq in E1; lia |].
  destruct (PyStr.len before <? PyStr.len before + 1 + PyStr.len body + 1)
    eqn:E2; [| apply Z.ltb_ge in E2; lia].
  cbn [negb andb]; f_equal.
  replace (PyStr.len before + 1 + PyStr.len body + 1)
    with (PyStr.len before + PyStr.len (op ++ body ++ cl))
    by (rewrite !StrFacts.len_app; change (PyStr.len op) with 1;
        change (PyStr.len cl) with 1; lia).
  apply StrFacts.slice_middle; discriminate.
Qed.

End Delimiters.

(** X15.  The object fallback: when the answer is not valid JSON as a
    whole, the bracket fallback finds nothing that parses, and the answer
    holds a JSON object between a leading prose with no opening brace and
    a trailing prose with no closing brace, [_parse_opportunities] returns
    the member [opportunities] of that object, or, when it has none, the
    list whose only item is the object. *)
Theorem parse_opportunities_embedded_object (json_loads : string -> option json)
        (before body after : string) (d : PyDict.t) :
  json_loads (before ++ ("{" ++ body ++ "}") ++ after) = None ->
  try_loads json_loads (between (before ++ ("{" ++ body ++ "}") ++ after) "[" "]")
  = None ->
  json_loads ("{" ++ body ++ "}") = Some (JDict d) ->
  PyStr.find before "{" = -1 -> PyStr.rfind after "}" = -1 ->
  _parse_opportunities json_loads (before ++ ("{" ++ body ++ "}") ++ after)
  = match PyDict.lookup d "opportunities" with
    | Some v => v
    | None => JList [JDict d]
    end.
Proof.
  intros Hwhole Harray Hobject Hb Ha; unfold _parse_opportunities.
  rewrite Hwhole, Harray.
  rewrite (between_delimiters "{"%char "}"%char before body after Hb Ha).
  cbn [try_loads]; now rewrite Hobject.
Qed.

Lemma parse_opportunities_embedded_object_witness :
  _parse_opportunities Reference.json_loads
    (Reference.dq "Found one: "
     ++ ("{" ++ Reference.dq "'id': 'a', 'event_name': 'Conf A'" ++ "}")
     ++ " -- that is all.")
  = JList [JDict [("id", JStr "a"); ("event_name", JStr "Conf A")]].
Proof.
  apply (parse_opportunities_embedded_object
           Reference.json_loads
           (Reference.dq "Found one: ")
           (Reference.dq "'id': 'a', 'event_name': 'Conf A'")
           " -- that is all."
           [("id", JStr "a"); ("event_name", JStr "Conf A")]);
    vm_compute; reflexivity.
Defined.

End ParserMore.

Module ModelMore.

Import Shape Models ModelFacts.

(** An enumeration accepts the values of its members, and nothing else. *)
Lemma validate_enum_value {T : Type} (members : list T) (value : T -> string)
      (v : json) (t : T) :
  validate_enum members value v = Some t -> v = JStr (value t).
Proof.
  destruct v; try discriminate; cbn [validate_enum]; intros H.
  apply find_some in H as [_ H]; apply String.eqb_eq in H; now subst.
Qed.

Section WithValidators.

Context {P : Pydantic}.

Lemma Opportunity_init_event_type (data : PyDict.t) (o : Opportunity) :
  Opportunity_init data = Ok o ->
  exists t, opp_event_type o = Some t
            /\ validate_OpportunityType
                 (or_default (PyDict.lookup data "event_type")
                             (JStr (OpportunityType_value OTHER)))
               = Some t.
Proof.
  unfold Opportunity_init; intros H.
  peel H as id Hid; peel H as name Hname; peel H as etype Hetype.
  do 10 (apply bind_ok in H as (? & _ & H)).
  injection H as <-; cbn.
  clear Hid Hname.
  eapply optional_not_null in Hetype as (t & -> & Ht);
    [eauto | lookup_sanitized; reflexivity | now apply or_default_not_null].
Qed.

(** X16.  The currency of a compensation record is [USD] when the raw
    record has no [currency] key, and stays [None] when the key holds
    [null]: the constructor replaces [None] for the booleans and the
    compensation type only.  A compensation type that is absent or [null]
    becomes [unknown], and an amount that is absent or [null] stays
    [None]. *)
Theorem compensation_currency_rule (data : PyDict.t) (c : Compensation) :
  Compensation_init data = Ok c ->
  (PyDict.lookup data "currency" = None -> comp_currency c = Some "USD")
  /\ (PyDict.lookup data "currency" = Some JNull -> comp_currency c = None)
  /\ (PyDict.get data "compensation_type" JNull = JNull ->
      comp_compensation_type c = Some UNKNOWN)
  /\ (PyDict.get data "amount" JNull = JNull -> comp_amount c = None).
Proof.
  unfold Compensation_init; intros H.
  peel H as paid Hpaid; peel H as type Htype; peel H as amount Hamount;
    peel H as currency Hcurrency; peel H as travel Htravel;
    peel H as accommodation Haccommodation; peel H as details Hdetails.
  injection H as <-; cbn.
  unfold optional in Htype, Hamount, Hcurrency.
  revert Htype Hamount Hcurrency; lookup_sanitized; intros Htype Hamount Hcurrency.
  split; [| split; [| split]].
  - intros E; rewrite E in Hcurrency; congruence.
  - intros E; rewrite E in Hcurrency; congruence.
  - intros E; rewrite (or_default_null _ _ _ E) in Htype.
    cbn in Htype; congruence.
  - unfold PyDict.get; intros E.
    destruct (PyDict.lookup data "amount") as [v |]; [subst v |]; congruence.
Qed.

Variable uuid4_hex : nat -> string.

Abbreviation fix_one := (AIProcessor.fix_one uuid4_hex).
Abbreviation validate_and_fix := (AIProcessor._validate_and_fix_opportunities uuid4_hex).

Lemma or_default_get (d : PyDict.t) (k : string) (default v : json) :
  PyDict.get d k JNull = v -> v <> JNull ->
  or_default (PyDict.lookup d k) default = v.
Proof.
  unfold PyDict.get, or_default; intros H Hv.
  destruct (PyDict.lookup d k) as [x |]; [| congruence].
  subst x; destruct v; congruence.
Qed.

(** X17.  The event type of an accepted record: [other] when the raw
    record has none (absent or null), and otherwise the member of the
    enumeration whose value is the raw string; a raw record whose event
    type is anything else (a string in another spelling or case, a number)
    is rejected, not given the type [other]. *)
Theorem event_type_rule (keywords : list string) (n : nat) (raw : json) :
  (forall o, snd (fix_one keywords n raw) = Some o ->
             exists t, opp_event_type o = Some t
                       /\ (member raw "event_type" JNull = JNull -> t = OTHER)
                       /\ (forall s, member raw "event_type" JNull = JStr s ->
                                     OpportunityType_value t = s))
  /\ (forall v, member raw "event_type" JNull = v -> v <> JNull ->
                (forall t, v <> JStr (OpportunityType_value t)) ->
                snd (fix_one keywords n raw) = None).
Proof.
  assert (Hinv : forall o, snd (fix_one keywords n raw) = Some o ->
                 exists d t, raw = JDict d /\ opp_event_type o = Some t
                   /\ validate_OpportunityType
                        (or_default (PyDict.lookup d "event_type")
                                    (JStr (OpportunityType_value OTHER)))
                      = Some t).
  { intros o H.
    apply (fix_one_accepts uuid4_hex) in H as (d & -> & _ & Hinit).
    apply Opportunity_init_event_type in Hinit as (t & Ht & Hval).
    rewrite ensure_keywords_other, ensure_id_other in Hval by discriminate.
    eauto. }
  split.
  - intros o H.
    destruct (Hinv o H) as (d & t & -> & Ht & Hval).
    exists t; split; [exact Ht |]; cbn [member]; split.
    + intros Hn; rewrite (or_default_null _ _ _ Hn) in Hval.
      cbn in Hval; congruence.
    + intros s Hs.
      rewrite (or_default_get d "event_type" _ (JStr s) Hs) in Hval by discriminate.
      apply validate_enum_value in Hval; congruence.
  - intros v Hv Hnn Hout.
    destruct (snd (fix_one keywords n raw)) as [o |] eqn:E; [| reflexivity].
    exfalso.
    destruct (Hinv o eq_refl) as (d & t & -> & _ & Hval).
    cbn [member] in Hv.
    rewrite (or_default_get d "event_type" _ v Hv Hnn) in Hval.
    apply validate_enum_value in Hval.
    exact (Hout t Hval).
Qed.

(** A value that is no dict, and a record without a truthy [event_name],
    are skipped. *)
Lemma fix_one_skips (keywords : list string) (n : nat) (raw : json) :
  is_dict raw = false
  \/ (Py.truthy (member raw "id" JNull) = true
      /\ Py.truthy (member raw "event_name" JNull) = false) ->
  fix_one keywords n raw = (n, None).
Proof.
  intros [H | (Hid & Hname)].
  - destruct raw; try reflexivity; discriminate.
  - destruct raw as [| | | | | | d]; try discriminate.
    cbn [member] in *.
    unfold AIProcessor.fix_one, AIProcessor.ensure_id.
    rewrite Hid; cbn [negb]; now rewrite Hname.
Qed.

Lemma fold_left_skip (keywords : list string) (before after : list json)
      (bad : json) (st : nat * list Opportunity) :
  (forall n, fix_one keywords n bad = (n, None)) ->
  fold_left (AIProcessor.validate_step uuid4_hex keywords)
            (before ++ bad :: after) st
  = fold_left (AIProcessor.validate_step uuid4_hex keywords) (before ++ after) st.
Proof.
  intros Hbad; rewrite !fold_left_app; cbn [fold_left]; f_equal.
  generalize (fold_left (AIProcessor.validate_step uuid4_hex keywords) before st).
  intros [m os]; unfold AIProcessor.validate_step; cbv zeta; cbn [fst snd].
  now rewrite Hbad.
Qed.

(** X18.  A value that is not a dictionary, and a record that has an
    identifier but no name, are skipped without a trace: the list
    [_validate_and_fix_opportunities] returns is the one it returns
    without them. *)
Theorem skipped_record_has_no_effect (keywords : list string)
        (before after : list json) (bad : json) :
  is_dict bad = false
  \/ (Py.truthy (member bad "id" JNull) = true
      /\ Py.truthy (member bad "event_name" JNull) = false) ->
  validate_and_fix (before ++ bad :: after) keywords
  = validate_and_fix (before ++ after) keywords.
Proof.
  intros H; unfold AIProcessor._validate_and_fix_opportunities.
  rewrite fold_left_skip; [reflexivity |].
  intros n; now apply fix_one_skips.
Qed.

Lemma validate_loop_length (keywords : list string) (raws : list json)
      (st : nat * list Opportunity) :
  (List.length (snd (fold_left (AIProcessor.validate_step uuid4_hex keywords) raws st))
   <= List.length (snd st) + List.length raws)%nat.
Proof.
  revert st; induction raws as [| raw raws IH]; intros st; cbn [fold_left List.length].
  - lia.
  - etransitivity; [apply IH |].
    unfold AIProcessor.validate_step; cbn [snd].
    destruct (snd (fix_one keywords (fst st) raw)); rewrite ?length_app; cbn; lia.
Qed.

Context {L : PydanticLaws P}.

(** X19.  Every opportunity [_validate_and_fix_opportunities] returns is
    normalized: its nested records, lists, booleans and enumerations hold
    a value, its confidence score lies within the unit interval, its
    identifier and its name are not empty, and it has matched keywords
    unless the search had none; and there are no more opportunities than
    raw records. *)
Theorem validated_opportunities_normalized (raws : list json) (keywords : list string) :
  Forall (normalized keywords) (validate_and_fix raws keywords)
  /\ (List.length (validate_and_fix raws keywords) <= List.length raws)%nat.
Proof.
  unfold AIProcessor._validate_and_fix_opportunities; split.
  - apply (validate_loop_normal uuid4_hex); constructor.
  - apply (validate_loop_length keywords raws (O, [])).
Qed.

Lemma fix_one_drawn (keywords : list string) (n : nat) (d : PyDict.t) :
  fst (fix_one keywords n (JDict d)) = snd (AIProcessor.ensure_id uuid4_hex n d).
Proof.
  unfold AIProcessor.fix_one.
  destruct (AIProcessor.ensure_id uuid4_hex n d) as [d1 n1]; cbn [snd].
  destruct (negb _); [reflexivity |].
  now destruct (Opportunity_init _).
Qed.

(** X20.  The identifier and the keywords of an accepted record: a
    non-empty identifier string of the raw record is kept, and no
    identifier is drawn; a record without one gets the next generated
    identifier [opp_] followed by eight hexadecimal digits; a non-empty
    list of matched keywords is kept, and a record without one gets the
    keywords of the search. *)
Theorem identifier_and_keywords_rule (keywords : list string) (n : nat)
        (d : PyDict.t) (o : Opportunity) :
  snd (fix_one keywords n (JDict d)) = Some o ->
  (forall s, PyDict.lookup d "id" = Some (JStr s) -> s <> EmptyString ->
             opp_id o = s /\ fst (fix_one keywords n (JDict d)) = n)
  /\ (Py.truthy (PyDict.get d "id" JNull) = false ->
      opp_id o = AIProcessor.fresh_id uuid4_hex n
      /\ fst (fix_one keywords n (JDict d)) = S n)
  /\ (forall l, PyDict.lookup d "keywords_matched" = Some (JList (map JStr l)) ->
                l <> [] -> opp_keywords_matched o = Some l)
  /\ (Py.truthy (PyDict.get d "keywords_matched" JNull) = false ->
      opp_keywords_matched o = Some keywords).
Proof.
  intros H.
  apply (fix_one_accepts uuid4_hex) in H as (d' & E & _ & Hinit).
  injection E as <-.
  destruct (Opportunity_init_fields _ _ Hinit)
    as ((v & Hv & Hid) & _ & _ & _ & _ & _ & _ & _ & (km & Hkm & Hval) & _).
  rewrite ensure_keywords_other in Hv by discriminate.
  rewrite fix_one_drawn.
  split; [intros s H Hs; split
         | split; [intros H; split | split; [intros l H Hl | intros H]]].
  - unfold AIProcessor.ensure_id in Hv.
    unfold PyDict.get in Hv; rewrite H in Hv.
    rewrite (truthy_str s) in Hv by assumption; cbn [negb fst] in Hv.
    rewrite H in Hv; injection Hv as <-.
    rewrite validate_str_id in Hid; congruence.
  - unfold AIProcessor.ensure_id, PyDict.get; rewrite H.
    now rewrite (truthy_str s) by assumption.
  - unfold AIProcessor.ensure_id in Hv; rewrite H in Hv; cbn [negb fst] in Hv.
    rewrite lookup_set, String.eqb_refl in Hv; injection Hv as <-.
    rewrite validate_str_id in Hid; congruence.
  - unfold AIProcessor.ensure_id; now rewrite H.
  - unfold AIProcessor.ensure_keywords in Hval.
    pose proof (ensure_id_other uuid4_hex n d "keywords_matched") as Hother.
    unfold PyDict.get in Hval; rewrite Hother in Hval by discriminate.
    rewrite H in Hval.
    assert (Ht : Py.truthy (JList (map JStr l)) = true)
      by (destruct l; [contradiction | reflexivity]).
    rewrite Ht in Hval; cbn [negb] in Hval.
    rewrite Hother, H in Hval by discriminate.
    cbn [or_default] in Hval; rewrite validate_str_list_id in Hval; congruence.
  - unfold AIProcessor.ensure_keywords in Hval.
    pose proof (ensure_id_other uuid4_hex n d "keywords_matched") as Hother.
    unfold PyDict.get in *; rewrite Hother in Hval by discriminate.
    rewrite H in Hval; cbn [negb] in Hval.
    rewrite lookup_set, String.eqb_refl in Hval.
    cbn [or_default] in Hval; rewrite validate_str_list_id in Hval; congruence.
Qed.

(** X21.  The round trip through [model_dump]: building an [Opportunity]
    from the record of a materialized opportunity gives that opportunity
    back. *)
Theorem Opportunity_round_trip (o : Opportunity) :
  materialized o -> Opportunity_init (Opportunity_record o) = Ok o.
Proof. apply Opportunity_init_dump. Qed.

End WithValidators.

Lemma compensation_currency_rule_witness :
  exists c,
    @Compensation_init strict [("currency", JNull); ("amount", JNum 500)] = Ok c
    /\ comp_currency c = None /\ comp_compensation_type c = Some UNKNOWN.
Proof.
  eexists; split; [vm_compute; reflexivity |].
  match goal with
  | |- comp_currency ?c = _ /\ _ =>
      destruct (@compensation_currency_rule
                  strict [("currency", JNull); ("amount", JNum 500)] c)
        as (_ & Hnull & Htype & _); [vm_compute; reflexivity |]
  end.
  split; [apply Hnull | apply Htype]; reflexivity.
Defined.

Lemma skipped_record_has_no_effect_witness :
  Examples.normalize ([Examples.raw_nulls] ++ JNum 7 :: [Examples.raw_no_id]) ["ai"]
  = Examples.normalize ([Examples.raw_nulls] ++ [Examples.raw_no_id]) ["ai"].
Proof.
  apply (@skipped_record_has_no_effect strict Reference.uuid4_hex ["ai"]
           [Examples.raw_nulls] [Examples.raw_no_id] (JNum 7)).
  left; reflexivity.
Defined.

Lemma validated_opportunities_normalized_witness :
  Forall (normalized ["ai"])
         (Examples.normalize [Examples.raw_nulls; JNum 7; Examples.raw_no_id] ["ai"])
  /\ (List.length
        (Examples.normalize [Examples.raw_nulls; JNum 7; Examples.raw_no_id] ["ai"])
      <= 3)%nat.
Proof.
  exact (@validated_opportunities_normalized
           strict Reference.uuid4_hex ModelClaims.strict_laws
           [Examples.raw_nulls; JNum 7; Examples.raw_no_id] ["ai"]).
Defined.

Lemma identifier_and_keywords_rule_witness :
  exists o,
    snd (@AIProcessor.fix_one strict Reference.uuid4_hex ["ai"] O Examples.raw_no_id)
    = Some o
    /\ opp_id o = AIProcessor.fresh_id Reference.uuid4_hex O
    /\ opp_keywords_matched o = Some ["ai"].
Proof.
  eexists; split; [vm_compute; reflexivity |].
  match goal with
  | |- opp_id ?o = _ /\ _ =>
      destruct (@identifier_and_keywords_rule
                  strict Reference.uuid4_hex ModelClaims.strict_laws ["ai"] O
                  [("event_name", JStr "Conf Z"); ("event_type", JStr "keynote")] o)
        as (_ & Hid & _ & Hkw); [vm_compute; reflexivity |]
  end.
  split; [apply Hid | apply Hkw]; reflexivity.
Defined.

Lemma Opportunity_round_trip_witness :
  exists o,
    @Opportunity_init strict Examples.record_nulls = Ok o
    /\ @Opportunity_init strict (Opportunity_record o) = Ok o.
Proof.
  eexists; split; [vm_compute; reflexivity |].
  apply (@Opportunity_round_trip strict ModelClaims.strict_laws).
  apply (@Opportunity_init_materialized strict Examples.record_nulls).
  vm_compute; reflexivity.
Defined.

End ModelMore.

(** ** The processing of one search *)

Module ProcessingFacts.

Import Shape Processing.

Section WithProcess.

Context {P : Pydantic}.

Variable json_loads : string -> option json.
Variable uuid4_hex : nat -> string.
Variable call_model : list string -> string -> list string -> result (option string).
Variable utcnow_isoformat : string.

Abbreviation process :=
  (process_search_results json_loads uuid4_hex call_model utcnow_isoformat).

(** X22.  When the model answers with a JSON object whose member
    [opportunities] is a number, a boolean or [null], the value
    [_parse_opportunities] returns has no length, and
    [process_search_results] raises [TypeError]. *)
Theorem process_search_results_not_a_list (search_results : string)
        (keywords opportunity_types : list string) (text : string)
        (d : PyDict.t) (v : json) :
  call_model keywords search_results opportunity_types = Ok (Some text) ->
  json_loads text = Some (JDict d) ->
  PyDict.lookup d "opportunities" = Some v -> sized v = false ->
  process search_results keywords opportunity_types = Raise TypeError.
Proof.
  intros Hcall Hloads Hv Hsized; unfold process_search_results.
  rewrite Hcall; cbn [bind]; cbv zeta.
  unfold AIProcessor._parse_opportunities; rewrite Hloads, Hv, Hsized.
  reflexivity.
Qed.

(** X23.  When the model answers with a text in which none of the three
    strategies finds JSON, [process_search_results] returns a response
    with no opportunity and a total of 0. *)
Theorem process_search_results_unparseable (search_results : string)
        (keywords opportunity_types : list string) (text : string) :
  call_model keywords search_results opportunity_types = Ok (Some text) ->
  json_loads text = None ->
  AIProcessor.try_loads json_loads (AIProcessor.between text "[" "]") = None ->
  AIProcessor.try_loads json_loads (AIProcessor.between text "{" "}") = None ->
  exists response,
    process search_results keywords opportunity_types = Ok response
    /\ sr_opportunities response = []
    /\ sm_total_results (sr_search_metadata response) = 0.
Proof.
  intros Hcall H1 H2 H3; unfold process_search_results.
  rewrite Hcall; cbn [bind]; cbv zeta.
  rewrite (ParserFacts.parse_opportunities_nothing json_loads text H1 H2 H3).
  cbn; eauto.
Qed.

Context {L : PydanticLaws P}.

Lemma process_search_results_ok (search_results : string)
      (keywords opportunity_types : list string) (response : SearchResponse) :
  process search_results keywords opportunity_types = Ok response ->
  sm_total_results (sr_search_metadata response)
  = Z.of_nat (List.length (sr_opportunities response))
  /\ sm_keywords (sr_search_metadata response) = keywords
  /\ sm_opportunity_types (sr_search_metadata response) = opportunity_types
  /\ Forall (normalized keywords) (sr_opportunities response).
Proof.
  unfold process_search_results; intros H.
  apply bind_ok in H as (raw & _ & H).
  destruct raw as [text |]; [| discriminate].
  cbv zeta in H.
  destruct (negb (sized _)); [discriminate |].
  apply bind_ok in H as (items & _ & H).
  injection H as <-; cbn.
  repeat split.
  unfold AIProcessor._validate_and_fix_opportunities.
  apply (ModelFacts.validate_loop_normal uuid4_hex); constructor.
Qed.

(** X24.  A response of [process_search_results] is consistent: its
    [total_results] is the number of its opportunities, its keywords and
    opportunity types are those of the request, and every opportunity is
    normalized. *)
Theorem process_search_results_response (search_results : string)
        (keywords opportunity_types : list string) (response : SearchResponse) :
  process search_results keywords opportunity_types = Ok response ->
  sm_total_results (sr_search_metadata response)
  = Z.of_nat (List.length (sr_opportunities response))
  /\ sm_keywords (sr_search_metadata response) = keywords
  /\ sm_opportunity_types (sr_search_metadata response) = opportunity_types
  /\ Forall (normalized keywords) (sr_opportunities response).
Proof. apply process_search_results_ok. Qed.

End WithProcess.

Lemma process_search_results_not_a_list_witness :
  @process_search_results
    Models.strict Reference.json_loads Reference.uuid4_hex
    (fun _ _ _ => Ok (Some (Reference.dq "{'opportunities': 5}")))
    "2026-01-01T00:00:00" "results" ["ai"] ["conference"]
  = Raise TypeError.
Proof.
  apply (@process_search_results_not_a_list
           Models.strict Reference.json_loads Reference.uuid4_hex
           (fun _ _ _ => Ok (Some (Reference.dq "{'opportunities': 5}")))
           "2026-01-01T00:00:00" "results" ["ai"] ["conference"]
           (Reference.dq "{'opportunities': 5}")
           [("opportunities", JNum 5)] (JNum 5)); vm_compute; reflexivity.
Defined.

Lemma process_search_results_unparseable_witness :
  exists response,
    @process_search_results
      Models.strict Reference.json_loads Reference.uuid4_hex
      (fun _ _ _ => Ok (Some "I found nothing."))
      "2026-01-01T00:00:00" "results" ["ai"] ["conference"] = Ok response
    /\ sr_opportunities response = []
    /\ sm_total_results (sr_search_metadata response) = 0.
Proof.
  apply (@process_search_results_unparseable
           Models.strict Reference.json_loads Reference.uuid4_hex
           (fun _ _ _ => Ok (Some "I found nothing."))
           "2026-01-01T00:00:00" "results" ["ai"] ["conference"] "I found nothing.");
    vm_compute; reflexivity.
Defined.

Lemma process_search_results_response_witness :
  exists response,
    @process_search_results
      Models.strict Reference.json_loads Reference.uuid4_hex
      (fun _ _ _ =>
         Ok (Some (Reference.dq "[{'event_name': 'Conf Z'}, {'id': 'x'}, 7]")))
      "2026-01-01T00:00:00" "results" ["ai"] ["conference"] = Ok response
    /\ sm_total_results (sr_search_metadata response) = 1
    /\ Forall (normalized ["ai"]) (sr_opportunities response).
Proof.
  eexists; split; [vm_compute; reflexivity |].
  match goal with
  | |- sm_total_results (sr_search_metadata ?r) = _ /\ _ =>
      destruct (@process_search_results_response
                  Models.strict Reference.json_loads Reference.uuid4_hex
                  (fun _ _ _ =>
                     Ok (Some (Reference.dq
                                 "[{'event_name': 'Conf Z'}, {'id': 'x'}, 7]")))
                  "2026-01-01T00:00:00" ModelClaims.strict_laws
                  "results" ["ai"] ["conference"] r)
        as (Htotal & _ & _ & Hnormal); [vm_compute; reflexivity |]
  end.
  split; [exact Htotal | exact Hnormal].
Defined.

End ProcessingFacts.
(** ** The search request and the entry script: properties *)

Module SearchFacts.

Import Shape Search.

(** *** Removing duplicates *)

Lemma mem_In (q : string) (seen : list string) : mem q seen = true <-> In q seen.
Proof.
  unfold mem; rewrite existsb_exists; split.
  - intros (x & Hx & E); apply String.eqb_eq in E; now subst.
  - intros H; exists q; split; [exact H | apply String.eqb_refl].
Qed.

Lemma unique_In (queries seen : list string) (q : string) :
  In q (unique_queries queries seen) <-> In q queries /\ ~ In q seen.
Proof.
  revert seen; induction queries as [| x queries IH]; intros seen;
    cbn [unique_queries].
  - cbn; tauto.
  - destruct (mem x seen) eqn:E.
    + apply mem_In in E; rewrite IH; cbn [In]; split.
      * intros (H & Hn); auto.
      * intros ([-> | H] & Hn); [contradiction | auto].
    + assert (Hx : ~ In x seen) by (rewrite <- mem_In; congruence).
      cbn [In]; rewrite IH; cbn [In]; split.
      * intros [<- | (H & Hn)]; [auto | split; [auto | intros ?; apply Hn; auto]].
      * intros ([<- | H] & Hn); [now left |].
        destruct (string_dec x q) as [-> | Hne]; [now left | right].
        split; [exact H | intros [? | ?]; contradiction].
Qed.

Lemma unique_NoDup (queries seen : list string) :
  NoDup (unique_queries queries seen).
Proof.
  revert seen; induction queries as [| x queries IH]; intros seen;
    cbn [unique_queries].
  - constructor.
  - destruct (mem x seen); [apply IH |].
    constructor; [| apply IH].
    rewrite unique_In; intros (_ & H); apply H; now left.
Qed.

Lemma unique_length (queries seen : list string) :
  (List.length (unique_queries queries seen) <= List.length queries)%nat.
Proof.
  revert seen; induction queries as [| x queries IH]; intros seen;
    cbn [unique_queries].
  - reflexivity.
  - destruct (mem x seen); cbn [List.length]; [specialize (IH seen) |
                                                 specialize (IH (x :: seen))]; lia.
Qed.

(** A list without duplicates is left as it is. *)
Lemma unique_same (queries seen : list string) :
  NoDup queries -> (forall q, In q queries -> ~ In q seen) ->
  unique_queries queries seen = queries.
Proof.
  intros H; revert seen; induction H as [| x queries Hx _ IH]; intros seen Hseen;
    cbn [unique_queries]; [reflexivity |].
  destruct (mem x seen) eqn:E.
  - apply mem_In in E; exfalso; apply (Hseen x); [now left | exact E].
  - rewrite IH; [reflexivity |].
    intros q Hq [<- | Hin]; [contradiction |].
    apply (Hseen q); [now right | exact Hin].
Qed.

Lemma firstn_NoDup {A : Type} (n : nat) (l : list A) : NoDup l -> NoDup (firstn n l).
Proof.
  intros H; revert n; induction H as [| x l Hx _ IH]; intros [| n]; cbn [firstn];
    try constructor; [| apply IH].
  intros Hin; apply Hx; revert Hin; clear.
  revert n; induction l as [| y l IH]; intros [| n]; cbn; try tauto.
  intros [-> | H]; [now left | right; eauto].
Qed.

Lemma take_length {A : Type} (l : list A) (n : Z) :
  0 <= n -> Z.of_nat (List.length (PyList.take l n)) = Z.min n (Z.of_nat (List.length l)).
Proof.
  intros Hn; unfold PyList.take, PyStr.adjust.
  destruct (n <? 0) eqn:E; [apply Z.ltb_lt in E; lia |].
  rewrite length_firstn; lia.
Qed.

Section WithTemplates.

Variable query_templates : list string.
Variable format_keyword : string -> string -> result string.

Abbreviation build := (_build_queries query_templates format_keyword).

Lemma mapM_In {A B : Type} (f : A -> result B) (l : list A) (bs : list B) :
  mapM f l = Ok bs ->
  (forall a, In a l -> exists b, f a = Ok b /\ In b bs)
  /\ (forall b, In b bs -> exists a, f a = Ok b /\ In a l).
Proof.
  intros H; apply mapM_Forall2 in H.
  induction H as [| a b l bs Hab _ (IH1 & IH2)]; split; cbn [In]; try tauto.
  - intros x [<- | Hx]; [eauto |].
    destruct (IH1 x Hx) as (y & Hy & Hin); eauto.
  - intros y [<- | Hy]; [eauto |].
    destruct (IH2 y Hy) as (x & Hx & Hin); eauto.
Qed.

Lemma keyword_queries_length (opportunity_types : list string) (keyword : string)
      (qs : list string) :
  keyword_queries query_templates format_keyword opportunity_types keyword = Ok qs ->
  List.length qs
  = (List.length query_templates + List.length opportunity_types)%nat.
Proof.
  unfold keyword_queries; intros H.
  apply bind_ok in H as (ts & Hts & H); injection H as <-.
  rewrite length_app, length_map, (mapM_length _ _ _ Hts); reflexivity.
Qed.

Lemma concat_length_le (per : list (list string)) (n : nat) :
  Forall (fun qs => List.length qs = n) per ->
  List.length (List.concat per) = (List.length per * n)%nat.
Proof.
  induction 1 as [| qs per Hqs _ IH]; cbn [List.concat List.length]; [reflexivity |].
  rewrite length_app, IH, Hqs; lia.
Qed.

Lemma build_queries_result (keywords opportunity_types qs : list string) :
  build keywords opportunity_types = Ok qs ->
  NoDup qs
  /\ (forall q, In q qs <->
                exists keyword,
                  In keyword keywords
                  /\ ((exists template, In template query_templates
                                        /\ format_keyword template keyword = Ok q)
                      \/ exists opp_type, In opp_type opportunity_types
                                          /\ q = type_query keyword opp_type))
  /\ (List.length qs
      <= List.length keywords
         * (List.length query_templates + List.length opportunity_types))%nat
  /\ (forall per_keyword,
         mapM (keyword_queries query_templates format_keyword opportunity_types)
              keywords = Ok per_keyword ->
         NoDup (List.concat per_keyword) -> qs = List.concat per_keyword).
Proof.
  unfold _build_queries; intros H.
  apply bind_ok in H as (per & Hper & H); injection H as <-.
  split; [apply unique_NoDup |].
  split; [| split].
  - intros q; rewrite unique_In, in_concat.
    destruct (mapM_In _ _ _ Hper) as (Hfwd & Hbwd).
    split.
    + intros ((qs & Hqs & Hq) & _).
      destruct (Hbwd qs Hqs) as (keyword & Hk & Hin).
      exists keyword; split; [exact Hin |].
      unfold keyword_queries in Hk.
      apply bind_ok in Hk as (ts & Hts & Hk); injection Hk as <-.
      apply in_app_or in Hq as [Hq | Hq].
      * left; destruct (mapM_In _ _ _ Hts) as (_ & Hb).
        destruct (Hb q Hq) as (template & Ht & Hin'); eauto.
      * right; apply in_map_iff in Hq as (t & <- & Ht); eauto.
    + intros (keyword & Hin & Hcases).
      split; [| intros []].
      destruct (Hfwd keyword Hin) as (qs & Hk & Hqs).
      exists qs; split; [exact Hqs |].
      unfold keyword_queries in Hk.
      apply bind_ok in Hk as (ts & Hts & Hk); injection Hk as <-.
      apply in_or_app.
      destruct Hcases as [(template & Ht & Hq) | (t & Ht & ->)].
      * left; destruct (mapM_In _ _ _ Hts) as (Hf & _).
        destruct (Hf template Ht) as (q' & Hq' & Hin').
        rewrite Hq in Hq'; injection Hq' as <-; exact Hin'.
      * right; apply in_map; exact Ht.
  - etransitivity; [apply unique_length |].
    rewrite (concat_length_le per
               (List.length query_templates + List.length opportunity_types)).
    + rewrite (mapM_length _ _ _ Hper); reflexivity.
    + apply mapM_Forall2 in Hper; clear - Hper.
      induction Hper as [| k qs ks per Hk _ IH]; constructor; [| exact IH].
      now apply keyword_queries_length in Hk.
  - intros per' Hper' Hnodup.
    rewrite Hper in Hper'; injection Hper' as <-.
    apply unique_same; [exact Hnodup | intros ? _ []].
Qed.

(** X25.  The queries [_build_queries] returns have no duplicates; they
    are exactly the queries made for the keywords, one per template and
    one per opportunity type for each keyword, so that there are at most
    [len(keywords) * (len(templates) + len(opportunity_types))] of them;
    and a list of queries that has no duplicates to begin with is
    returned in its order. *)
Theorem build_queries_unique (keywords opportunity_types qs : list string) :
  build keywords opportunity_types = Ok qs ->
  NoDup qs
  /\ (forall q, In q qs <->
                exists keyword,
                  In keyword keywords
                  /\ ((exists template, In template query_templates
                                        /\ format_keyword template keyword = Ok q)
                      \/ exists opp_type, In opp_type opportunity_types
                                          /\ q = type_query keyword opp_type))
  /\ (List.length qs
      <= List.length keywords
         * (List.length query_templates + List.length opportunity_types))%nat
  /\ (forall per_keyword,
         mapM (keyword_queries query_templates format_keyword opportunity_types)
              keywords = Ok per_keyword ->
         NoDup (List.concat per_keyword) -> qs = List.concat per_keyword).
Proof. apply build_queries_result. Qed.

Section WithRequest.

Context {P : Pydantic}.

Variable validate_int : json -> option Z.

Lemma validate_int_bounded_range (lo hi : Z) (v : json) (n : Z) :
  validate_int_bounded validate_int lo hi v = Some n -> lo <= n <= hi.
Proof.
  unfold validate_int_bounded.
  destruct (validate_int v) as [m |]; [| discriminate].
  destruct ((lo <=? m) && (m <=? hi)) eqn:E; [| discriminate].
  intros H; injection H as <-.
  apply andb_prop in E as [E1 E2]; apply Z.leb_le in E1, E2; lia.
Qed.

Lemma defaulted_bounded (lo hi : Z) (data : PyDict.t) (key : string)
      (default n : Z) :
  lo <= default <= hi ->
  defaulted (validate_int_bounded validate_int lo hi) data key default = Ok n ->
  lo <= n <= hi /\ (PyDict.lookup data key = None -> n = default).
Proof.
  unfold defaulted; intros Hd.
  destruct (PyDict.lookup data key) as [v |].
  - destruct (validate_int_bounded validate_int lo hi v) as [m |] eqn:E;
      [| discriminate].
    intros H; injection H as <-.
    split; [exact (validate_int_bounded_range lo hi v m E) | discriminate].
  - intros H; injection H as <-; auto.
Qed.

(** X26.  A search request that is accepted asks for 1 to 50 results
    within 1 to 12 months, 20 and 6 when it does not say; [run] then asks
    for 1 to 5 search queries, 5 when the request does not say how many
    results it wants; and the queries the search executes are at most
    that many, and at most 5, with no duplicates among them. *)
Theorem run_search_queries (data : PyDict.t) (request : SearchRequest)
        (qs : list string) :
  SearchRequest_init validate_int data = Ok request ->
  search_queries query_templates format_keyword (rq_keywords request)
                 (rq_opportunity_types request) (max_queries request) = Ok qs ->
  1 <= rq_max_results request <= 50
  /\ 1 <= rq_time_frame_months request <= 12
  /\ (PyDict.lookup data "max_results" = None -> rq_max_results request = 20)
  /\ (PyDict.lookup data "time_frame_months" = None ->
      rq_time_frame_months request = 6)
  /\ 1 <= max_queries request <= 5
  /\ (PyDict.lookup data "max_results" = None -> max_queries request = 5)
  /\ Z.of_nat (List.length qs) <= max_queries request
  /\ NoDup qs.
Proof.
  unfold SearchRequest_init; intros Hinit Hqs.
  apply bind_ok in Hinit as (kws & _ & Hinit).
  apply bind_ok in Hinit as (types & _ & Hinit).
  apply bind_ok in Hinit as (loc & _ & Hinit).
  apply bind_ok in Hinit as (months & Hmonths & Hinit).
  apply bind_ok in Hinit as (results & Hresults & Hinit).
  injection Hinit as <-; cbn [rq_max_results rq_time_frame_months] in *.
  apply defaulted_bounded in Hmonths as (Hm & Hm0); [| lia].
  apply defaulted_bounded in Hresults as (Hr & Hr0); [| lia].
  assert (Hq : 1 <= Z.min 5 (results / 4 + 1) <= 5).
  { pose proof (Z.div_pos results 4); lia. }
  unfold max_queries in *; cbn [rq_max_results rq_keywords rq_opportunity_types] in *.
  repeat split; try lia; try assumption.
  - intros H; now rewrite (Hr0 H).
  - unfold search_queries in Hqs.
    apply bind_ok in Hqs as (all & _ & Hqs); injection Hqs as <-.
    rewrite take_length; lia.
  - unfold search_queries in Hqs.
    apply bind_ok in Hqs as (all & Hall & Hqs); injection Hqs as <-.
    apply firstn_NoDup.
    now destruct (build_queries_result _ _ _ Hall) as (H & _).
Qed.

Variable json_loads : string -> option json.
Variable uuid4_hex : nat -> string.
Variable utcnow_isoformat : string.
Variable search : list string -> list string -> Z -> result string.

Abbreviation run_with call_model :=
  (run validate_int json_loads uuid4_hex call_model utcnow_isoformat search).

(** X27.  When [run] reports that the search found nothing, the
    extraction model plays no part: the outcome is the same whatever the
    model would answer. *)
Theorem run_without_model
        (call_model call_model' : list string -> string -> list string
                                  -> result (option string))
        (raw_data : string) (keywords opportunity_types : list string) :
  run_with call_model raw_data = NoResults keywords opportunity_types ->
  run_with call_model' raw_data = NoResults keywords opportunity_types.
Proof.
  unfold run, run_body.
  destruct (json_loads raw_data) as [[| | | | | | d] |]; try discriminate.
  destruct (SearchRequest_init validate_int d) as [request | e]; cbn [bind];
    [| discriminate].
  destruct (search _ _ _) as [results | e]; cbn [bind]; [| discriminate].
  destruct (negb (PyStr.truthy (PyStr.strip results))); [trivial |].
  destruct (Processing.process_search_results _ _ call_model _ _ _ _);
    cbn [bind]; discriminate.
Qed.

Context {L : PydanticLaws P}.

(** X28.  When [run] returns the response of a search, the response is
    consistent: its total is the number of its opportunities, and every
    opportunity is normalized for the keywords the response names. *)
Theorem run_results_consistent
        (call_model : list string -> string -> list string -> result (option string))
        (raw_data : string) (response : SearchResponse) :
  run_with call_model raw_data = Results response ->
  sm_total_results (sr_search_metadata response)
  = Z.of_nat (List.length (sr_opportunities response))
  /\ Forall (normalized (sm_keywords (sr_search_metadata response)))
            (sr_opportunities response).
Proof.
  unfold run, run_body.
  destruct (json_loads raw_data) as [[| | | | | | d] |]; try discriminate.
  destruct (SearchRequest_init validate_int d) as [request | e]; cbn [bind];
    [| discriminate].
  destruct (search _ _ _) as [results | e]; cbn [bind]; [| discriminate].
  destruct (negb (PyStr.truthy (PyStr.strip results))); [discriminate |].
  destruct (Processing.process_search_results _ _ call_model _ _ _ _)
    as [r |] eqn:E; cbn [bind]; [| discriminate].
  intros H; injection H as <-.
  destruct (ProcessingFacts.process_search_results_ok
              json_loads uuid4_hex call_model utcnow_isoformat _ _ _ _ E)
    as (Htotal & Hk & _ & Hall).
  split; [exact Htotal | now rewrite Hk].
Qed.

End WithRequest.

End WithTemplates.

Lemma build_queries_unique_witness :
  exists qs,
    _build_queries Requests.templates Requests.after_keyword ["ai"; "ml"; "ai"]
                   ["summit"] = Ok qs
    /\ NoDup qs /\ (List.length qs <= 3 * (2 + 1))%nat.
Proof.
  eexists; split; [vm_compute; reflexivity |].
  match goal with
  | |- NoDup ?qs /\ _ =>
      destruct (build_queries_unique Requests.templates Requests.after_keyword
                                     ["ai"; "ml"; "ai"] ["summit"] qs)
        as (Hnodup & _ & Hlen & _); [vm_compute; reflexivity |]
  end.
  split; [exact Hnodup | exact Hlen].
Defined.

Lemma run_search_queries_witness :
  exists request qs,
    @SearchRequest_init Models.strict Requests.strict_int Requests.request_fifty
    = Ok request
    /\ search_queries Requests.templates Requests.after_keyword
                      (rq_keywords request) (rq_opportunity_types request)
                      (max_queries request) = Ok qs
    /\ 1 <= max_queries request <= 5
    /\ Z.of_nat (List.length qs) <= max_queries request
    /\ NoDup qs.
Proof.
  eexists; eexists; split; [vm_compute; reflexivity |].
  split; [vm_compute; reflexivity |].
  match goal with
  | |- _ <= max_queries ?r <= _ /\ Z.of_nat (List.length ?qs) <= _ /\ _ =>
      destruct (@run_search_queries
                  Requests.templates Requests.after_keyword Models.strict
                  Requests.strict_int Requests.request_fifty r qs)
        as (_ & _ & _ & _ & Hmax & _ & Hlen & Hnodup);
        [vm_compute; reflexivity | vm_compute; reflexivity |]
  end.
  split; [exact Hmax | split; [exact Hlen | exact Hnodup]].
Defined.

Lemma run_without_model_witness :
  Requests.run Requests.search_nothing (Requests.model "[{'event_name': 'Conf Z'}]")
               "{'keywords': ['ai']}"
  = NoResults ["ai"] ["conference"; "seminar"; "webinar"].
Proof.
  apply (@run_without_model
           Models.strict Requests.strict_int Reference.json_loads Reference.uuid4_hex
           "2026-01-01T00:00:00" Requests.search_nothing
           (fun _ _ _ => Raise TypeError)
           (Requests.model "[{'event_name': 'Conf Z'}]")).
  vm_compute; reflexivity.
Defined.

Lemma run_results_consistent_witness :
  exists response,
    Requests.run Requests.search_page (Requests.model "[{'event_name': 'Conf Z'}, 7]")
                 "{'keywords': ['ai']}"
    = Results response
    /\ sm_total_results (sr_search_metadata response) = 1.
Proof.
  eexists; split; [vm_compute; reflexivity |].
  match goal with
  | |- sm_total_results (sr_search_metadata ?r) = _ =>
      destruct (@run_results_consistent
                  Models.strict Requests.strict_int Reference.json_loads
                  Reference.uuid4_hex "2026-01-01T00:00:00" Requests.search_page
                  ModelClaims.strict_laws
                  (Requests.model "[{'event_name': 'Conf Z'}, 7]")
                  (Reference.dq "{'keywords': ['ai']}") r)
        as (Htotal & _); [vm_compute; reflexivity | exact Htotal]
  end.
Defined.

End SearchFacts.
